(* ===== verification/_CoqProject ===== *)
-Q . S2P
Prelude.v
PyStr.v
Patterns.v
PyInt.v
Args.v
Parser.v
Env.v
Checker.v
Command.v
Scorer.v
Task.v
Cache.v
Json.v
Watch.v
