(* ===== verification/Prelude.v ===== *)
(** * Verification of the deepworkspace [/sync] commands

    The repository ships two Python scripts that compare a project's
    context document with the state of the working copy:

    - [src/docs/rules/scripts/sync.py] (the [/sync] command):
      [ContextParser.parse] reads the document into a [ProjectContext]
      (purpose, the list items of the "rules", "workflow", "never",
      "always" and "tech" sections, inline imperative lines, directory
      names of fenced tree diagrams); [AlignmentChecker.check_current_state]
      runs four checks (directory, git workflow, NEVER rules, structure)
      that append [AlignmentIssue]s; [SyncCommand] finds the document in
      the working directory or its ancestors, runs the parser and the
      checker, prints a report and exits with 0, 1 or 2.
    - [src/content/scripts/sync-advanced.py] (the advanced command):
      [AdvancedContextParser] scores lines by a keyword-weight table,
      classifies them and sorts them by importance, and guesses a project
      type; [TaskInference], [AlignmentEngine], [SyncCache] and
      [AdvancedSyncCommand] gather git state, suggest next steps, cache
      parsed contexts and poll in a watch loop.

    ** Files

    - [Prelude] (this file): Python text as code points ([pystr], literals
      [py "..."]), the hint databases [pystr] and [pystr_rw], the tactics
      [bool_props], [py_norm], [decide_goal], [case_tests], [N_cases],
      [sums], generic lemmas on lists and booleans.
    - [PyStr]: the Python library functions the scripts call ([str.lower],
      [strip], [split], [join], [startswith], [in], [pathlib] paths, dicts
      as association lists in insertion order), modelled from the Python
      documentation; split/join round trip, strip idempotence, ancestors of
      a path.
    - [Patterns]: every regular expression of [ContextParser] as a direct
      matcher with [re]'s search/match/sub/findall semantics, including
      [re.IGNORECASE] case folding and the Unicode [\d] class.
    - [Parser], Module [ContextParser]: [ProjectContext] and every method
      of the parser; the section scan is the loop with its [in_section]
      flag as a step function folded over the lines.
    - [Env]: the class [OS] of what the scripts ask of the system (working
      directory, file tests and reads, [subprocess.run]); [os_of_listing]
      builds concrete systems for the witnesses.
    - [Checker], Module [AlignmentChecker]: the issue types and the four
      checks as functions on the issue list, in a section over an [OS]
      instance and a [ProjectContext].
    - [Command], Module [SyncCommand]: [find_claude_md], [load_context],
      [analyze_alignment], [format_output], [run]; a run is the list of
      printed texts and the exit status.
    - [Scorer], Module [AdvancedContextParser]: [extract_semantic_rules]
      and [infer_project_type] of the advanced script.
    - [Task], Modules [TaskInference] and [AlignmentEngine]: the [try]
      block of [get_current_task_context] in a state-and-exception monad
      [TryM] over the mutated [TaskContext] (an exception keeps the fields
      set before it), with [keeps] and its hint database for properties
      every step preserves; [suggest_next_steps].
    - [Cache], Module [SyncCache]: the cache as a [gmap] keyed by the
      path's text, MD5 a section parameter; the abstract cache [abs_cache]
      that stores the file's bytes, and the refinement relation.
    - [PyInt]: Python's [int(s)] in base 10 (Unicode digits and blanks,
      underscores, the 4300-digit limit) and [str(n)], library code used by
      [argparse] for [--interval].
    - [Args], Module [ArgParse]: the option table of [main] and the
      algorithm of [argparse]'s [parse_args] (Python 3.11) over it.
    - [Json], Module [PyJson]: [json.dumps(o, indent=2, default=str)] as
      CPython 3.11 computes it (the Python encoder [_make_iterencode],
      [encode_basestring_ascii], [int.__repr__] with its digit limit) over
      Python values [pyval], and [json.loads] (the C scanner) into JSON
      values [json]; library code used by [output_json].
    - [Watch], Module [AdvancedSyncCommand]: the command object, the loop
      of [watch_mode] as a step relation [wstep] in an environment that
      changes from step to step, [run_check], [output_markdown],
      [output_json] and [main].

    ** Theorems

    - Section extraction (C1-C4): the spec's three-bullets example, items
      are stripped and non-empty, every item comes from a list line of an
      open section that is neither a heading nor a label line, and tree
      diagrams drawn with U+2500 yield no structure (a defect of the code).
    - Inline rules (C5): [_extract_inline_rules] returns the stripped
      lines in which the imperative pattern matches, read declaratively
      ([imperative_line] of Patterns): any case, inside words too, though
      the code's comment speaks of capitals.
    - Checker (C6-C8): the issue list is the concatenation of the four
      checks in order; the directory check warns exactly outside the
      document's directory; the git check's issues on main/master.
    - Command (C9-C13): the search order and the five-level bound of
      [find_claude_md]; [docs/README.md] always triggers the location
      warning; the exit status is 2 exactly on a critical git issue; the
      report ends with the recalibration note exactly when the status
      is 2 (no line built from the document can imitate it).
    - Scorer (C14-C19): the sort is the unique stable descending sort;
      the extracted rules are exactly the positively scored lines with
      their fields; score = sum of the present keywords' weights;
      importance in [0.5, 19.0] so the float sums are exact; the spec's
      "must only means requirement" fails on "don't"/"avoid"; the project
      type is the first type with the most indicator hits.
    - Task inference (C20-C24): an exception in the branch query skips the
      other queries; outside a repository the scope is "none", not
      "unknown"; the fields when the queries succeed; a blank status line
      leaves the files, type and scope at their defaults; a failed
      [git log] leads to the first-commit suggestion (a [keeps] invariant).
    - Cache (C25-C26): with a collision-free digest [SyncCache] refines the
      content-validated cache; set-then-get round trip.
    - Command line (C27): every namespace is what [parse_args] returns
      for the command line [to_argv] writes (a round trip through
      [int(str(n))]).
    - Advanced command (C28-C30): [watch_mode] ends within two steps, by
      interrupt or by the [AttributeError] of [self.find_claude_md] (the
      loop never polls); the markdown entries are the issues of the three
      known levels; without [--watch], [main] prints nothing, whatever the
      other options.
    - Equivalence (C31): the early-exit loop of [_extract_purpose] equals
      "the first three stripped purpose lines of the first twenty".
    - Compositions (C32-C33): the engine's feature-branch suggestion
      appears exactly when [git branch --show-current] succeeds and prints
      [main] (never for [master], unlike the checker of sync.py), through
      the whole query sequence ([current_branch_result]); sync.py's
      command exits 0 exactly when it reads a file whose directory
      contains the working directory and the git check finds no branch
      rule on main/master, so suggestions never change the status.

    The library files also prove facts of the models they use, which are
    not claims about the scripts: the fuel of [fence_findall] suffices
    ([fence_findall_fuel_enough]), [int()] bounds [--interval] to 4300
    digits ([parse_args_interval_bound]), and [json.loads] reads back what
    [json.dumps] writes ([PyJson.loads_dumps]), with the raising cases
    ([PyJson.dumps_raises]) and the ASCII output ([PyJson.dumps_ascii]).

    ** Bounds and fuel

    Importances are multiples of 0.5 below 19.0 and are kept as integers
    of half units ([importance2]); their float sums are exact, which
    [extracted_rule_bounds] justifies. The only loop that is not structural
    is [re.findall] over fenced blocks: [fence_findall_fuel] takes fuel, and
    [fence_findall] gives it the length of the text, which is enough
    because each round consumes at least one code point
    ([fence_findall_fuel_enough]). Exit statuses and [--interval] are [Z];
    [int()] bounds a literal to 4300 digits, which [parse_args_to_argv]
    assumes and [parse_args_interval_bound] proves of every result.
    [flag_chain] takes the length of the word as fuel, one round per glued
    flag. [dec_digits] takes the bit length of the number as fuel: each
    round divides by ten. [json.loads] gives its scanner the length of the
    text as fuel: each call of [scan_once], [parse_array] and
    [parse_object] takes one unit, and [size_le_length] shows that a text
    [json.dumps] writes is at least as long as the number of calls that
    read it back.

    ** Not modelled

    Printing and [sys.exit] are modelled through the outcome of a run
    (printed lines, exit status or exception); the clock ([time.time],
    [time.sleep], [datetime.now]) enters as arguments, and the terminal
    ([os.system('clear')]) is not modelled. The system of [Env] answers a
    command the same way each time it runs, so the [git branch] call that
    the git check repeats for every branch rule gets one answer, and its
    file tests are total, where [Path.exists] of Python 3.11 can raise on
    a permission error; an interrupt inside the git check, which its bare
    [except] would swallow, is not modelled. MD5 digests are a parameter
    (the refinement assumes it has no collision). [output_json] is one
    call of [json.dumps], modelled in Json.v without floats
    ([float.__repr__], the shortest round-tripping repr, is not modelled) and
    without the interpreter's recursion limit, which a value nested
    about a thousand levels deep would reach; the help text that [--help]
    prints is not modelled. The character
    classes [\d] and [\w] are Python 3.11's Unicode tables;
    [str.lower] maps only the characters whose lower case is ASCII, which
    is all that the [in] tests against the scripts' ASCII keywords observe.
    The regular expressions, [int()], [parse_args], [json.dumps] and
    [json.loads] were compared with CPython 3.11 on thousands of random
    inputs. *)

From Stdlib Require Strings.String Strings.Ascii.
From Stdlib Require Export NArith Lia.
From stdpp Require Export base list decidable.
Export String.StringSyntax.

(** ** Python text

    A Python [str] is a sequence of Unicode code points; the development
    represents it as [list N], one [N] per code point, so that [len], slicing
    and the regular-expression classes count code points as Python does.
    Source literals are written [py "..."]: the Rocq string literal holds the
    UTF-8 bytes of the source text and [of_utf8] decodes them. *)

Abbreviation pychar := N.
Abbreviation pystr := (list N).

Declare Scope py_scope.
Delimit Scope py_scope with py.

Definition byte (a : Ascii.ascii) : N := Ascii.N_of_ascii a.

(** UTF-8 decoding (1 to 4 bytes per code point). A truncated sequence at the
    end of the literal decodes its lead byte as is; literals of the
    development are well formed, so this case never arises. *)
Fixpoint of_utf8 (s : String.string) : list N :=
  match s with
  | String.EmptyString => []
  | String.String a s1 =>
      let b0 := byte a in
      if (b0 <? 128)%N then b0 :: of_utf8 s1
      else if (b0 <? 224)%N then
        match s1 with
        | String.String a1 s2 =>
            ((b0 mod 32) * 64 + byte a1 mod 64)%N :: of_utf8 s2
        | String.EmptyString => [b0]
        end
      else if (b0 <? 240)%N then
        match s1 with
        | String.String a1 (String.String a2 s3) =>
            ((b0 mod 16) * 4096 + (byte a1 mod 64) * 64 + byte a2 mod 64)%N
              :: of_utf8 s3
        | _ => [b0]
        end
      else
        match s1 with
        | String.String a1 (String.String a2 (String.String a3 s4)) =>
            ((b0 mod 8) * 262144 + (byte a1 mod 64) * 4096
              + (byte a2 mod 64) * 64 + byte a3 mod 64)%N :: of_utf8 s4
        | _ => [b0]
        end
  end.

Definition py (s : String.string) : pystr := of_utf8 s.
Arguments py s%_string_scope.

(** A single code point given by its literal. *)
Definition chr (s : String.string) : pychar := List.hd 0%N (of_utf8 s).
Arguments chr s%_string_scope.

(** ** Automation shared by the development *)

Create HintDb pystr.
Create Rewrite HintDb pystr_rw.

(** Turn boolean connectives in hypotheses and goal into propositions. *)
Ltac bool_props :=
  repeat match goal with
  | H : (_ && _) = true |- _ => apply andb_prop in H as [? ?]
  | H : (_ || _) = false |- _ => apply orb_false_elim in H as [? ?]
  | H : negb _ = true |- _ => apply negb_true_iff in H
  | H : negb _ = false |- _ => apply negb_false_iff in H
  | H : (_ =? _)%N = true |- _ => apply N.eqb_eq in H
  end.

(** Replace every source literal [py "..."] of the goal and the context by
    its list of code points, so that [simpl] computes on it. *)
Ltac py_norm :=
  repeat match goal with
  | |- context [py ?s] => let v := eval vm_compute in (py s) in change (py s) with v
  | H : context [py ?s] |- _ =>
      let v := eval vm_compute in (py s) in change (py s) with v in H
  end.

(** Close a decidable closed goal by evaluation. *)
Ltac decide_goal :=
  match goal with |- ?P => apply (bool_decide_unpack P); vm_compute; exact I end.

(** Case on every boolean test and match in the goal, simplifying as it goes. *)
Ltac case_tests :=
  repeat (simpl in *; match goal with
  | |- context [if ?b then _ else _] => destruct b eqn:?
  | H : context [if ?b then _ else _] |- _ => destruct b eqn:?
  end); try congruence.

(** Case on every comparison of [N] numbers in the goal. *)
Ltac N_cases :=
  repeat match goal with
  | |- context [(?a =? ?b)%N] => destruct (N.eqb_spec a b)
  | |- context [(?a <? ?b)%N] => destruct (N.ltb_spec a b)
  | |- context [(?a <=? ?b)%N] => destruct (N.leb_spec a b)
  end.

(** ** Generic lemmas on lists, options and booleans *)

Lemma existsb_false_forall {A} (f : A -> bool) (l : list A) :
  existsb f l = false <-> (forall x, In x l -> f x = false).
Proof.
  induction l as [|y l IH]; simpl; [tauto|].
  rewrite orb_false_iff, IH. split.
  - intros [Hy Hl] x [<-|Hx]; auto.
  - intros H. split; auto.
Qed.

Lemma filter_nil_forall {A} (f : A -> bool) (l : list A) :
  Forall (fun x => f x = false) l -> List.filter f l = [].
Proof. induction 1 as [|x l Hx _ IH]; simpl; [done|]. by rewrite Hx. Qed.

(** An element of a filtered list splits the list it comes from. *)
Lemma filter_split {A} (f : A -> bool) (l pre' post' : list A) (x : A) :
  List.filter f l = pre' ++ x :: post' ->
  exists pre post, l = pre ++ x :: post /\
    List.filter f pre = pre' /\ List.filter f post = post'.
Proof.
  revert pre'. induction l as [|y l IH]; intros pre' H; simpl in H.
  { by destruct pre'. }
  destruct (f y) eqn:Hy.
  - destruct pre' as [|z pre']; simpl in H; injection H as Hyz H; subst.
    + by exists [], l.
    + destruct (IH pre' H) as (pre & post & -> & Hpre & Hpost).
      exists (z :: pre), post. simpl. by rewrite Hy, Hpre.
  - destruct (IH pre' H) as (pre & post & -> & Hpre & Hpost).
    exists (y :: pre), post. simpl. by rewrite Hy, Hpre.
Qed.

Lemma Forall_filter_lift {A} (f : A -> bool) (P : A -> Prop) (l : list A) :
  (forall x, f x = false -> P x) -> Forall P (List.filter f l) -> Forall P l.
Proof.
  intros Hf. induction l as [|y l IH]; simpl; [done|].
  destruct (f y) eqn:Hy; intros H.
  - apply list.Forall_cons in H as [? ?]. constructor; auto.
  - constructor; auto.
Qed.

Lemma sum_cons (x : nat) (l : list nat) : list_sum (x :: l) = (x + list_sum l)%nat.
Proof. reflexivity. Qed.

(** Unfold sums of mapped lists one element at a time, everywhere. *)
Ltac sums := repeat (rewrite ?map_cons, ?sum_cons in *); cbn beta iota in *.

#[export] Hint Rewrite @app_nil_r @app_assoc : pystr_rw.
