(* ===== verification/PyStr.v ===== *)
(** * Python's text primitives used by the scripts

    [str.lower], [str.strip]/[lstrip]/[rstrip], [str.split(sep)],
    [str.split()], [sep.join(...)], [str.startswith], the [in] test on
    strings and [pathlib] paths, over code-point strings ([pystr]).
    These are library functions of Python, not code of the repository: they
    carry no entry of the map and are modelled from the Python language
    reference. [str_lower] maps the characters whose lower case is an ASCII
    letter (A-Z, U+0130, U+212A); other Unicode case mappings go from
    non-ASCII to non-ASCII and cannot change any [in] test against the
    ASCII needles of the scripts, which are the only use of [lower()]. *)

From S2P Require Import Prelude.
Local Open Scope N_scope.

(** ** Characters *)

(** [str.isspace] / the [\s] class of [re] for [str] patterns (Unicode
    White_Space plus the separators U+001C..U+001F). *)
Definition isspace (c : pychar) : bool :=
  ((9 <=? c) && (c <=? 13)) || ((28 <=? c) && (c <=? 32)) || (c =? 133)
  || (c =? 160) || (c =? 5760) || ((8192 <=? c) && (c <=? 8202))
  || (c =? 8232) || (c =? 8233) || (c =? 8239) || (c =? 8287) || (c =? 12288).

Definition lower_char (c : pychar) : list pychar :=
  if (65 <=? c) && (c <=? 90) then [c + 32]
  else if c =? 304 then [105; 775]
  else if c =? 8490 then [107]
  else [c].

Definition str_lower (s : pystr) : pystr := flat_map lower_char s.

(** ** Stripping *)

Fixpoint str_lstrip (s : pystr) : pystr :=
  match s with
  | c :: s' => if isspace c then str_lstrip s' else s
  | [] => []
  end.

Definition str_rstrip (s : pystr) : pystr := rev (str_lstrip (rev s)).

Definition str_strip (s : pystr) : pystr := str_rstrip (str_lstrip s).

(** ** Splitting and joining *)

(** Split at every character satisfying [p], keeping empty pieces. *)
Fixpoint split_by (p : pychar -> bool) (s : pystr) : list pystr :=
  match s with
  | [] => [[]]
  | c :: s' =>
      let parts := split_by p s' in
      if p c then [] :: parts
      else match parts with
           | w :: ws => (c :: w) :: ws
           | [] => [[c]]
           end
  end.

(** [s.split(sep)] for a one-character separator. *)
Definition str_split (sep : pychar) (s : pystr) : list pystr :=
  split_by (fun c => c =? sep) s.

(** [s.split()]: runs of whitespace separate, no empty pieces. *)
Definition str_split_ws (s : pystr) : list pystr :=
  List.filter (fun w => negb (bool_decide (w = []))) (split_by isspace s).

(** [sep.join(l)]. *)
Fixpoint str_join (sep : pystr) (l : list pystr) : pystr :=
  match l with
  | [] => []
  | [x] => x
  | x :: l' => x ++ sep ++ str_join sep l'
  end.

(** ** Prefix and substring tests *)

Fixpoint str_startswith (p s : pystr) : bool :=
  match p, s with
  | [], _ => true
  | c :: p', d :: s' => (c =? d) && str_startswith p' s'
  | _ :: _, [] => false
  end.

(** [needle in hay]. *)
Fixpoint str_in (needle hay : pystr) : bool :=
  str_startswith needle hay
  || match hay with [] => false | _ :: h => str_in needle h end.

(** Case-sensitive prefix match: the rest of [s] after [p]. *)
Fixpoint match_prefix (p s : pystr) : option pystr :=
  match p, s with
  | [], _ => Some s
  | c :: p', d :: s' => if c =? d then match_prefix p' s' else None
  | _ :: _, [] => None
  end.

Fixpoint take_while (f : pychar -> bool) (s : pystr) : pystr :=
  match s with c :: s' => if f c then c :: take_while f s' else [] | [] => [] end.

Fixpoint drop_while (f : pychar -> bool) (s : pystr) : pystr :=
  match s with c :: s' => if f c then drop_while f s' else s | [] => [] end.

(** ** Dictionaries

    A Python [dict] as the list of its items in insertion order: assigning
    an existing key replaces its value in place, a new key goes last. *)

Abbreviation pydict V := (list (pystr * V)).

Fixpoint dict_set {V} (k : pystr) (v : V) (d : pydict V) : pydict V :=
  match d with
  | [] => [(k, v)]
  | (k', v') :: d' =>
      if bool_decide (k' = k) then (k, v) :: d' else (k', v') :: dict_set k v d'
  end.

(** [k in d]. *)
Definition dict_in {V} (k : pystr) (d : pydict V) : bool :=
  existsb (fun kv => bool_decide (kv.1 = k)) d.

(** ** Paths ([pathlib.PurePosixPath], absolute) *)

(** An absolute path by its components after the root. *)
Record path := Path { parts : list pystr }.

#[export] Instance path_eq_dec : EqDecision path.
Proof. solve_decision. Defined.

(** [p.parent]: the root is its own parent. *)
Definition path_parent (p : path) : path := Path (removelast (parts p)).

(** [p.parents]: every proper ancestor, nearest first. *)
Definition path_parents (p : path) : list path :=
  map (fun n => Path (firstn n (parts p))) (rev (seq 0 (length (parts p)))).

(** [p / "a/b"] with the relative path given by its components. *)
Definition path_div (p : path) (rel : list pystr) : path := Path (parts p ++ rel).

(** [p.name]: the last component, empty for the root. *)
Definition path_name (p : path) : pystr := last (parts p) [].

(** [str(p)]. *)
Definition path_str (p : path) : pystr :=
  match parts p with
  | [] => [47]
  | l => concat (map (fun c => 47 :: c) l)
  end.

(** ** Lemmas *)

Lemma str_startswith_spec (p s : pystr) :
  str_startswith p s = true <-> exists r, s = p ++ r.
Proof.
  revert s; induction p as [|c p IH]; intros [|d s]; simpl.
  - split; eauto.
  - split; eauto.
  - split; [discriminate|intros [r Hr]; discriminate].
  - rewrite andb_true_iff, N.eqb_eq, IH. split.
    + intros [-> [r ->]]. eauto.
    + intros [r Hr]. injection Hr as -> ->. eauto.
Qed.

Lemma str_in_spec (n h : pystr) :
  str_in n h = true <-> exists a b, h = a ++ n ++ b.
Proof.
  induction h as [|c h IH]; simpl.
  - rewrite orb_false_r, str_startswith_spec. split.
    + intros [r Hr]. exists [], r. done.
    + intros [a [b Hab]]. exists b.
      destruct a, n; simpl in *; congruence.
  - rewrite orb_true_iff, str_startswith_spec, IH. split.
    + intros [[r Hr] | [a [b ->]]].
      * exists [], r. done.
      * exists (c :: a), b. done.
    + intros [[|c' a] [b Hab]]; simpl in Hab.
      * left. eauto.
      * right. injection Hab as -> ->. eauto.
Qed.

Lemma str_in_app_l (n a b : pystr) :
  str_in n a = true -> str_in n (a ++ b) = true.
Proof.
  rewrite !str_in_spec. intros [x [y ->]]. exists x, (y ++ b).
  by rewrite <- !app_assoc.
Qed.

Lemma str_in_app_r (n a b : pystr) :
  str_in n b = true -> str_in n (a ++ b) = true.
Proof.
  rewrite !str_in_spec. intros [x [y ->]]. exists (a ++ x), y.
  by rewrite <- !app_assoc.
Qed.

Lemma str_lower_app (a b : pystr) :
  str_lower (a ++ b) = str_lower a ++ str_lower b.
Proof. apply flat_map_app. Qed.

#[export] Hint Rewrite str_lower_app : pystr_rw.
#[export] Hint Resolve str_in_app_l str_in_app_r : pystr.

(** Splitting a joined list of pieces that contain no separator gives the
    pieces back, and joining the pieces of a split gives the text back. *)
Lemma split_by_app_sep (p : pychar -> bool) (w : pystr) (c : pychar) (s : pystr) :
  Forall (fun x => p x = false) w -> p c = true ->
  split_by p (w ++ c :: s) = w :: split_by p s.
Proof.
  intros Hw Hc. induction Hw as [|x w Hx Hw IH]; simpl.
  - by rewrite Hc.
  - by rewrite IH, Hx.
Qed.

Lemma split_by_nosep (p : pychar -> bool) (w : pystr) :
  Forall (fun x => p x = false) w -> split_by p w = [w].
Proof.
  intros Hw. induction Hw as [|x w Hx Hw IH]; simpl; [done|].
  by rewrite IH, Hx.
Qed.

Lemma str_split_join (sep : pychar) (ws : list pystr) :
  ws <> [] -> Forall (fun w => sep ∉ w) ws ->
  str_split sep (str_join [sep] ws) = ws.
Proof.
  unfold str_split. intros Hne Hws.
  assert (Hno : forall w, sep ∉ w -> Forall (fun x => (x =? sep) = false) w).
  { intros w Hw. apply Forall_forall. intros x Hx.
    apply N.eqb_neq. intros ->. apply Hw. by apply list_elem_of_In. }
  induction Hws as [|w ws Hw Hws IH]; [done|].
  destruct ws as [|w' ws].
  - simpl. by apply split_by_nosep, Hno.
  - change (str_join [sep] (w :: w' :: ws))
      with (w ++ sep :: str_join [sep] (w' :: ws)).
    rewrite split_by_app_sep; [|by apply Hno|by apply N.eqb_refl].
    by rewrite IH.
Qed.

Lemma split_by_not_nil (p : pychar -> bool) (s : pystr) : split_by p s <> [].
Proof.
  destruct s as [|c s]; simpl; [done|].
  destruct (p c), (split_by p s); done.
Qed.

Lemma str_join_cons2 (sep x y : pystr) (l : list pystr) :
  str_join sep (x :: y :: l) = x ++ sep ++ str_join sep (y :: l).
Proof. reflexivity. Qed.

Lemma str_join_split (sep : pychar) (s : pystr) :
  str_join [sep] (str_split sep s) = s.
Proof.
  unfold str_split. induction s as [|c s IH]; simpl; [done|].
  pose proof (split_by_not_nil (fun c => c =? sep) s) as Hne.
  destruct (split_by _ s) as [|w ws]; [done|].
  destruct (c =? sep) eqn:E.
  - apply N.eqb_eq in E as ->. rewrite str_join_cons2, IH. done.
  - destruct ws as [|w' ws]; [simpl in *; by subst|].
    rewrite str_join_cons2 in IH |- *. by rewrite <- IH.
Qed.

(** [str.strip] leaves no whitespace at either end and is idempotent. *)
Lemma str_lstrip_head (s : pystr) c r :
  str_lstrip s = c :: r -> isspace c = false.
Proof.
  induction s as [|d s IH]; simpl; [discriminate|].
  destruct (isspace d) eqn:E; [exact IH|]. intros [= -> ->]. exact E.
Qed.

Lemma str_lstrip_idem (s : pystr) : str_lstrip (str_lstrip s) = str_lstrip s.
Proof.
  induction s as [|c s IH]; simpl; [done|].
  destruct (isspace c) eqn:E; [exact IH|]. simpl. by rewrite E.
Qed.

Lemma str_lstrip_noop (s : pystr) :
  (forall c r, s = c :: r -> isspace c = false) -> str_lstrip s = s.
Proof. destruct s as [|c s]; simpl; [done|]. intros H. by rewrite (H c s). Qed.

(** [d in c.parents] holds exactly when [c] lies strictly below [d]. *)
Lemma path_in_parents (d c : path) :
  d ∈ path_parents c <-> exists r, r <> [] /\ parts c = parts d ++ r.
Proof.
  unfold path_parents. rewrite list_elem_of_In, in_map_iff. split.
  - intros [n [<- Hn]]. apply in_rev, in_seq in Hn. simpl.
    exists (skipn n (parts c)). split; [|by rewrite firstn_skipn].
    intros Hs. apply (f_equal length) in Hs. rewrite length_skipn in Hs.
    simpl in Hs. lia.
  - intros [r [Hr Hc]]. exists (length (parts d)). split.
    + destruct d as [pd]. simpl in *.
      by rewrite Hc, firstn_app, firstn_all, Nat.sub_diag, app_nil_r.
    + rewrite <- in_rev, in_seq, Hc, length_app.
      destruct r; [done|simpl; lia].
Qed.

(** Assigning a key makes it present; other keys keep their presence. *)
Lemma dict_in_set {V} (k k' : pystr) (v : V) (d : pydict V) :
  dict_in k' (dict_set k v d) = bool_decide (k = k') || dict_in k' d.
Proof.
  unfold dict_in. induction d as [|[k0 v0] d IH]; simpl.
  - by rewrite orb_false_r.
  - destruct (decide (k0 = k)) as [->|E].
    + rewrite bool_decide_true by done. simpl.
      destruct (bool_decide (k = k')); done.
    + rewrite bool_decide_false by done. simpl. rewrite IH.
      destruct (bool_decide (k0 = k')), (bool_decide (k = k')); done.
Qed.

Lemma dict_set_key_elem {V} (k x : pystr) (v : V) (d : pydict V) :
  x ∈ (dict_set k v d).*1 -> x = k \/ x ∈ d.*1.
Proof.
  induction d as [|[k0 v0] d IH]; simpl.
  - rewrite list_elem_of_singleton. tauto.
  - case_bool_decide; rewrite !fmap_cons, !elem_of_cons; simpl; [subst; tauto|].
    intros [->|Hx]; [tauto|]. destruct (IH Hx); tauto.
Qed.

(** Setting a key keeps the keys of a dict distinct. *)
Lemma dict_set_nodup {V} (k : pystr) (v : V) (d : pydict V) :
  NoDup d.*1 -> NoDup (dict_set k v d).*1.
Proof.
  induction d as [|[k0 v0] d IH]; simpl; intros Hnd.
  - constructor; [apply not_elem_of_nil|constructor].
  - simpl in Hnd. apply list.NoDup_cons in Hnd as [Hk0 Hnd].
    case_bool_decide as E; simpl; apply list.NoDup_cons.
    + subst. by split.
    + split; [|by apply IH]. intros [->|Hx]%dict_set_key_elem; [done|by apply Hk0].
Qed.

Lemma dict_set_values {V} (P : V -> Prop) (k : pystr) (v : V) (d : pydict V) :
  P v -> Forall (fun kv => P kv.2) d -> Forall (fun kv => P kv.2) (dict_set k v d).
Proof.
  intros Hv. induction 1 as [|[k0 v0] d H0 Hd IH]; simpl; [by repeat constructor|].
  case_bool_decide; constructor; simpl; auto.
Qed.

Lemma match_prefix_spec (p s r : pystr) : match_prefix p s = Some r <-> s = p ++ r.
Proof.
  revert s; induction p as [|c p IH]; intros [|d s]; simpl;
    try (split; congruence).
  destruct (c =? d) eqn:E.
  - apply N.eqb_eq in E as ->. rewrite IH. split; [by intros ->|congruence].
  - apply N.eqb_neq in E. split; congruence.
Qed.

Lemma take_drop_while (f : pychar -> bool) (s : pystr) :
  take_while f s ++ drop_while f s = s.
Proof. induction s as [|c s IH]; simpl; [done|]. destruct (f c); simpl; congruence. Qed.

(** [str.strip] removes a prefix and a suffix; a stripped text is its own
    [lstrip]; [strip] is idempotent. *)
Lemma str_lstrip_suffix (s : pystr) : exists p, s = p ++ str_lstrip s.
Proof.
  induction s as [|c s [p Hp]]; simpl; [by exists []|].
  destruct (isspace c); [exists (c :: p); simpl; congruence|by exists []].
Qed.

Lemma str_lstrip_length (s : pystr) : (length (str_lstrip s) <= length s)%nat.
Proof. destruct (str_lstrip_suffix s) as [p Hp]. rewrite Hp at 2. rewrite length_app. lia. Qed.

Lemma str_lstrip_length_eq (s : pystr) :
  length (str_lstrip s) = length s -> str_lstrip s = s.
Proof.
  destruct (str_lstrip_suffix s) as [[|c p] Hp]; [done|].
  rewrite Hp at 2. simpl. rewrite length_app. lia.
Qed.

Lemma str_strip_lstrip (s : pystr) : str_strip s = s -> str_lstrip s = s.
Proof.
  unfold str_strip, str_rstrip. intros H. apply str_lstrip_length_eq.
  apply (f_equal length) in H. rewrite length_rev in H.
  pose proof (str_lstrip_length (rev (str_lstrip s))) as H1.
  rewrite length_rev in H1. pose proof (str_lstrip_length s). lia.
Qed.

(** [rev (str_lstrip (rev u))] is a prefix of [u]. *)
Lemma str_rstrip_prefix (u : pystr) : exists q, u = str_rstrip u ++ q.
Proof.
  unfold str_rstrip. destruct (str_lstrip_suffix (rev u)) as [p Hp].
  exists (rev p). rewrite <- rev_app_distr, <- Hp. by rewrite rev_involutive.
Qed.

Lemma str_strip_idem (s : pystr) : str_strip (str_strip s) = str_strip s.
Proof.
  unfold str_strip at 1 2.
  assert (Hl : str_lstrip (str_rstrip (str_lstrip s)) = str_rstrip (str_lstrip s)).
  { apply str_lstrip_noop. intros c r Hcr.
    destruct (str_rstrip_prefix (str_lstrip s)) as [q Hq].
    rewrite Hcr in Hq. simpl in Hq. by apply (str_lstrip_head s c (r ++ q)). }
  rewrite Hl. unfold str_rstrip. rewrite rev_involutive, str_lstrip_idem.
  done.
Qed.

Lemma str_lstrip_nil (v : pystr) :
  str_lstrip v = [] -> Forall (fun c => isspace c = true) v.
Proof.
  induction v as [|c v IH]; simpl; [constructor|].
  destruct (isspace c) eqn:E; [|discriminate]. intros H. constructor; auto.
Qed.

(** A text that starts with a non-blank character keeps it in front when
    stripped. *)
Lemma str_strip_cons (c : pychar) (s : pystr) :
  isspace c = false -> exists r, str_strip (c :: s) = c :: r.
Proof.
  intros Hc. unfold str_strip. simpl. rewrite Hc.
  destruct (str_rstrip_prefix (c :: s)) as [q Hq].
  destruct (str_rstrip (c :: s)) as [|d r] eqn:E.
  - exfalso. unfold str_rstrip in E. apply (f_equal (@rev _)) in E.
    rewrite rev_involutive in E. apply str_lstrip_nil in E.
    simpl in Hq. subst q. apply Forall_rev in E. rewrite rev_involutive in E.
    inversion E; congruence.
  - simpl in Hq. injection Hq as -> _. by exists r.
Qed.

Lemma str_join_not_elem (c : pychar) (sep : pystr) (ls : list pystr) :
  c ∉ sep -> Forall (fun l => c ∉ l) ls -> c ∉ str_join sep ls.
Proof.
  intros Hs Hl. induction Hl as [|l ls Hl Hls IH]; [apply not_elem_of_nil|].
  destruct ls as [|l' ls]; [done|].
  rewrite str_join_cons2, !elem_of_app. intros [H|[H|H]]; auto.
Qed.
