(* ===== verification/PyInt.v ===== *)
(** * Python's [int(s)] and [str(n)] in base 10

    [argparse] converts the value of [--interval] with [type=int], that is
    [int(s)]. Python 3.11 reads a base-10 literal as follows: every
    non-ASCII decimal digit is read as its value and every non-ASCII
    whitespace character as a blank; leading and trailing ASCII whitespace
    (tab to carriage return, and the space) is skipped; then an optional
    sign and at least one digit, single underscores allowed between digits;
    a literal of more than 4300 digits raises ([sys.get_int_max_str_digits]).
    [str(n)] prints the sign and the ASCII digits. This is library code,
    modelled from the language reference and checked against CPython 3.11;
    it has no entry in the map. *)

From S2P Require Import Prelude PyStr Patterns.
From Stdlib Require Import ZArith.
Local Open Scope N_scope.

Module PyInt.

(** The whitespace [int] skips, once non-ASCII blanks are turned into
    ASCII spaces: [Py_ISSPACE] on ASCII, [str.isspace] beyond. *)
Definition int_space (c : pychar) : bool :=
  if c <=? 127 then (c =? 32) || ((9 <=? c) && (c <=? 13)) else isspace c.

(** The value of a decimal digit: each range of [decimal_ranges] is a run
    of blocks of ten digits starting at a zero. *)
Definition decimal_value (c : pychar) : option N :=
  match List.find (fun '(lo, hi) => (lo <=? c) && (c <=? hi)) decimal_ranges with
  | Some (lo, _) => Some ((c - lo) mod 10)
  | None => None
  end.

(** The digits after the first one: each optionally preceded by one
    underscore. *)
Fixpoint us_digits (s : pystr) : option (list N) :=
  match s with
  | [] => Some []
  | c :: r =>
      if c =? 95 then
        match r with
        | c' :: r' => match decimal_value c' with
                      | Some d => cons d <$> us_digits r'
                      | None => None
                      end
        | [] => None
        end
      else match decimal_value c with
           | Some d => cons d <$> us_digits r
           | None => None
           end
  end.

Definition int_digits (s : pystr) : option (list N) :=
  match s with
  | c :: r => match decimal_value c with
              | Some d => cons d <$> us_digits r
              | None => None
              end
  | [] => None
  end.

Definition digits_value (ds : list N) : N := fold_left (fun acc d => acc * 10 + d) ds 0.

Definition max_str_digits : nat := 4300.

(** [int(s)]; [None] is the [ValueError]. *)
Definition py_int (s : pystr) : option Z :=
  let body := List.rev (drop_while int_space (List.rev (drop_while int_space s))) in
  let '(neg, ds) := match body with
                    | c :: r => if c =? 45 then (true, r) else if c =? 43 then (false, r)
                                else (false, body)
                    | [] => (false, body)
                    end in
  match int_digits ds with
  | Some digits =>
      if (length digits <=? max_str_digits)%nat then
        Some (if neg then Z.opp (Z.of_N (digits_value digits)) else Z.of_N (digits_value digits))
      else None
  | None => None
  end.

(** [str(n)]: the decimal digits of [n], most significant first, with
    enough fuel (one round per bit of [n]). *)
Fixpoint dec_digits (fuel : nat) (n : N) : list N :=
  match fuel with
  | O => [n]
  | S f => if n <? 10 then [n] else dec_digits f (n / 10) ++ [n mod 10]
  end.

Definition str_of_N (n : N) : pystr := map (fun d => 48 + d) (dec_digits (N.to_nat (N.size n)) n).

Definition str_of_Z (z : Z) : pystr :=
  if (z <? 0)%Z then 45 :: str_of_N (Z.to_N (Z.opp z)) else str_of_N (Z.to_N z).

(** ** Digits *)

Lemma digits_value_app ds d : digits_value (ds ++ [d]) = digits_value ds * 10 + d.
Proof. unfold digits_value. by rewrite fold_left_app. Qed.

Lemma digits_value_bound ds :
  Forall (fun d => d < 10) ds -> digits_value ds < 10 ^ N.of_nat (length ds).
Proof.
  induction ds as [|d ds IH] using rev_ind; intros H; [unfold digits_value; simpl; lia|].
  rewrite Forall_app, list.Forall_singleton in H. destruct H as [Hds Hd].
  rewrite digits_value_app, length_app, Nat2N.inj_add, N.pow_add_r.
  specialize (IH Hds). cbn [length]. change (10 ^ N.of_nat 1) with 10.
  remember (10 ^ N.of_nat (length ds)) as X. lia.
Qed.

Lemma div10_fuel f n : n < 2 ^ N.of_nat (S f) -> n / 10 < 2 ^ N.of_nat f.
Proof.
  rewrite Nat2N.inj_succ, N.pow_succ_r'. intros Hn.
  apply (N.le_lt_trans _ (n / 2)); [apply N.div_le_compat_l; lia|].
  apply N.Div0.div_lt_upper_bound; lia.
Qed.

Lemma dec_digits_value fuel n : n < 2 ^ N.of_nat fuel -> digits_value (dec_digits fuel n) = n.
Proof.
  revert n. induction fuel as [|f IH]; intros n Hn; cbn [dec_digits].
  - simpl in Hn. unfold digits_value; simpl. lia.
  - destruct (N.ltb_spec n 10); [unfold digits_value; simpl; lia|].
    rewrite digits_value_app, IH by (by apply div10_fuel).
    pose proof (N.div_mod n 10). pose proof (N.mod_lt n 10). lia.
Qed.

Lemma dec_digits_lt fuel n : n < 2 ^ N.of_nat fuel -> Forall (fun d => d < 10) (dec_digits fuel n).
Proof.
  revert n. induction fuel as [|f IH]; intros n Hn; cbn [dec_digits].
  - simpl in Hn. constructor; [lia|done].
  - destruct (N.ltb_spec n 10); [by repeat constructor|].
    apply Forall_app. split; [by apply IH, div10_fuel|].
    constructor; [apply N.mod_lt; lia|done].
Qed.

Lemma dec_digits_length fuel n k :
  n < 10 ^ N.of_nat (S k) -> (length (dec_digits fuel n) <= S k)%nat.
Proof.
  revert n k. induction fuel as [|f IH]; intros n k Hn; cbn [dec_digits]; [simpl; lia|].
  destruct (N.ltb_spec n 10); [simpl; lia|].
  rewrite length_app. cbn [length]. destruct k as [|k].
  - simpl in Hn. lia.
  - enough (length (dec_digits f (n / 10)) <= S k)%nat by lia. apply IH.
    apply N.Div0.div_lt_upper_bound.
    rewrite Nat2N.inj_succ, N.pow_succ_r' in Hn. lia.
Qed.

(** ** Reading what [str] prints *)

Lemma int_space_ascii c : 14 <= c <= 127 -> c <> 32 -> int_space c = false.
Proof.
  intros Hc Hs. unfold int_space. rewrite (proj2 (N.leb_le c 127)) by lia.
  apply orb_false_iff. split; [by apply N.eqb_neq|].
  apply andb_false_iff. right. apply N.leb_gt. lia.
Qed.

Lemma drop_while_none (f : pychar -> bool) s : Forall (fun c => f c = false) s -> drop_while f s = s.
Proof. destruct 1; simpl; [done|]. by rewrite H. Qed.

Lemma decimal_value_ascii d : d < 10 -> decimal_value (48 + d) = Some d.
Proof.
  intros Hd. unfold decimal_value, decimal_ranges. cbn [List.find].
  rewrite (proj2 (N.leb_le 48 (48 + d))), (proj2 (N.leb_le (48 + d) 57)) by lia. simpl.
  f_equal. rewrite N.add_comm, N.add_sub. by apply N.mod_small.
Qed.

Lemma decimal_value_lt c d : decimal_value c = Some d -> d < 10.
Proof.
  unfold decimal_value. destruct (List.find _ _) as [[lo hi]|]; [|done].
  intros [= <-]. by apply N.mod_lt.
Qed.

Lemma us_digits_ascii ds :
  Forall (fun d => d < 10) ds -> us_digits (map (fun d => 48 + d) ds) = Some ds.
Proof.
  induction 1 as [|d ds Hd _ IH]; [done|]. cbn [map us_digits].
  rewrite (proj2 (N.eqb_neq (48 + d) 95)) by lia. by rewrite decimal_value_ascii, IH.
Qed.

Lemma us_digits_lt s ds : us_digits s = Some ds -> Forall (fun d => d < 10) ds.
Proof.
  remember (length s) as n eqn:En. revert s ds En.
  induction n as [n IH] using lt_wf_ind; intros s ds En.
  destruct s as [|c' s']; cbn [us_digits]; [intros [= <-]; constructor|].
  destruct (c' =? 95).
  - destruct s' as [|c'' s'']; [done|]. destruct (decimal_value c'') as [d|] eqn:Ed; [|done].
    destruct (us_digits s'') as [ds'|] eqn:E; [|done]. intros [= <-]. constructor.
    + by apply (decimal_value_lt c'').
    + apply (IH (length s'') ltac:(simpl in En; lia) s''); done.
  - destruct (decimal_value c') as [d|] eqn:Ed; [|done].
    destruct (us_digits s') as [ds'|] eqn:E; [|done]. intros [= <-]. constructor.
    + by apply (decimal_value_lt c').
    + apply (IH (length s') ltac:(simpl in En; lia) s'); done.
Qed.

Lemma int_digits_lt s ds : int_digits s = Some ds -> Forall (fun d => d < 10) ds.
Proof.
  destruct s as [|c s]; [done|]. cbn [int_digits].
  destruct (decimal_value c) as [d|] eqn:Ed; [|done].
  destruct (us_digits s) as [ds'|] eqn:E; [|done]. intros [= <-].
  constructor; [by apply (decimal_value_lt c)|by apply (us_digits_lt s)].
Qed.

Lemma int_space_digit d : d < 10 -> int_space (48 + d) = false.
Proof. intros Hd. apply int_space_ascii; lia. Qed.

Lemma digits_chars ds : Forall (fun d => d < 10) ds ->
  Forall (fun c => int_space c = false) (map (fun d => 48 + d) ds).
Proof. intros H. apply Forall_map. eapply list.Forall_impl; [exact H|]. apply int_space_digit. Qed.

(** A sign and one to 4300 ASCII digits read back as their value. *)
Lemma py_int_digits (neg : bool) d ds :
  Forall (fun d => d < 10) (d :: ds) -> (length (d :: ds) <= max_str_digits)%nat ->
  py_int ((if neg then [45] else []) ++ map (fun d => 48 + d) (d :: ds)) =
  Some (if neg then Z.opp (Z.of_N (digits_value (d :: ds))) else Z.of_N (digits_value (d :: ds))).
Proof.
  intros Hds Hlen. pose proof (digits_chars _ Hds) as Hc.
  assert (Hall : Forall (fun c => int_space c = false)
                   ((if neg then [45] else []) ++ map (fun d => 48 + d) (d :: ds))).
  { apply Forall_app. split; [|done]. destruct neg; repeat constructor. }
  unfold py_int. rewrite (drop_while_none _ _ Hall), (drop_while_none _ (rev _)), rev_involutive
    by (by apply Forall_rev).
  apply list.Forall_cons in Hds as [Hd Hds'].
  assert (Hdig : int_digits (map (fun d => 48 + d) (d :: ds)) = Some (d :: ds)).
  { cbn [map int_digits]. by rewrite decimal_value_ascii, us_digits_ascii. }
  destruct neg; cbn [app].
  - rewrite N.eqb_refl, Hdig. apply Nat.leb_le in Hlen. by rewrite Hlen.
  - cbn [map]. rewrite (proj2 (N.eqb_neq (48 + d) 45)), (proj2 (N.eqb_neq (48 + d) 43)) by lia.
    rewrite <- (map_cons (fun d => 48 + d)), Hdig. apply Nat.leb_le in Hlen. by rewrite Hlen.
Qed.

Lemma dec_digits_cons fuel n : exists d ds, dec_digits fuel n = d :: ds.
Proof.
  destruct fuel as [|f]; cbn [dec_digits]; [by eexists _, []|].
  destruct (n <? 10); [by eexists _, []|].
  destruct (dec_digits f (n / 10)) as [|d ds] eqn:E.
  - by eexists _, [].
  - by eexists d, _.
Qed.

(** [int(str(z))] is [z] when [z] has at most 4300 digits. *)
Lemma py_int_str_of_Z z : (Z.abs z < 10 ^ 4300)%Z -> py_int (str_of_Z z) = Some z.
Proof.
  intros Hz. set (n := Z.to_N (Z.abs z)).
  set (fuel := N.to_nat (N.size n)).
  assert (Hf : n < 2 ^ N.of_nat fuel) by (unfold fuel; rewrite N2Nat.id; apply N.size_gt).
  assert (Hn : n < 10 ^ N.of_nat (S 4299)).
  { apply N2Z.inj_lt. unfold n. rewrite Z2N.id by lia. rewrite N2Z.inj_pow, nat_N_Z. exact Hz. }
  destruct (dec_digits_cons fuel n) as (d & ds & Hds).
  pose proof (dec_digits_lt _ _ Hf) as Hlt. pose proof (dec_digits_value _ _ Hf) as Hv.
  pose proof (dec_digits_length fuel _ _ Hn) as Hlen.
  rewrite Hds in Hlt, Hv, Hlen.
  unfold str_of_Z, str_of_N. destruct (Z.ltb_spec z 0).
  - replace (Z.to_N (- z)) with n by (unfold n; lia). fold fuel. rewrite Hds.
    pose proof (py_int_digits true d ds Hlt Hlen) as P. cbn [app] in P.
    rewrite P, Hv. f_equal. unfold n. lia.
  - replace (Z.to_N z) with n by (unfold n; lia). fold fuel. rewrite Hds.
    pose proof (py_int_digits false d ds Hlt Hlen) as P. cbn [app] in P.
    rewrite P, Hv. f_equal. unfold n. lia.
Qed.

(** A number below ten thousand has at most 4300 digits, without
    computing [10 ^ 4300]. *)
Lemma abs_lt_pow4300 (z : Z) : (Z.abs z < 10000)%Z -> (Z.abs z < 10 ^ 4300)%Z.
Proof.
  intros H. apply (Z.lt_le_trans _ 10000); [exact H|].
  change 10000%Z with (10 ^ 4)%Z. apply Z.pow_le_mono_r; lia.
Qed.

(** What [int] accepts has at most 4300 digits. *)
Lemma py_int_bound s z : py_int s = Some z -> (Z.abs z < 10 ^ 4300)%Z.
Proof.
  unfold py_int. cbv zeta. intros H.
  match type of H with context [match ?M with pair _ _ => _ end] => destruct M as [neg ds] end.
  destruct (int_digits ds) as [digits|] eqn:E; [|done].
  destruct (Nat.leb_spec (length digits) max_str_digits) as [Hl|]; [|done].
  injection H as <-. pose proof (digits_value_bound _ (int_digits_lt _ _ E)) as Hb.
  assert (Hlt : digits_value digits < 10 ^ N.of_nat max_str_digits).
  { eapply N.lt_le_trans; [exact Hb|]. apply N.pow_le_mono_r; lia. }
  assert (Ep : (10 ^ 4300 = Z.of_N (10 ^ N.of_nat max_str_digits))%Z)
    by (rewrite N2Z.inj_pow, nat_N_Z; reflexivity).
  rewrite Ep. revert Hlt. generalize (10 ^ N.of_nat max_str_digits). intros B Hlt.
  destruct neg; lia.
Qed.

End PyInt.
