(* ===== verification/Args.v ===== *)
(** * The command line of [sync-advanced.py] (src/content/scripts/sync-advanced.py)

    [main] declares six options on an [argparse.ArgumentParser] and calls
    [parser.parse_args()]. [option_strings] is the table the declarations
    build (with [-h/--help], which [argparse] adds first); [parse_args] is
    what [argparse] (Python 3.11) does with that table: it classifies every
    word as an option (exact, [--opt=value], a unique prefix of a long
    option, a short option with its value or further flags glued on) or an
    argument, then consumes the options from left to right, converting the
    values with [OutputFormat(...)] and [int(...)]; words left over are an
    error. An error is [Exit 2] (usage on stderr), [--help] is [Exit 0].
    [parse_args] was checked against CPython 3.11's [argparse] on random
    command lines over this table. *)

From S2P Require Import Prelude PyStr Patterns PyInt.
From Stdlib Require Import ZArith.
Local Open Scope N_scope.

Module ArgParse.

(** [class OutputFormat(Enum)] *)
Inductive OutputFormat := HUMAN | JSON | MARKDOWN | MINIMAL.

#[export] Instance OutputFormat_eq_dec : EqDecision OutputFormat.
Proof. solve_decision. Defined.

Definition output_format_value (f : OutputFormat) : pystr :=
  match f with
  | HUMAN => py "human" | JSON => py "json" | MARKDOWN => py "markdown" | MINIMAL => py "minimal"
  end.

(** [OutputFormat(v)]: lookup by value; [None] is the [ValueError]. *)
Definition OutputFormat_of (v : pystr) : option OutputFormat :=
  List.find (fun f => bool_decide (output_format_value f = v)) [HUMAN; JSON; MARKDOWN; MINIMAL].

(** The actions of the parser, named by their [dest]. *)
Inductive Dest := DHelp | DFormat | DWatch | DInterval | DCache | DStrict | DQuiet.

#[export] Instance Dest_eq_dec : EqDecision Dest.
Proof. solve_decision. Defined.

(** The option strings, in the order [add_argument] registers them. *)
Definition option_strings : list (pystr * Dest) :=
  [(py "-h", DHelp); (py "--help", DHelp);
   (py "--format", DFormat); (py "-f", DFormat);
   (py "--watch", DWatch); (py "-w", DWatch);
   (py "--interval", DInterval); (py "-i", DInterval);
   (py "--cache", DCache); (py "-c", DCache);
   (py "--strict", DStrict);
   (py "--quiet", DQuiet); (py "-q", DQuiet)].

(** [--format] and [--interval] take one value; the others none. *)
Definition takes_value (d : Dest) : bool :=
  match d with DFormat | DInterval => true | _ => false end.

(** The namespace [parse_args] returns. *)
Record Args := {
  format : OutputFormat;
  watch : bool;
  interval : Z;
  cache : bool;
  strict : bool;
  quiet : bool
}.

Definition defaults : Args :=
  {| format := HUMAN; watch := false; interval := 5; cache := false;
     strict := false; quiet := false |}.

Inductive ArgError :=
  | Ambiguous (arg : pystr) (matches : list pystr)
  | Unrecognized (extras : list pystr)
  | ExpectedOne (d : Dest)
  | IgnoredExplicit (d : Dest) (explicit : pystr)
  | Invalid (d : Dest) (value : pystr)
  | Help.

Inductive ParseResult := Parsed (a : Args) | Exit (code : Z) (err : ArgError).

(** How a word is classified: an argument, the separator [--], or an
    option (its action if known, the option string, the glued value). *)
Inductive Cls :=
  | CArg
  | CSep
  | COpt (d : option Dest) (option_string : pystr) (explicit : option pystr)
  | CAmbiguous (matches : list pystr).

Definition lookup_option (s : pystr) : option Dest :=
  snd <$> List.find (fun kv => bool_decide (kv.1 = s)) option_strings.

(** [_negative_number_matcher]: [^-\d+$|^-\d*\.\d+$], where [$] also
    matches before a final newline. *)
Definition neg_number_like (s : pystr) : bool :=
  let core := match List.rev s with 10 :: r => List.rev r | _ => s end in
  match core with
  | 45 :: r =>
      let ds := take_while isdecimal r in
      let rest := drop_while isdecimal r in
      (bool_decide (ds <> []) && bool_decide (rest = []))
      || match rest with
         | 46 :: fr => bool_decide (fr <> []) && forallb isdecimal fr
         | _ => false
         end
  | _ => false
  end.

(** [_get_option_tuples]: the options a word can abbreviate. *)
Definition option_tuples (s : pystr) : list (Dest * pystr * option pystr) :=
  match s with
  | 45 :: 45 :: _ =>
      let '(prefix, explicit) :=
        match split_by (fun c => c =? 61) s with
        | p :: rest => if bool_decide (rest = []) then (p, None)
                       else (p, Some (str_join [61] rest))
        | [] => (s, None)
        end in
      omap (fun kv => if str_startswith prefix kv.1 then Some (kv.2, kv.1, explicit) else None)
        option_strings
  | 45 :: c :: r =>
      omap (fun kv =>
              if bool_decide (kv.1 = [45; c]) then Some (kv.2, kv.1, Some r)
              else if str_startswith s kv.1 then Some (kv.2, kv.1, None) else None)
        option_strings
  | _ => []
  end.

(** [_parse_optional] *)
Definition classify_word (s : pystr) : Cls :=
  match s with
  | [] => CArg
  | c :: _ =>
      if negb (c =? 45) then CArg
      else match lookup_option s with
      | Some d => COpt (Some d) s None
      | None =>
          if (length s =? 1)%nat then CArg
          else
            let by_eq :=
              match split_by (fun c => c =? 61) s with
              | p :: ((_ :: _) as rest) =>
                  match lookup_option p with
                  | Some d => Some (COpt (Some d) p (Some (str_join [61] rest)))
                  | None => None
                  end
              | _ => None
              end in
            match by_eq with
            | Some cl => cl
            | None =>
                match option_tuples s with
                | [(d, os, ex)] => COpt (Some d) os ex
                | _ :: _ :: _ as l => CAmbiguous (map (fun t => t.1.2) l)
                | [] =>
                    if neg_number_like s then CArg
                    else if str_in [32] s then CArg
                    else COpt None s None
                end
            end
      end
  end.

(** The classification of the whole command line: after [--] every word
    is an argument. *)
Fixpoint classify_all (args : list pystr) : list (pystr * Cls) :=
  match args with
  | [] => []
  | s :: r =>
      if bool_decide (s = py "--") then (s, CSep) :: map (fun w => (w, CArg)) r
      else (s, classify_word s) :: classify_all r
  end.

(** [take_action]: store a flag, or convert and store a value. *)
Definition take_action (a : Args) (d : Dest) (v : option pystr) : ParseResult :=
  match d, v with
  | DHelp, _ => Exit 0 Help
  | DFormat, Some s =>
      match OutputFormat_of s with
      | Some f => Parsed {| format := f; watch := watch a; interval := interval a;
                            cache := cache a; strict := strict a; quiet := quiet a |}
      | None => Exit 2 (Invalid DFormat s)
      end
  | DInterval, Some s =>
      match PyInt.py_int s with
      | Some n => Parsed {| format := format a; watch := watch a; interval := n;
                            cache := cache a; strict := strict a; quiet := quiet a |}
      | None => Exit 2 (Invalid DInterval s)
      end
  | DWatch, _ => Parsed {| format := format a; watch := true; interval := interval a;
                           cache := cache a; strict := strict a; quiet := quiet a |}
  | DCache, _ => Parsed {| format := format a; watch := watch a; interval := interval a;
                           cache := true; strict := strict a; quiet := quiet a |}
  | DStrict, _ => Parsed {| format := format a; watch := watch a; interval := interval a;
                            cache := cache a; strict := true; quiet := quiet a |}
  | DQuiet, _ => Parsed {| format := format a; watch := watch a; interval := interval a;
                           cache := cache a; strict := strict a; quiet := true |}
  | _, None => Parsed a
  end.

(** Take a list of actions in order, stopping at the first exit. *)
Fixpoint take_actions (a : Args) (acts : list (Dest * option pystr)) : ParseResult :=
  match acts with
  | [] => Parsed a
  | (d, v) :: acts' =>
      match take_action a d v with
      | Parsed a' => take_actions a' acts'
      | e => e
      end
  end.

(** The loop of [consume_optional] over glued short flags: [-wq] is [-w]
    then [-q]. The result is the flags taken, then either a last action
    with its glued value or an action waiting for the next word, or the
    error. *)
Inductive Chain :=
  | ChainDone (acts : list (Dest * option pystr))
  | ChainNeedsValue (acts : list (Dest * option pystr)) (d : Dest)
  | ChainError (err : ArgError).

Fixpoint flag_chain (fuel : nat) (d : Dest) (os : pystr) (ex : option pystr)
    (acc : list (Dest * option pystr)) : Chain :=
  match ex with
  | None => if takes_value d then ChainNeedsValue acc d else ChainDone (acc ++ [(d, None)])
  | Some e =>
      if takes_value d then ChainDone (acc ++ [(d, Some e)])
      else match os, e, fuel with
           | _ :: c :: _, e0 :: e', S f =>
               if negb (c =? 45) then
                 match lookup_option [45; e0] with
                 | Some d' =>
                     flag_chain f d' [45; e0] (if bool_decide (e' = []) then None else Some e')
                       (acc ++ [(d, None)])
                 | None => ChainError (IgnoredExplicit d e)
                 end
               else ChainError (IgnoredExplicit d e)
           | _, _, _ => ChainError (IgnoredExplicit d e)
           end
  end.

(** The main loop of [_parse_known_args] on the classified words, with the
    words that are not consumed ([extras]). *)
Fixpoint consume (l : list (pystr * Cls)) (a : Args) (extras : list pystr) : ParseResult :=
  match l with
  | [] => match extras with [] => Parsed a | _ => Exit 2 (Unrecognized extras) end
  | (s, COpt (Some d) os ex) :: r =>
      match flag_chain (length s) d os ex [] with
      | ChainError err => Exit 2 err
      | ChainDone acts =>
          match take_actions a acts with
          | Parsed a' => consume r a' extras
          | e => e
          end
      | ChainNeedsValue acts d' =>
          match r with
          | (v, CArg) :: r' =>
              match take_actions a (acts ++ [(d', Some v)]) with
              | Parsed a' => consume r' a' extras
              | e => e
              end
          | _ => Exit 2 (ExpectedOne d')
          end
      end
  | (s, _) :: r => consume r a (extras ++ [s])
  end.

Definition is_ambiguous (w : pystr * Cls) : bool :=
  match w.2 with CAmbiguous _ => true | _ => false end.

(** [parser.parse_args()]: an ambiguous abbreviation is reported while
    the words are classified, before anything is consumed. *)
Definition parse_args (argv : list pystr) : ParseResult :=
  let cls := classify_all argv in
  match List.find is_ambiguous cls with
  | Some (s, CAmbiguous m) => Exit 2 (Ambiguous s m)
  | _ => consume cls defaults []
  end.

(** ** A command line for every namespace

    [to_argv a] writes the options of [a]: [--interval=N] (so that a
    negative value is glued to its option), [--format NAME], and the flags
    that are set. *)
Definition with_interval (z : Z) : Args :=
  {| format := HUMAN; watch := false; interval := z; cache := false;
     strict := false; quiet := false |}.

Definition flags_argv (a : Args) : list pystr :=
  [py "--format"; output_format_value (format a)]
  ++ (if watch a then [py "--watch"] else []) ++ (if cache a then [py "--cache"] else [])
  ++ (if strict a then [py "--strict"] else []) ++ (if quiet a then [py "--quiet"] else []).

Definition to_argv (a : Args) : list pystr :=
  (py "--interval=" ++ PyInt.str_of_Z (interval a)) :: flags_argv a.

(** ** Lemmas *)

Lemma option_strings_no_eq : Forall (fun kv => 61 ∉ kv.1) option_strings.
Proof. decide_goal. Qed.

Lemma lookup_option_eq_sign s : 61 ∈ s -> lookup_option s = None.
Proof.
  intros H. unfold lookup_option.
  destruct (List.find _ _) as [[k d]|] eqn:E; [|done].
  apply List.find_some in E as [Hin Heq%bool_decide_eq_true]. simpl in Heq; subst k.
  pose proof option_strings_no_eq as Hno. rewrite Forall_forall in Hno.
  exfalso. exact (Hno (s, d) Hin H).
Qed.

(** The word [--interval=V], for a value without [=]. *)
Lemma classify_interval_eq v :
  61 ∉ v ->
  classify_word (py "--interval=" ++ v) = COpt (Some DInterval) (py "--interval") (Some v).
Proof.
  intros Hv. change (py "--interval=") with (py "--interval" ++ [61]).
  rewrite <- app_assoc. unfold classify_word.
  rewrite lookup_option_eq_sign by (apply elem_of_app; right; by left).
  change (py "--interval") with [45; 45; 105; 110; 116; 101; 114; 118; 97; 108].
  cbn [app length N.eqb negb Pos.eqb Nat.eqb].
  rewrite (split_by_app_sep _ [45; 45; 105; 110; 116; 101; 114; 118; 97; 108] 61 v)
    by (repeat constructor).
  rewrite split_by_nosep.
  - reflexivity.
  - apply Forall_forall. intros c Hc. apply N.eqb_neq. intros ->. apply Hv. first [exact Hc | by apply list_elem_of_In].
Qed.

Lemma classify_all_interval v r :
  61 ∉ v ->
  classify_all ((py "--interval=" ++ v) :: r) =
  (py "--interval=" ++ v, COpt (Some DInterval) (py "--interval") (Some v)) :: classify_all r.
Proof.
  intros Hv. cbn [classify_all]. rewrite bool_decide_false.
  - by rewrite classify_interval_eq.
  - intros Heq. apply (f_equal length) in Heq. rewrite length_app in Heq. vm_compute in Heq. lia.
Qed.

Lemma flags_argv_parse a :
  List.find is_ambiguous (classify_all (flags_argv a)) = None /\
  consume (classify_all (flags_argv a)) (with_interval (interval a)) [] = Parsed a.
Proof. destruct a as [[] [] i [] [] []]; split; reflexivity. Qed.

Lemma str_of_Z_no_eq z : 61 ∉ PyInt.str_of_Z z.
Proof.
  assert (Hd : forall n, 61 ∉ PyInt.str_of_N n).
  { intros n. unfold PyInt.str_of_N. intros (d & Hd & Hin)%list_elem_of_In%in_map_iff.
    pose proof (PyInt.dec_digits_lt (N.to_nat (N.size n)) n) as Hlt.
    rewrite N2Nat.id in Hlt. specialize (Hlt (N.size_gt n)).
    rewrite Forall_forall in Hlt. specialize (Hlt d Hin). lia. }
  unfold PyInt.str_of_Z. destruct (Z.ltb _ _); [|apply Hd].
  intros [H|H]%elem_of_cons; [done|]. by apply (Hd _ H).
Qed.

(** The namespaces [argparse] can build: the interval has at most 4300
    digits. *)
Definition bounded (a : Args) : Prop := (Z.abs (interval a) < 10 ^ 4300)%Z.

Lemma take_action_bounded a d v a' :
  bounded a -> take_action a d v = Parsed a' -> bounded a'.
Proof.
  unfold bounded. intros Ha.
  destruct d, v as [s|]; cbn [take_action]; intros H; try discriminate;
    repeat case_match; simplify_eq; try done.
  by apply (PyInt.py_int_bound s).
Qed.

Lemma take_actions_bounded a acts a' :
  bounded a -> take_actions a acts = Parsed a' -> bounded a'.
Proof.
  revert a. induction acts as [|[d v] acts IH]; intros a Ha; cbn [take_actions]; [congruence|].
  destruct (take_action a d v) as [a1|] eqn:E; [|discriminate].
  apply IH. by apply (take_action_bounded a d v).
Qed.

Lemma consume_bounded l a extras a' :
  bounded a -> consume l a extras = Parsed a' -> bounded a'.
Proof.
  remember (length l) as n eqn:En. revert l a extras En.
  induction n as [n IH] using lt_wf_ind; intros l a extras En Ha.
  destruct l as [|[w c] l]; cbn [consume].
  { destruct extras; congruence. }
  cbn [length] in En.
  assert (Hskip : consume l a (extras ++ [w]) = Parsed a' -> bounded a')
    by (apply (IH (length l)); [lia|done|done]).
  destruct c as [| |[d|] os ex|m]; try exact Hskip.
  destruct (flag_chain (length w) d os ex []) as [acts|acts d'|err]; [| |discriminate].
  - destruct (take_actions a acts) as [a1|] eqn:E; [|discriminate].
    apply (IH (length l) ltac:(lia) l a1 extras eq_refl). by apply (take_actions_bounded a acts).
  - destruct l as [|[v [| | |]] l]; try discriminate.
    destruct (take_actions a _) as [a1|] eqn:E; [|discriminate].
    apply (IH (length l) ltac:(cbn [length] in En; lia) l a1 extras eq_refl).
    by apply (take_actions_bounded a (acts ++ [(d', Some v)]) a1).
Qed.

(** C27. Every namespace whose interval has at most 4300 digits is what
    [parse_args] returns for the command line [to_argv] writes for it: the
    parser [main] declares reaches every combination of options. *)
Theorem parse_args_to_argv (a : Args) :
  (Z.abs (interval a) < 10 ^ 4300)%Z -> parse_args (to_argv a) = Parsed a.
Proof.
  intros Ha. destruct (flags_argv_parse a) as [Hnone Hcons].
  unfold parse_args, to_argv. rewrite classify_all_interval by apply str_of_Z_no_eq.
  cbn [List.find]. change (is_ambiguous _) with false. cbn iota. rewrite Hnone.
  cbn [consume]. rewrite length_app.
  change (length (py "--interval=")) with 11%nat.
  cbn [Nat.add flag_chain takes_value app take_actions take_action].
  rewrite (PyInt.py_int_str_of_Z _ Ha). exact Hcons.
Qed.

(** Whatever the command line, a namespace [parse_args] returns has
    an interval of at most 4300 digits: [int] refuses longer literals. *)
Lemma parse_args_interval_bound argv a :
  parse_args argv = Parsed a -> (Z.abs (interval a) < 10 ^ 4300)%Z.
Proof.
  assert (Hd : bounded defaults) by (unfold bounded; simpl; lia).
  unfold parse_args. destruct (List.find is_ambiguous _) as [[w []]|];
    try discriminate; apply consume_bounded, Hd.
Qed.

Lemma parse_args_to_argv_witness :
  let a := {| format := MARKDOWN; watch := true; interval := (-3)%Z; cache := false;
              strict := true; quiet := false |} in
  (Z.abs (interval a) < 10 ^ 4300)%Z /\ parse_args (to_argv a) = Parsed a.
Proof.
  intros a. assert (H : (Z.abs (interval a) < 10 ^ 4300)%Z)
    by (apply PyInt.abs_lt_pow4300; simpl; lia).
  split; [exact H|exact (parse_args_to_argv a H)].
Defined.

End ArgParse.
