(* ===== verification/Parser.v ===== *)
(** * [ContextParser] and [ProjectContext] (src/docs/rules/scripts/sync.py)

    [parse] turns the text of the context document into a
    [ProjectContext]: the purpose (first three non-heading lines of the
    first twenty), the list items of the labelled sections, the inline
    imperative lines, and the directory names of tree diagrams in fenced
    code blocks. The section scan is the source's loop over the lines with
    its [in_section] flag, written as a step function folded over the lines;
    the structure map is the source's dict, in insertion order. *)

From S2P Require Import Prelude PyStr Patterns.
Local Open Scope N_scope.

(** The newline character, separator of [content.split('\n')]. *)
Definition NL : pychar := 10.

(** [@dataclass ProjectContext]. The field [path] is [ctx_path] here. *)
Record ProjectContext := {
  ctx_path : path;
  purpose : pystr;
  rules : list pystr;
  workflows : list pystr;
  structure : pydict pystr;
  never_rules : list pystr;
  always_rules : list pystr;
  technologies : list pystr;
  raw_content : pystr
}.

Module ContextParser.

(** [self.section_patterns]: each [(?:...):] pattern by the alternatives it
    accepts before the colon ([rules?] is [rule] or [rules], and so on). *)
Definition section_patterns : pydict (list pystr) :=
  [ (py "purpose", [py "purpose"; py "overview"; py "about"; py "description"]);
    (py "rules", [py "rule"; py "rules"; py "requirement"; py "requirements";
                  py "constraint"; py "constraints"]);
    (py "workflow", [py "workflow"; py "process"; py "procedure"; py "procedures"]);
    (py "structure", [py "structure"; py "organization"; py "layout"]);
    (py "never", [py "never"; py "don't"; py "avoid"; py "prohibited"]);
    (py "always", [py "always"; py "must"; py "required"; py "mandatory"]);
    (py "tech", [py "tech"; py "technology"; py "technologies"; py "stack";
                 py "tool"; py "tools"]) ].

(** [self.section_patterns.get(section_type)]. *)
Definition get_pattern (section_type : pystr) : option (list pystr) :=
  snd <$> List.find (fun kv => bool_decide (kv.1 = section_type)) section_patterns.

(** [_extract_purpose]: the loop over [lines[:20]], appending each
    non-blank line that does not start with [#], stopping once three are
    collected. *)
Definition is_purpose_line (line : pystr) : bool :=
  negb (bool_decide (str_strip line = [])) && negb (str_startswith (py "#") line).

Fixpoint purpose_loop (lines : list pystr) (purpose_lines : list pystr) : list pystr :=
  match lines with
  | [] => purpose_lines
  | line :: rest =>
      let purpose_lines' :=
        if is_purpose_line line then purpose_lines ++ [str_strip line] else purpose_lines in
      if (3 <=? length purpose_lines')%nat then purpose_lines'
      else purpose_loop rest purpose_lines'
  end.

Definition _extract_purpose (lines : list pystr) : pystr :=
  str_join (py " ") (purpose_loop (firstn 20 lines) []).

(** [if item: items.append(item)] *)
Definition append_item (items : list pystr) (item : pystr) : list pystr :=
  if bool_decide (item = []) then items else items ++ [item].

(** One iteration of the loop of [_extract_section_items] on the state
    [(in_section, items)]. *)
Definition section_step (pattern : list pystr) (st : bool * list pystr) (line : pystr)
    : bool * list pystr :=
  let '(in_section, items) := st in
  if trigger_search pattern line then (true, items)
  else if in_section then
    if str_startswith (py "#") (str_strip line) then (false, items)
    else if bullet_match line then (true, append_item items (str_strip (bullet_sub line)))
    else if numbered_match line then (true, append_item items (str_strip (numbered_sub line)))
    else (true, items)
  else (false, items).

Definition _extract_section_items (content : pystr) (section_type : pystr) : list pystr :=
  match get_pattern section_type with
  | None => []
  | Some pattern => snd (fold_left (section_step pattern) (str_split NL content) (false, []))
  end.

(** [_extract_inline_rules]: every line with an imperative, stripped. *)
Definition _extract_inline_rules (content : pystr) : list pystr :=
  map str_strip (List.filter inline_search (str_split NL content)).

(** [if '├──' in match or '└──' in match or '|--' in match]. *)
Definition has_tree_glyphs (block : pystr) : bool :=
  str_in (py "├──") block || str_in (py "└──") block || str_in (py "|--") block.

(** The inner loop over the lines of one block: [structure[dir_name] = "directory"]. *)
Definition structure_line (structure : pydict pystr) (line : pystr) : pydict pystr :=
  match tree_search line with
  | Some dir_name => dict_set dir_name (py "directory") structure
  | None => structure
  end.

Definition structure_block (structure : pydict pystr) (block : pystr) : pydict pystr :=
  if has_tree_glyphs block then fold_left structure_line (str_split NL block) structure
  else structure.

Definition _extract_structure (content : pystr) : pydict pystr :=
  fold_left structure_block (fence_findall content) [].

(** A list item as a document writes it: non-empty, stripped, on one line. *)
Definition item_ok (x : pystr) : Prop := x <> [] /\ str_strip x = x /\ NL ∉ x.

(** Every alternative of a pattern starts with a lower-case ASCII letter. *)
Definition letter_heads (pattern : list pystr) : bool :=
  forallb (fun w => match w with p :: _ => (97 <=? p) && (p <=? 122) | [] => false end)
    pattern.

(** [parse]: [context.rules] is built by the section scan and then extended
    with the inline rules. *)
Definition parse (content : pystr) (file_path : path) : ProjectContext :=
  let lines := str_split NL content in
  {| ctx_path := file_path;
     purpose := _extract_purpose lines;
     rules := _extract_section_items content (py "rules") ++ _extract_inline_rules content;
     workflows := _extract_section_items content (py "workflow");
     structure := _extract_structure content;
     never_rules := _extract_section_items content (py "never");
     always_rules := _extract_section_items content (py "always");
     technologies := _extract_section_items content (py "tech");
     raw_content := content |}.


(** Where the items of the scan come from: each is the stripped text of a
    list line of the document on which the label pattern does not match and
    which is not a heading. *)
Definition item_source (pattern : list pystr) (ls : list pystr) (x : pystr) : Prop :=
  exists line, In line ls /\ trigger_search pattern line = false
    /\ str_startswith (py "#") (str_strip line) = false
    /\ ((bullet_match line = true /\ x = str_strip (bullet_sub line))
        \/ (bullet_match line = false /\ numbered_match line = true
            /\ x = str_strip (numbered_sub line))).

(** ** Lemmas on the section scan *)

Lemma get_pattern_heads (k : pystr) (pattern : list pystr) :
  get_pattern k = Some pattern -> letter_heads pattern = true.
Proof.
  unfold get_pattern. destruct (List.find _ _) as [[k' pat]|] eqn:E; [|discriminate].
  intros [= <-]. apply find_some in E as [E _].
  simpl in E. repeat destruct E as [E|E]; try done; injection E as _ <-; reflexivity.
Qed.

(** No alternative can start on a hyphen or a blank. *)
Lemma trigger_search_skip (pattern : list pystr) (c : pychar) (s : pystr) :
  letter_heads pattern = true -> c = 45 \/ c = 32 ->
  trigger_search pattern (c :: s) = trigger_search pattern s.
Proof.
  intros Hh Hc. unfold trigger_search. simpl.
  enough (trigger_at pattern (c :: s) = false) as -> by done.
  apply existsb_false_forall. intros w Hw.
  unfold letter_heads in Hh. rewrite forallb_forall in Hh. specialize (Hh w Hw).
  destruct w as [|p w]; [discriminate|]. bool_props.
  assert (Hp : ci_char p c = false).
  { apply N.leb_le in H, H0.
    assert (Hc' : c < 65) by (destruct Hc; lia).
    unfold ci_char, simple_lower. rewrite (proj2 (N.leb_gt 65 c) Hc'). cbn [andb].
    rewrite !(proj2 (N.eqb_neq c _)) by lia. by rewrite !andb_false_r. }
  apply bool_decide_eq_false. simpl. rewrite Hp. intros [? ?]; discriminate.
Qed.

Lemma step_trigger (pattern : list pystr) (st : bool * list pystr) (line : pystr) :
  trigger_search pattern line = true -> section_step pattern st line = (true, snd st).
Proof. destruct st. simpl. by intros ->. Qed.

Lemma scan_closed (pattern : list pystr) (ls : list pystr) (items : list pystr) :
  Forall (fun l => trigger_search pattern l = false) ls ->
  fold_left (section_step pattern) ls (false, items) = (false, items).
Proof. induction 1 as [|l ls Hl _ IH]; [done|]. simpl. by rewrite Hl. Qed.

Lemma step_heading (pattern : list pystr) (items : list pystr) (h : pystr) :
  trigger_search pattern h = false -> str_startswith (py "#") (str_strip h) = true ->
  section_step pattern (true, items) h = (false, items).
Proof. simpl. by intros -> ->. Qed.

Lemma step_bullet (pattern : list pystr) (items : list pystr) (x : pystr) :
  letter_heads pattern = true -> item_ok x -> trigger_search pattern x = false ->
  section_step pattern (true, items) (py "- " ++ x) = (true, items ++ [x]).
Proof.
  intros Hh (Hne & Hs & Hnl) Ht. py_norm. simpl.
  rewrite !trigger_search_skip, Ht by auto.
  destruct (str_strip_cons 45 (32 :: x)) as [r ->]; [done|]. simpl.
  destruct x as [|d x]; [done|].
  assert (Hd : (d =? 10) = false).
  { apply N.eqb_neq. intros ->. apply Hnl. constructor. }
  unfold bullet_match, bullet_sub. simpl. rewrite Hd. simpl.
  change (if isspace d then str_lstrip x else d :: x) with (str_lstrip (d :: x)).
  rewrite (str_strip_lstrip _ Hs), Hs. unfold append_item.
  by rewrite bool_decide_false.
Qed.

Lemma scan_bullets (pattern : list pystr) (items acc : list pystr) :
  letter_heads pattern = true ->
  Forall (fun x => item_ok x /\ trigger_search pattern x = false) items ->
  fold_left (section_step pattern) (map (fun x => py "- " ++ x) items) (true, acc)
    = (true, acc ++ items).
Proof.
  intros Hh Hi. revert acc. induction Hi as [|x items [Hx Ht] _ IH]; intros acc.
  - by rewrite app_nil_r.
  - cbn [map fold_left]. rewrite step_bullet by done. rewrite IH. by rewrite <- app_assoc.
Qed.


Lemma no_nl_bullet (x : pystr) : NL ∉ x -> NL ∉ py "- " ++ x.
Proof.
  intros Hx. py_norm. cbn [app]. rewrite !elem_of_cons. unfold NL.
  intros [H|[H|H]]; [discriminate|discriminate|done].
Qed.

Lemma append_item_forall (P : pystr -> Prop) (items : list pystr) (x : pystr) :
  Forall P items -> P x \/ x = [] -> Forall P (append_item items x).
Proof.
  intros Hi Hx. unfold append_item. case_bool_decide; [done|].
  apply Forall_app. split; [done|]. destruct Hx; [by constructor|done].
Qed.

(** The items of the scan satisfy [P] whenever every item the step appends
    does: the scan's invariant. *)
Lemma scan_invariant (pattern : list pystr) (P : pystr -> Prop) (ls : list pystr)
    (st : bool * list pystr) :
  (forall line, P (str_strip (bullet_sub line)) \/ str_strip (bullet_sub line) = []) ->
  (forall line, P (str_strip (numbered_sub line)) \/ str_strip (numbered_sub line) = []) ->
  Forall P (snd st) -> Forall P (snd (fold_left (section_step pattern) ls st)).
Proof.
  intros Hb Hn. revert st. induction ls as [|line ls IH]; intros [b items] Hst; [done|].
  apply IH. unfold section_step.
  destruct (trigger_search pattern line); [done|]. destruct b; [|done].
  destruct (str_startswith _ (str_strip line)); [done|].
  destruct (bullet_match line); [by apply append_item_forall|].
  destruct (numbered_match line); [by apply append_item_forall|done].
Qed.

(** C1. Spec, section 8: after a line that carries the section's label, the
    bullet items are returned trimmed and in document order, and the scan
    stops at the next heading: bullets after it are not returned. Lines
    before the label contribute nothing. *)
Theorem section_items_block (k : pystr) (pattern : list pystr) (pre rest items : list pystr)
    (trig heading : pystr) :
  get_pattern k = Some pattern ->
  Forall (fun l => trigger_search pattern l = false /\ NL ∉ l) (pre ++ heading :: rest) ->
  trigger_search pattern trig = true -> NL ∉ trig ->
  str_startswith (py "#") (str_strip heading) = true ->
  Forall (fun x => item_ok x /\ trigger_search pattern x = false) items ->
  _extract_section_items
    (str_join [NL] (pre ++ trig :: map (fun x => py "- " ++ x) items ++ heading :: rest)) k
  = items.
Proof.
  intros Hk Hl Ht Htnl Hh Hi. unfold _extract_section_items. rewrite Hk.
  pose proof (get_pattern_heads _ _ Hk) as Hheads.
  apply Forall_and_inv in Hl as [Hlt Hln].
  apply Forall_app in Hlt as [Hpre Hrest]. apply list.Forall_cons in Hrest as [Hh1 Hrest].
  rewrite str_split_join.
  2: { by destruct pre. }
  2: { apply Forall_app in Hln as [Hpren Hrestn]. apply list.Forall_cons in Hrestn as [? ?].
       apply Forall_app. split; [done|]. constructor; [done|].
       apply Forall_app. split; [|by constructor].
       apply Forall_map. apply (list.Forall_impl _ _ _ Hi).
       intros x [[_ [_ Hx]] _]. by apply no_nl_bullet. }
  rewrite fold_left_app, scan_closed by done.
  cbn [fold_left]. rewrite step_trigger by done. cbn [snd].
  rewrite fold_left_app, scan_bullets by done. cbn [fold_left app].
  by rewrite step_heading, scan_closed.
Qed.

Lemma section_items_block_witness :
  _extract_section_items
    (str_join [NL]
       ([py "# Project"] ++ py "Rules:"
        :: map (fun x => py "- " ++ x)
             [py "Use feature branches"; py "Write tests"; py "Review every change"]
        ++ py "## Setup" :: [py "- not a rule"])) (py "rules")
  = [py "Use feature branches"; py "Write tests"; py "Review every change"].
Proof.
  apply (section_items_block (py "rules") (snd (nth 1 section_patterns ([], [])))
           [py "# Project"] [py "- not a rule"]
           [py "Use feature branches"; py "Write tests"; py "Review every change"]
           (py "Rules:") (py "## Setup")).
  - reflexivity.
  - repeat constructor. all: decide_goal.
  - vm_compute; reflexivity.
  - decide_goal.
  - vm_compute; reflexivity.
  - repeat constructor. all: try discriminate.
    all: decide_goal.
Defined.

(** C2. Every item the section scan returns is non-empty and already
    stripped, whatever the document. *)
Theorem section_items_stripped (content k : pystr) :
  Forall (fun x => x <> [] /\ str_strip x = x) (_extract_section_items content k).
Proof.
  unfold _extract_section_items. destruct (get_pattern k) as [pattern|]; [|constructor].
  apply (scan_invariant pattern (fun x => x <> [] /\ str_strip x = x)); [| |apply Forall_nil];
    intros line;
    match goal with |- _ \/ ?y = [] => destruct (decide (y = [])) as [H|H] end;
    [by right | left; split; [done | apply str_strip_idem]
    |by right | left; split; [done | apply str_strip_idem]].
Qed.

Lemma append_item_in (items : list pystr) (z y : pystr) :
  In y (append_item items z) -> In y items \/ y = z.
Proof.
  unfold append_item. case_bool_decide; [auto|].
  rewrite in_app_iff. intros [Hy|[Hy|[]]]; auto.
Qed.

Lemma scan_sources (pattern : list pystr) (L ls : list pystr) (st : bool * list pystr) :
  (forall l, In l ls -> In l L) ->
  (forall y, In y (snd st) -> item_source pattern L y) ->
  forall y, In y (snd (fold_left (section_step pattern) ls st)) -> item_source pattern L y.
Proof.
  revert st. induction ls as [|line ls IH]; intros [b items] HL Hst; [done|].
  apply IH; [intros l Hl; apply HL; by right|].
  assert (Hline : In line L) by (apply HL; by left).
  intros y. unfold section_step.
  destruct (trigger_search pattern line) eqn:Ht; [apply Hst|]. destruct b; [|apply Hst].
  destruct (str_startswith _ (str_strip line)) eqn:Hh; [apply Hst|].
  destruct (bullet_match line) eqn:Hb; [|destruct (numbered_match line) eqn:Hn];
    simpl; try apply Hst;
    intros Hy; apply append_item_in in Hy as [Hy | ->]; auto;
    exists line; repeat split; auto.
Qed.

(** C3. Provenance of the section items: every item is the stripped text of
    a bullet or numbered line of the document on which the label pattern
    does not match and which is not a heading. So a list line that itself
    carries the label (say "- Must: ..." in an "Always:" section) is never
    an item: it re-opens the section instead. *)
Theorem section_item_source (content k : pystr) (pattern : list pystr) (x : pystr) :
  get_pattern k = Some pattern -> In x (_extract_section_items content k) ->
  item_source pattern (str_split NL content) x.
Proof.
  unfold _extract_section_items. intros -> Hx.
  by apply (scan_sources pattern _ (str_split NL content) (false, [])).
Qed.

Lemma section_item_source_witness :
  item_source (snd (nth 5 section_patterns ([], [])))
    (str_split NL (str_join [NL]
       [py "Always:"; py "- Must: run the tests"; py "- Keep commits small"]))
    (py "Keep commits small").
Proof.
  apply (section_item_source _ (py "always")); [reflexivity|vm_compute; auto].
Defined.

(** The example of C3: the first bullet carries the label of the section and
    is dropped. *)
Example always_item_with_label_dropped :
  _extract_section_items
    (str_join [NL] [py "Always:"; py "- Must: run the tests"; py "- Keep commits small"])
    (py "always")
  = [py "Keep commits small"].
Proof. vm_compute. reflexivity. Qed.

Lemma structure_lines_none (lines : list pystr) (d : pydict pystr) :
  Forall (fun l => tree_search l = None) lines -> fold_left structure_line lines d = d.
Proof.
  induction 1 as [|l ls Hl _ IH]; [done|]. cbn [fold_left].
  unfold structure_line at 2. by rewrite Hl.
Qed.

(** C4. The tree diagrams that the [tree] command prints ([├── name],
    [└── name], with U+2500 after the branch glyph) contribute no directory
    to the structure map, although they pass the block's glyph test: the
    per-line pattern accepts only the dashes [-–—] after a branch glyph.
    Only ASCII diagrams ([|-- name]) are read. *)
Theorem structure_tree_output (lines : list pystr) :
  lines <> [] ->
  Forall (fun l => (NL ∉ l) /\ (96 ∉ l) /\
     (forall a c b, l = a ++ c :: b -> is_branch c = true -> exists b', b = 9472 :: b'))
    lines ->
  _extract_structure (fence ++ NL :: (str_join [NL] lines ++ NL :: fence)) = [].
Proof.
  intros Hne Hl. apply Forall_and_inv in Hl as [Hnl Hl].
  apply Forall_and_inv in Hl as [Hbt Hbox].
  unfold _extract_structure. rewrite fence_findall_single.
  2: { apply str_join_not_elem; [|done]. rewrite list_elem_of_singleton. discriminate. }
  cbn [fold_left]. unfold structure_block. destruct (has_tree_glyphs _); [|done].
  rewrite str_split_join by done. apply structure_lines_none.
  apply (list.Forall_impl _ _ _ Hbox). intros l. apply tree_search_box_drawing.
Qed.

Lemma structure_tree_output_witness :
  _extract_structure
    (fence ++ NL :: (str_join [NL] [py "."; py "├── content"; py "└── src"] ++ NL :: fence))
  = [].
Proof.
  apply structure_tree_output; [discriminate|].
  repeat constructor. all: try decide_goal.
  all: apply branches_boxed_spec; vm_compute; reflexivity.
Defined.

(** The same directories drawn in ASCII are read. *)
Example structure_ascii_tree :
  _extract_structure
    (fence ++ NL :: (str_join [NL] [py "."; py "|-- content"; py "`-- src"] ++ NL :: fence))
  = [(py "content", py "directory")].
Proof. vm_compute. reflexivity. Qed.

(** ** The purpose and the structure map *)

Lemma purpose_loop_spec (ls acc : list pystr) :
  (length acc < 3)%nat ->
  purpose_loop ls acc
  = acc ++ firstn (3 - length acc) (map str_strip (List.filter is_purpose_line ls)).
Proof.
  revert acc. induction ls as [|line ls IH]; intros acc Hacc; cbn [purpose_loop].
  - rewrite firstn_nil, app_nil_r. done.
  - cbn [List.filter]. destruct (is_purpose_line line); cbn [map].
    + rewrite length_app. cbn [length].
      destruct (Nat.leb_spec 3 (length acc + 1)).
      * by replace (3 - length acc)%nat with 1%nat by lia.
      * rewrite IH by (rewrite length_app; simpl; lia). rewrite length_app, <-app_assoc.
        by replace (3 - length acc)%nat with (S (3 - (length acc + 1)))%nat by lia.
    + destruct (Nat.leb_spec 3 (length acc)); [lia|]. by apply IH.
Qed.

(** C31. The purpose is the space-joined first three lines, stripped,
    among the first twenty lines of the document that are not blank and
    do not start with [#]: the early-exit loop of [_extract_purpose]
    computes this declarative description. *)
Theorem extract_purpose_spec (lines : list pystr) :
  _extract_purpose lines
  = str_join (py " ") (firstn 3 (map str_strip (List.filter is_purpose_line (firstn 20 lines)))).
Proof. unfold _extract_purpose. rewrite purpose_loop_spec by (simpl; lia). done. Qed.

(** The heading test is on the unstripped line: an indented [#] heading
    is taken as a purpose sentence. *)
Example purpose_indented_heading :
  _extract_purpose [py " # Title"; py "Text."] = py "# Title Text.".
Proof. vm_compute. reflexivity. Qed.

(** C5. [_extract_inline_rules] returns, in document order, the stripped
    text of exactly those lines of the document in which the imperative
    pattern matches: one of MUST, NEVER, ALWAYS, REQUIRED, PROHIBITED,
    CRITICAL in any case and possibly inside a longer word, then colons,
    whitespace and one more character. *)
Theorem extract_inline_rules_spec (content x : pystr) :
  In x (_extract_inline_rules content) <->
  exists line, In line (str_split NL content) /\ imperative_line line /\ x = str_strip line.
Proof.
  unfold _extract_inline_rules. rewrite in_map_iff. split.
  - intros (line & <- & (Hin & Hm)%filter_In). apply inline_search_spec in Hm. eauto.
  - intros (line & Hin & Hm%inline_search_spec & ->). exists line. by rewrite filter_In.
Qed.

(** The comment of [parse] speaks of imperatives in caps, but the pattern
    has [re.I]: a lower-case sentence is a rule. *)
Example inline_rule_lower_case :
  _extract_inline_rules (py "Performance is critical for us") = [py "Performance is critical for us"].
Proof. vm_compute. reflexivity. Qed.

End ContextParser.
