(* ===== verification/Env.v ===== *)
(** * The operating-system interface of the scripts

    What the scripts ask of their environment: the working directory
    ([Path.cwd()], [Path.home()]), the file system ([Path.exists],
    [Path.is_file], [Path.read_text], [Path.read_bytes], [Path.mkdir]) and
    child processes
    ([subprocess.run(..., capture_output=True, text=True)]). The class [OS]
    states it once; the checker, the command and the task inference are
    proved for every instance, and [os_of_listing] builds the concrete
    instances that the witnesses run on. A call that raises is [inl] with
    the text of the exception. *)

From S2P Require Import Prelude PyStr.
From Stdlib Require Import ZArith.

(** [subprocess.CompletedProcess]: the fields the scripts read. *)
Record SubprocessResult := { returncode : Z; stdout : pystr }.

Class OS := {
  os_cwd : path;
  os_exists : path -> bool;
  os_is_file : path -> bool;
  os_read_text : path -> pystr + pystr;
  os_read_bytes : path -> pystr + pystr;
  os_run : list pystr -> pystr + SubprocessResult;
  (** [Path.home()] *)
  os_home : path;
  (** [p.mkdir(parents=True, exist_ok=True)] *)
  os_mkdir : path -> pystr + unit;
  (** [is_file()] implies [exists()]. *)
  os_is_file_exists : forall p, os_is_file p = true -> os_exists p = true
}.

(** A concrete environment: files with their contents, the other existing
    paths (directories), and the answers of the commands it can run; any
    other command raises [FileNotFoundError], as when the program is not
    installed. The home directory is the working directory; creating a
    directory fails where a file is. *)
Definition listing_lookup {A} (k : path) (l : list (path * A)) : option A :=
  snd <$> List.find (fun kv => bool_decide (kv.1 = k)) l.

Definition os_of_listing (cwd : path) (files : list (path * pystr)) (dirs : list path)
    (procs : list (list pystr * SubprocessResult)) : OS.
Proof.
  refine {|
    os_cwd := cwd;
    os_exists p := bool_decide (is_Some (listing_lookup p files)) || bool_decide (p ∈ dirs);
    os_is_file p := bool_decide (is_Some (listing_lookup p files));
    os_read_text p := match listing_lookup p files with
                      | Some c => inr c
                      | None => inl (py "FileNotFoundError")
                      end;
    os_read_bytes p := match listing_lookup p files with
                       | Some c => inr c
                       | None => inl (py "FileNotFoundError")
                       end;
    os_run cmd := match snd <$> List.find (fun kv => bool_decide (kv.1 = cmd)) procs with
                  | Some r => inr r
                  | None => inl (py "FileNotFoundError")
                  end;
    os_home := cwd;
    os_mkdir p := if bool_decide (is_Some (listing_lookup p files))
                  then inl (py "FileExistsError") else inr tt |}.
  intros p H. by rewrite H.
Defined.
