(* ===== verification/Checker.v ===== *)
(** * [AlignmentChecker] (src/docs/rules/scripts/sync.py)

    The checker holds a [ProjectContext] and a list of issues
    ([self.issues]). [check_current_state] resets the list and runs four
    checks in a fixed order, each of which may append issues. Here each
    check is a function from the issue list to the issue list (the
    appends), the context and the operating system ([OS]) being fixed in a
    section; [check_current_state] composes them as the method calls them. *)

From S2P Require Import Prelude PyStr Parser Env.

(** [AlignmentLevel] *)
Inductive AlignmentLevel := ALIGNED | SUGGESTION | WARNING | CRITICAL.

#[export] Instance AlignmentLevel_eq_dec : EqDecision AlignmentLevel.
Proof. solve_decision. Defined.

(** [@dataclass AlignmentIssue] *)
Record AlignmentIssue := {
  level : AlignmentLevel;
  category : pystr;
  description : pystr;
  suggestion : pystr;
  context_reference : option pystr
}.

Module AlignmentChecker.
Section Checks.
Context `{os : OS} (context : ProjectContext).

(** The warning of [_check_directory_alignment]. *)
Definition location_issue (context_dir : path) : AlignmentIssue :=
  {| level := WARNING; category := py "location";
     description := py "Working directory may not align with project root";
     suggestion := py "Consider navigating to " ++ path_str context_dir;
     context_reference := None |}.

Definition _check_directory_alignment (issues : list AlignmentIssue) : list AlignmentIssue :=
  let cwd := os_cwd in
  let context_dir := path_parent (ctx_path context) in
  if negb (bool_decide (context_dir ∈ path_parents cwd)) && negb (bool_decide (context_dir = cwd))
  then issues ++ [location_issue context_dir]
  else issues.

(** The issue appended for an offending [rule]. *)
Definition main_branch_issue (rule : pystr) : AlignmentIssue :=
  {| level := CRITICAL; category := py "workflow";
     description := py "Working directly on main branch";
     suggestion := py "Create a feature branch before making changes";
     context_reference := Some rule |}.

Definition git_branch_cmd : list pystr := [py "git"; py "branch"; py "--show-current"].

(** [if 'feature branch' in rule.lower() or 'branch' in rule.lower()] *)
Definition mentions_branch (rule : pystr) : bool :=
  str_in (py "feature branch") (str_lower rule) || str_in (py "branch") (str_lower rule).

Definition is_main (branch : pystr) : bool :=
  bool_decide (branch = py "main") || bool_decide (branch = py "master").

(** The body of the loop over [always_rules + workflows]: the [try] block
    runs [git branch --show-current]; an exception skips the rule. *)
Definition git_rule_step (issues : list AlignmentIssue) (rule : pystr) : list AlignmentIssue :=
  if mentions_branch rule then
    match os_run git_branch_cmd with
    | inl _ => issues
    | inr result =>
        if is_main (str_strip (stdout result)) then issues ++ [main_branch_issue rule]
        else issues
    end
  else issues.

Definition _check_git_workflow (issues : list AlignmentIssue) : list AlignmentIssue :=
  if negb (os_exists (path_div os_cwd [py ".git"])) then issues
  else fold_left git_rule_step (always_rules context ++ workflows context) issues.

Definition never_rules_issue (never : list pystr) : AlignmentIssue :=
  {| level := SUGGESTION; category := py "rules";
     description := py "Project has critical NEVER rules";
     suggestion := py "Review never rules: " ++ str_join (py "; ") (firstn 2 never);
     context_reference := None |}.

Definition _check_rule_compliance (issues : list AlignmentIssue) : list AlignmentIssue :=
  match never_rules context with
  | [] => issues
  | never => issues ++ [never_rules_issue never]
  end.

Definition structure_issue : AlignmentIssue :=
  {| level := SUGGESTION; category := py "structure";
     description := py "Project uses specific directory structure";
     suggestion := py "Ensure files are created in appropriate directories";
     context_reference := None |}.

Definition _check_file_operations (issues : list AlignmentIssue) : list AlignmentIssue :=
  match structure context with
  | [] => issues
  | st => if dict_in (py "content") st then issues ++ [structure_issue] else issues
  end.

(** [check_current_state]: [self.issues = []], then the four checks. *)
Definition check_current_state : list AlignmentIssue :=
  let issues := [] in
  let issues := _check_directory_alignment issues in
  let issues := _check_git_workflow issues in
  let issues := _check_rule_compliance issues in
  _check_file_operations issues.

End Checks.

Section Props.
Context `{os : OS} (context : ProjectContext).

Lemma git_fold_append (rules : list pystr) (issues : list AlignmentIssue) :
  fold_left git_rule_step rules issues = issues ++ fold_left git_rule_step rules [].
Proof.
  revert issues. induction rules as [|rule rules IH]; intros issues; simpl.
  - by rewrite app_nil_r.
  - rewrite (IH (git_rule_step issues rule)), (IH (git_rule_step [] rule)).
    rewrite app_assoc. f_equal. unfold git_rule_step.
    repeat case_match; by rewrite ?app_nil_r.
Qed.

Lemma git_append (issues : list AlignmentIssue) :
  _check_git_workflow context issues = issues ++ _check_git_workflow context [].
Proof.
  unfold _check_git_workflow. destruct (negb _); [by rewrite app_nil_r|].
  apply git_fold_append.
Qed.

Lemma rule_append (issues : list AlignmentIssue) :
  _check_rule_compliance context issues = issues ++ _check_rule_compliance context [].
Proof. unfold _check_rule_compliance. destruct (never_rules context); simpl; by rewrite ?app_nil_r. Qed.

Lemma file_append (issues : list AlignmentIssue) :
  _check_file_operations context issues = issues ++ _check_file_operations context [].
Proof.
  unfold _check_file_operations. destruct (structure context); [by rewrite app_nil_r|].
  destruct (dict_in _ _); simpl; by rewrite ?app_nil_r.
Qed.

(** C6. The issue list is the concatenation of what the four checks emit,
    each run on its own, in the order directory, git workflow, NEVER rules,
    structure: the checks are independent and the list is in check order,
    not sorted by severity. *)
Theorem check_current_state_concat :
  check_current_state context =
  _check_directory_alignment context [] ++ _check_git_workflow context []
  ++ _check_rule_compliance context [] ++ _check_file_operations context [].
Proof.
  unfold check_current_state.
  rewrite file_append, rule_append, git_append. by rewrite <- !app_assoc.
Qed.

(** C7. The directory check warns exactly when the working directory is
    neither the context file's directory nor below it. *)
Theorem directory_alignment_spec :
  _check_directory_alignment context [] =
  if bool_decide (parts (path_parent (ctx_path context)) `prefix_of` parts os_cwd) then []
  else [location_issue (path_parent (ctx_path context))].
Proof.
  unfold _check_directory_alignment.
  set (d := path_parent (ctx_path context)).
  assert (Hiff : (d ∈ path_parents os_cwd \/ d = os_cwd) <-> parts d `prefix_of` parts os_cwd).
  { rewrite path_in_parents. split.
    - intros [[r [_ ->]]|<-]; [by eexists|by exists []; rewrite app_nil_r].
    - intros [r Hr]. destruct r as [|x r].
      + right. destruct d, os_cwd; simpl in *. by rewrite Hr, app_nil_r.
      + left. exists (x :: r). split; [done|exact Hr]. }
  repeat case_bool_decide; simpl; try done; tauto.
Qed.

(** C8. The git workflow check: inside a repository (a [.git] entry in the
    working directory) on branch [main] or [master], it emits one critical
    issue per always-rule or workflow item that mentions "branch", in their
    order, each naming its rule; otherwise, or when [git] cannot be run, it
    emits nothing. *)
Theorem git_workflow_spec :
  _check_git_workflow context [] =
  if os_exists (path_div os_cwd [py ".git"]) then
    match os_run git_branch_cmd with
    | inr r =>
        if is_main (str_strip (stdout r))
        then map main_branch_issue
               (List.filter mentions_branch (always_rules context ++ workflows context))
        else []
    | inl _ => []
    end
  else [].
Proof.
  unfold _check_git_workflow. destruct (os_exists _); [|done]. simpl.
  induction (always_rules context ++ workflows context) as [|rule rules IH]; simpl.
  - by destruct (os_run _) as [|r]; [|destruct (is_main _)].
  - rewrite git_fold_append, IH. unfold git_rule_step.
    destruct (mentions_branch rule), (os_run git_branch_cmd) as [|r]; try done;
      destruct (is_main _); done.
Qed.

End Props.
End AlignmentChecker.
