(* ===== verification/Command.v ===== *)
(** * [SyncCommand] (src/docs/rules/scripts/sync.py)

    The command of [sync.py]: [find_claude_md] looks for the context file in
    the working directory and up to five of its ancestors; [load_context]
    reads and parses it (a read error prints a message and exits with 1);
    [analyze_alignment] runs the checker; [format_output] renders the
    report; [run] prints it and exits with 2 on a critical issue, 1 on a
    warning, 0 otherwise. A run is modelled by what it prints (one entry per
    [print] call) and its exit status. *)

From S2P Require Import Prelude PyStr Parser Env Checker.
From Stdlib Require Import ZArith.

(** What a run of the script shows: the [print] calls and the exit status. *)
Record Outcome := { printed : list pystr; exit_status : Z }.

Module SyncCommand.
Import AlignmentChecker.
Section Command.
Context `{os : OS}.

(** The candidate names, in the order they are tried in each directory. *)
Definition locations : list (list pystr) :=
  [[py "README.md"]; [py "readme.md"]; [py "Readme.md"]; [py "docs"; py "README.md"]].

(** The inner loop over [locations] in the directory [current]. *)
Fixpoint find_in (current : path) (locs : list (list pystr)) : option path :=
  match locs with
  | [] => None
  | loc :: locs' =>
      let p := path_div current loc in
      if os_exists p && os_is_file p then Some p else find_in current locs'
  end.

(** The outer loop [for _ in range(6)], which stops at the root. *)
Fixpoint find_loop (rounds : nat) (current : path) : option path :=
  match rounds with
  | O => None
  | S rounds' =>
      match find_in current locations with
      | Some p => Some p
      | None =>
          if bool_decide (path_parent current = current) then None
          else find_loop rounds' (path_parent current)
      end
  end.

Definition find_claude_md : option path := find_loop 6 os_cwd.

(** [load_context]: a failing [read_text] prints the error and exits 1. *)
Definition load_context (p : path) : Outcome + ProjectContext :=
  match os_read_text p with
  | inl e => inl {| printed := [py "Error reading " ++ path_str p ++ py ": " ++ e];
                   exit_status := 1 |}
  | inr content => inr (ContextParser.parse content p)
  end.

Definition analyze_alignment (context : option ProjectContext) : list AlignmentIssue :=
  match context with
  | None => []
  | Some c => check_current_state c
  end.

Definition is_level (l : AlignmentLevel) (i : AlignmentIssue) : bool :=
  bool_decide (level i = l).

(** The lines of one issue under its heading. *)
Definition issue_lines (with_reference : bool) (i : AlignmentIssue) : list pystr :=
  [py "  - " ++ description i; py "    → " ++ suggestion i]
  ++ (if with_reference then
        match context_reference i with
        | Some r => if bool_decide (r = []) then [] else [py "    Reference: " ++ r]
        | None => []
        end
      else []).

Definition issue_group (title : pystr) (with_reference : bool) (group : list AlignmentIssue)
    : list pystr :=
  match group with
  | [] => []
  | _ => title :: concat (map (issue_lines with_reference) group) ++ [[]]
  end.

Definition repeat_str (s : pystr) (n : nat) : pystr := concat (repeat s n).

Definition rule_lines (title : pystr) (rs : list pystr) : list pystr :=
  match firstn 3 rs with
  | [] => []
  | top => title :: map (fun r => py "  • " ++ r) top
  end.

(** [format_output]: the report, one list entry per [output.append]. *)
Definition format_lines (context : ProjectContext) (issues : list AlignmentIssue) : list pystr :=
  [repeat_str (py "=") 60; py "PROJECT CONTEXT SYNC ANALYSIS"; repeat_str (py "=") 60; [];
   py "Project: " ++ path_name (path_parent (ctx_path context));
   py "Context: " ++ path_str (ctx_path context); []]
  ++ (if bool_decide (purpose context = []) then []
      else [py "Purpose:"; py "  " ++ firstn 200 (purpose context) ++ py "..."; []])
  ++ (match issues with
      | [] => [py "✅ FULLY ALIGNED - No issues detected"; []; py "Current task appears to align with project context."]
      | _ =>
          issue_group (py "❌ CRITICAL ISSUES:") true (List.filter (is_level CRITICAL) issues)
          ++ issue_group (py "⚠️  WARNINGS:") false (List.filter (is_level WARNING) issues)
          ++ issue_group (py "💡 SUGGESTIONS:") false (List.filter (is_level SUGGESTION) issues)
      end)
  ++ (match always_rules context, never_rules context with
      | [], [] => []
      | _, _ =>
          [repeat_str (py "-") 40; py "KEY RULES TO REMEMBER:"]
          ++ rule_lines (NL :: py "ALWAYS:") (always_rules context)
          ++ rule_lines (NL :: py "NEVER:") (never_rules context)
      end)
  ++ [[]; repeat_str (py "=") 60]
  ++ (if existsb (is_level CRITICAL) issues then
        [[]; py "🤔 STRATEGIC RECALIBRATION NEEDED";
         py "Critical misalignments detected. Ultrathinking recommended to:";
         py "  1. Understand the project's actual requirements";
         py "  2. Identify why the current approach diverged";
         py "  3. Develop a corrective strategy";
         py "  4. Ensure future alignment with project context"]
      else []).

Definition format_output (context : ProjectContext) (issues : list AlignmentIssue) : pystr :=
  str_join [NL] (format_lines context issues).

(** The exit status chosen at the end of [run]. *)
Definition exit_code (issues : list AlignmentIssue) : Z :=
  if existsb (is_level CRITICAL) issues then 2
  else if existsb (is_level WARNING) issues then 1
  else 0.

Definition not_found : Outcome :=
  {| printed := [py "❌ No CLAUDE.md found in current or parent directories"; py "This command requires a CLAUDE.md file to understand project context."]; exit_status := 1 |}.

Definition run : Outcome :=
  match find_claude_md with
  | None => not_found
  | Some p =>
      match load_context p with
      | inl stop => stop
      | inr context =>
          let issues := analyze_alignment (Some context) in
          {| printed := [format_output context issues]; exit_status := exit_code issues |}
      end
  end.

(** The directories the search visits: the working directory and its
    ancestors, nearest first, at most six, the root being the last. *)
Definition ancestor (c : path) (j : nat) : path :=
  Path (firstn (length (parts c) - j) (parts c)).

Definition search_dirs (c : path) : list path :=
  map (ancestor c) (seq 0 (Nat.min 6 (S (length (parts c))))).

Definition candidates (dirs : list path) : list path :=
  concat (map (fun d => map (path_div d) locations) dirs).

Definition found (p : path) : bool := os_exists p && os_is_file p.

End Command.

(** A line that cannot be the first line of the recalibration note at the
    end of the report: it does not start with its emoji. *)
Definition banner_free (l : pystr) : Prop := head l <> Some 129300%N.

Section Props.
Context `{os : OS}.

Lemma find_app {A} (f : A -> bool) (l1 l2 : list A) :
  List.find f (l1 ++ l2) = match List.find f l1 with Some x => Some x | None => List.find f l2 end.
Proof. induction l1 as [|x l1 IH]; simpl; [done|]. by destruct (f x). Qed.

Lemma find_in_spec (current : path) (locs : list (list pystr)) :
  find_in current locs = List.find found (map (path_div current) locs).
Proof. induction locs as [|loc locs IH]; simpl; [done|]. unfold found. by rewrite IH. Qed.

Lemma ancestor_parent (c : path) (j : nat) :
  (j < length (parts c))%nat -> path_parent (ancestor c j) = ancestor c (S j).
Proof.
  intros Hj. unfold ancestor, path_parent. simpl. f_equal.
  replace (length (parts c) - j)%nat with (S (length (parts c) - S j)) by lia.
  apply removelast_firstn. lia.
Qed.

Lemma ancestor_root (c : path) (j : nat) :
  (j <= length (parts c))%nat -> path_parent (ancestor c j) = ancestor c j <-> j = length (parts c).
Proof.
  intros Hj. unfold ancestor, path_parent. simpl. split.
  - intros H. injection H as H.
    destruct (length (parts c) - j)%nat as [|k] eqn:E; [lia|].
    rewrite removelast_firstn in H by lia.
    apply (f_equal length) in H. rewrite !length_firstn in H. lia.
  - intros ->. by rewrite Nat.sub_diag.
Qed.

Lemma find_loop_spec (c : path) (n j : nat) :
  (j <= length (parts c))%nat ->
  find_loop n (ancestor c j)
  = List.find found (candidates (map (ancestor c)
      (seq j (Nat.min n (S (length (parts c)) - j))))).
Proof.
  revert j. induction n as [|n IH]; intros j Hj; [done|].
  replace (Nat.min (S n) (S (length (parts c)) - j))
    with (S (Nat.min n (length (parts c) - j))) by lia.
  cbn [find_loop seq map candidates concat]. fold (candidates (map (ancestor c)
    (seq (S j) (Nat.min n (length (parts c) - j))))).
  rewrite find_app, find_in_spec. destruct (List.find found _) as [p|]; [done|].
  case_bool_decide as Hroot.
  - apply ancestor_root in Hroot as ->; [|done].
    by rewrite Nat.sub_diag, Nat.min_0_r.
  - assert (Hlt : (j < length (parts c))%nat).
    { destruct (decide (j = length (parts c))) as [->|]; [|lia].
      exfalso. apply Hroot. by apply ancestor_root. }
    by rewrite ancestor_parent, IH by lia.
Qed.

(** C9. [find_claude_md] returns the first existing file among the
    candidate names of the working directory, then of its parent, and so on
    up to five levels above the working directory, the root being the last
    directory tried: the nested loops with their [break] compute a
    [List.find] over this candidate list. *)
Theorem find_claude_md_spec :
  find_claude_md = List.find found (candidates (search_dirs os_cwd)).
Proof.
  unfold find_claude_md, search_dirs.
  replace os_cwd with (ancestor os_cwd 0) at 1.
  - rewrite find_loop_spec by lia. by rewrite Nat.sub_0_r.
  - unfold ancestor. rewrite Nat.sub_0_r, firstn_all. by destruct os_cwd.
Qed.

(** C10. The file found lies in the working directory or at most five
    levels above it, under one of the four candidate names, and is a file. *)
Theorem find_claude_md_within_five (p : path) :
  find_claude_md = Some p ->
  exists j loc, (j <= 5)%nat /\ In loc locations
    /\ parts p = firstn (length (parts os_cwd) - j) (parts os_cwd) ++ loc
    /\ os_is_file p = true.
Proof.
  rewrite find_claude_md_spec. intros H. apply find_some in H as [Hin Hf].
  unfold candidates, search_dirs in Hin.
  apply in_concat in Hin as [ps [Hps Hp]]. apply in_map_iff in Hps as [d [<- Hd]].
  apply in_map_iff in Hd as [j [<- Hj]]. apply in_seq in Hj.
  apply in_map_iff in Hp as [loc [<- Hloc]].
  exists j, loc. unfold found in Hf. apply andb_prop in Hf as [_ Hf].
  repeat split; try done. lia.
Qed.

Lemma parent_div2 (c : path) (a b : pystr) : path_parent (path_div c [a; b]) = path_div c [a].
Proof. unfold path_parent, path_div. simpl. by rewrite removelast_app. Qed.

Lemma exit_code_warning (issues : list AlignmentIssue) :
  existsb (is_level WARNING) issues = true -> (1 <= exit_code issues)%Z.
Proof. unfold exit_code. intros ->. destruct (existsb _ _); lia. Qed.

(** C11. When the context file found is [docs/README.md] of the working
    directory, the directory check always reports the working directory as
    misaligned (its parent [docs] is below the working directory) and the
    command exits with status 1 or 2, whatever the document says. *)
Theorem docs_readme_location_warning (content : pystr) :
  let p := path_div os_cwd [py "docs"; py "README.md"] in
  find_claude_md = Some p -> os_read_text p = inr content ->
  In (location_issue (path_div os_cwd [py "docs"]))
     (analyze_alignment (Some (ContextParser.parse content p)))
  /\ (1 <= exit_status run)%Z.
Proof.
  intros p Hf Hr.
  assert (Hin : In (location_issue (path_div os_cwd [py "docs"]))
                  (analyze_alignment (Some (ContextParser.parse content p)))).
  { cbn [analyze_alignment]. rewrite check_current_state_concat, directory_alignment_spec.
    cbn [ctx_path ContextParser.parse]. unfold p. rewrite parent_div2.
    rewrite bool_decide_false; [by left|].
    intros [k Hk]. unfold path_div in Hk. cbn [parts] in Hk. apply (f_equal length) in Hk.
    rewrite !length_app in Hk. simpl in Hk. lia. }
  split; [done|].
  unfold run. rewrite Hf. unfold load_context. rewrite Hr. cbn [exit_status].
  apply exit_code_warning, existsb_exists. exists (location_issue (path_div os_cwd [py "docs"])).
  split; [done|]. by unfold is_level; rewrite bool_decide_true.
Qed.

Lemma no_critical_dir (context : ProjectContext) :
  existsb (is_level CRITICAL) (_check_directory_alignment context []) = false.
Proof. unfold _check_directory_alignment. by destruct (_ && _). Qed.

Lemma no_critical_rules (context : ProjectContext) :
  existsb (is_level CRITICAL) (_check_rule_compliance context []) = false.
Proof. unfold _check_rule_compliance. by destruct (never_rules context). Qed.

Lemma no_critical_file (context : ProjectContext) :
  existsb (is_level CRITICAL) (_check_file_operations context []) = false.
Proof. unfold _check_file_operations. destruct (structure context); [done|]. by destruct (dict_in _ _). Qed.

Lemma critical_git (context : ProjectContext) :
  existsb (is_level CRITICAL) (_check_git_workflow context []) = true <->
  os_exists (path_div os_cwd [py ".git"]) = true
  /\ (exists r, os_run git_branch_cmd = inr r /\ is_main (str_strip (stdout r)) = true)
  /\ Exists (fun rule => mentions_branch rule = true) (always_rules context ++ workflows context).
Proof.
  rewrite git_workflow_spec.
  assert (Hmap : forall rs, existsb (is_level CRITICAL) (map main_branch_issue rs)
                            = negb (bool_decide (rs = []))).
  { intros [|r rs]; reflexivity. }
  assert (Hf : forall rs, negb (bool_decide (List.filter mentions_branch rs = [])) = true
                          <-> Exists (fun rule => mentions_branch rule = true) rs).
  { intros rs. rewrite negb_true_iff, bool_decide_eq_false, Exists_exists.
    split.
    - intros H. destruct (List.filter mentions_branch rs) as [|x xs] eqn:E; [done|].
      assert (Hx : In x (List.filter mentions_branch rs)) by (rewrite E; left; done).
      apply filter_In in Hx. eauto.
    - intros [x [Hx Hm]] E. assert (Hx' : In x (List.filter mentions_branch rs))
        by (apply filter_In; auto). by rewrite E in Hx'. }
  destruct (os_exists _); [|split; [discriminate|intros [? _]; discriminate]].
  destruct (os_run git_branch_cmd) as [e|r].
  - split; [discriminate|intros [_ [[r [? _]] _]]; discriminate].
  - destruct (is_main _) eqn:Em.
    + rewrite Hmap, Hf. split; [intros H; split; eauto|tauto].
    + split; [discriminate|]. intros [_ [[r' [Hr' Hm]] _]]. injection Hr' as <-. congruence.
Qed.

Lemma exit_code_critical (issues : list AlignmentIssue) :
  exit_code issues = 2%Z <-> existsb (is_level CRITICAL) issues = true.
Proof.
  unfold exit_code. destruct (existsb (is_level CRITICAL) _);
    [|destruct (existsb _ _)]; split; congruence.
Qed.

(** C12. The command exits with status 2 exactly when it finds and reads a
    context file, runs in a git repository (a [.git] entry in the working
    directory) whose current branch is [main] or [master], and some
    always-rule or workflow item of the file mentions "branch": only the git
    workflow check raises critical issues. *)
Theorem run_exit_critical :
  exit_status run = 2%Z <->
  exists p content r,
    find_claude_md = Some p /\ os_read_text p = inr content
    /\ os_exists (path_div os_cwd [py ".git"]) = true
    /\ os_run git_branch_cmd = inr r /\ is_main (str_strip (stdout r)) = true
    /\ Exists (fun rule => mentions_branch rule = true)
         (always_rules (ContextParser.parse content p) ++ workflows (ContextParser.parse content p)).
Proof.
  unfold run. destruct find_claude_md as [p|].
  2: { split; [discriminate|]. intros (? & ? & ? & H & _). discriminate. }
  unfold load_context. destruct (os_read_text p) as [e|content] eqn:Er.
  { split; [discriminate|]. intros (? & ? & ? & Hp & H & _).
    injection Hp; intros; subst; congruence. }
  cbn [exit_status analyze_alignment]. set (c := ContextParser.parse content p).
  rewrite exit_code_critical, check_current_state_concat, !existsb_app, no_critical_dir, no_critical_rules,
    no_critical_file, !orb_false_r. cbn [orb]. rewrite critical_git.
  split.
  - intros (Hg & [r [Hr Hm]] & Hex). exists p, content, r. by repeat split.
  - intros (p' & content' & r & [= <-] & Hr' & Hg & Hrun & Hm & Hex).
    rewrite Er in Hr'. injection Hr' as <-. repeat split; eauto.
Qed.

Lemma no_warning_git (context : ProjectContext) :
  existsb (is_level WARNING) (_check_git_workflow context []) = false.
Proof.
  rewrite git_workflow_spec. destruct (os_exists _); [|done].
  destruct (os_run _); [done|]. destruct (is_main _); [|done].
  induction (List.filter _ _) as [|r rs IH]; [done|exact IH].
Qed.

Lemma no_warning_rules (context : ProjectContext) :
  existsb (is_level WARNING) (_check_rule_compliance context []) = false.
Proof. unfold _check_rule_compliance. by destruct (never_rules context). Qed.

Lemma no_warning_file (context : ProjectContext) :
  existsb (is_level WARNING) (_check_file_operations context []) = false.
Proof. unfold _check_file_operations. destruct (structure context); [done|]. by destruct (dict_in _ _). Qed.

Lemma warning_dir (context : ProjectContext) :
  existsb (is_level WARNING) (_check_directory_alignment context []) =
  negb (bool_decide (parts (path_parent (ctx_path context)) `prefix_of` parts os_cwd)).
Proof. rewrite directory_alignment_spec. by case_bool_decide. Qed.

Lemma exit_code_zero (issues : list AlignmentIssue) :
  exit_code issues = 0%Z <->
  existsb (is_level CRITICAL) issues = false /\ existsb (is_level WARNING) issues = false.
Proof.
  unfold exit_code. destruct (existsb (is_level CRITICAL) _), (existsb (is_level WARNING) _);
    split; try discriminate; try done; intros [? ?]; discriminate.
Qed.

Lemma head_app_l {A} (a b : list A) : a <> [] -> head (a ++ b) = head a.
Proof. by destruct a. Qed.

(** A line that starts with a fixed text other than the note's emoji. *)
Ltac banner_free_line :=
  unfold banner_free;
  try (rewrite head_app_l by (vm_compute; discriminate));
  vm_compute; discriminate.

Lemma issue_group_banner_free (title : pystr) (r : bool) (g : list AlignmentIssue) :
  banner_free title -> Forall banner_free (issue_group title r g).
Proof.
  intros Ht. destruct g as [|i g]; [constructor|]. cbn [issue_group].
  constructor; [done|]. apply Forall_app. split; [|constructor; [banner_free_line|constructor]].
  apply Forall_concat, List.Forall_forall. intros ls (j & <- & _)%in_map_iff.
  unfold issue_lines. apply Forall_app. split.
  - repeat constructor; banner_free_line.
  - destruct r, (context_reference j) as [x|]; try constructor.
    destruct (bool_decide _); repeat constructor. banner_free_line.
Qed.

Lemma rule_lines_banner_free (title : pystr) (rs : list pystr) :
  banner_free title -> Forall banner_free (rule_lines title rs).
Proof.
  intros Ht. unfold rule_lines. destruct (firstn 3 rs) as [|r top]; [constructor|].
  constructor; [done|]. apply List.Forall_forall. intros l (x & <- & _)%in_map_iff.
  banner_free_line.
Qed.

(** Every line of the report before the recalibration note. *)
Lemma format_lines_split (context : ProjectContext) (issues : list AlignmentIssue) :
  exists pre, Forall banner_free pre /\
  format_lines context issues =
  pre ++ (if existsb (is_level CRITICAL) issues then
            [[]; py "🤔 STRATEGIC RECALIBRATION NEEDED";
             py "Critical misalignments detected. Ultrathinking recommended to:";
             py "  1. Understand the project's actual requirements";
             py "  2. Identify why the current approach diverged";
             py "  3. Develop a corrective strategy";
             py "  4. Ensure future alignment with project context"]
          else []).
Proof.
  unfold format_lines. rewrite !app_assoc. eexists. split; [|reflexivity].
  repeat (apply Forall_app; split).
  - repeat constructor; banner_free_line.
  - case_match; repeat constructor; banner_free_line.
  - destruct issues; [repeat constructor; banner_free_line|].
    repeat (apply Forall_app; split); apply issue_group_banner_free; banner_free_line.
  - destruct (always_rules _), (never_rules _); [constructor|..];
      rewrite !Forall_app; (split; [split|]);
      first [apply rule_lines_banner_free | repeat constructor]; banner_free_line.
  - repeat constructor; banner_free_line.
Qed.

(** C13. The report ends with the strategic recalibration note exactly
    when the command exits with status 2: the note and the exit status
    test the same condition, a critical issue, and no other line of the
    report (whatever the document's rules, purpose or issue texts) can be
    the note's first line. *)
Theorem report_recalibration_note (context : ProjectContext) (issues : list AlignmentIssue) :
  In (py "🤔 STRATEGIC RECALIBRATION NEEDED") (format_lines context issues)
  <-> exit_code issues = 2%Z.
Proof.
  rewrite exit_code_critical.
  destruct (format_lines_split context issues) as (pre & Hpre & ->).
  rewrite in_app_iff. split.
  - intros [Hin|Hin].
    + eapply List.Forall_forall in Hpre; [|exact Hin].
      exfalso. apply Hpre. vm_compute. reflexivity.
    + by destruct (existsb _ _).
  - intros ->. right. right. by left.
Qed.

(** C33. The command exits with status 0 exactly when it finds and reads a
    context file, the working directory is the file's directory or below it,
    and the git workflow check finds no rule about branches while on [main]
    or [master]: a missing or unreadable file exits 1, and suggestions alone
    never change the status. *)
Theorem run_exit_clean :
  exit_status run = 0%Z <->
  exists p content,
    find_claude_md = Some p /\ os_read_text p = inr content
    /\ parts (path_parent p) `prefix_of` parts os_cwd
    /\ ~ (os_exists (path_div os_cwd [py ".git"]) = true
          /\ (exists r, os_run git_branch_cmd = inr r /\ is_main (str_strip (stdout r)) = true)
          /\ Exists (fun rule => mentions_branch rule = true)
               (always_rules (ContextParser.parse content p)
                ++ workflows (ContextParser.parse content p))).
Proof.
  unfold run. destruct find_claude_md as [p|].
  2: { split; [discriminate|]. intros (? & ? & H & _). discriminate. }
  unfold load_context. destruct (os_read_text p) as [e|content] eqn:Er.
  { split; [discriminate|]. intros (? & ? & Hp & H & _).
    injection Hp; intros; subst; congruence. }
  cbn [exit_status analyze_alignment]. set (c := ContextParser.parse content p).
  rewrite exit_code_zero, check_current_state_concat, !existsb_app, no_critical_dir,
    no_critical_rules, no_critical_file, no_warning_git, no_warning_rules, no_warning_file,
    warning_dir, !orb_false_r. cbn [orb]. rewrite <- not_true_iff_false, critical_git.
  rewrite negb_false_iff, bool_decide_eq_true. subst c. cbn [ctx_path ContextParser.parse].
  split.
  - intros [Hg Hd]. by exists p, content.
  - intros (p' & content' & [= <-] & Hr' & Hd & Hg).
    rewrite Er in Hr'. injection Hr' as <-. done.
Qed.

End Props.

Lemma find_claude_md_within_five_witness :
  exists j loc, (j <= 5)%nat /\ In loc locations
    /\ parts (Path [py "proj"; py "README.md"])
       = firstn (length [py "proj"; py "src"] - j) [py "proj"; py "src"] ++ loc
    /\ os_is_file (OS := os_of_listing (Path [py "proj"; py "src"])
                     [(Path [py "proj"; py "README.md"], py "Rules:")] [] [])
         (Path [py "proj"; py "README.md"]) = true.
Proof.
  apply (find_claude_md_within_five (os := os_of_listing (Path [py "proj"; py "src"])
           [(Path [py "proj"; py "README.md"], py "Rules:")] [] [])).
  vm_compute. reflexivity.
Defined.

Lemma docs_readme_location_warning_witness :
  let os := os_of_listing (Path [py "proj"]) [(Path [py "proj"; py "docs"; py "README.md"],
              py "Always use feature branches.")] [] [] in
  In (location_issue (path_div (Path [py "proj"]) [py "docs"]))
     (analyze_alignment (os := os) (Some (ContextParser.parse
        (py "Always use feature branches.")
        (path_div (Path [py "proj"]) [py "docs"; py "README.md"]))))
  /\ (1 <= exit_status (run (os := os)))%Z.
Proof.
  intros os. apply (docs_readme_location_warning (os := os)); vm_compute; reflexivity.
Defined.

Lemma run_exit_critical_witness :
  let os := os_of_listing (Path [py "proj"])
              [(Path [py "proj"; py "README.md"],
                str_join [NL] [py "Always:"; py "- Create a feature branch before changes"])]
              [Path [py "proj"; py ".git"]]
              [(git_branch_cmd, {| returncode := 0; stdout := py "main" ++ [NL] |})] in
  exit_status (run (os := os)) = 2%Z.
Proof.
  intros os. apply (run_exit_critical (os := os)).
  exists (Path [py "proj"; py "README.md"]),
    (str_join [NL] [py "Always:"; py "- Create a feature branch before changes"]),
    {| returncode := 0; stdout := py "main" ++ [NL] |}.
  repeat split; try (vm_compute; reflexivity).
  vm_compute. left. reflexivity.
Defined.

Lemma run_exit_clean_witness :
  let os := os_of_listing (Path [py "proj"; py "src"])
              [(Path [py "proj"; py "README.md"],
                str_join [NL] [py "Always:"; py "- Create a feature branch before changes"])]
              [Path [py "proj"; py "src"; py ".git"]]
              [(git_branch_cmd, {| returncode := 0; stdout := py "feature/x" ++ [NL] |})] in
  exit_status (run (os := os)) = 0%Z.
Proof.
  intros os. apply (run_exit_clean (os := os)).
  exists (Path [py "proj"; py "README.md"]),
    (str_join [NL] [py "Always:"; py "- Create a feature branch before changes"]).
  split; [vm_compute; reflexivity|]. split; [vm_compute; reflexivity|].
  split; [exists [py "src"]; vm_compute; reflexivity|].
  intros (_ & (r & Hr & Hm) & _). vm_compute in Hr. injection Hr as <-.
  vm_compute in Hm. discriminate.
Defined.

End SyncCommand.
