(* ===== verification/Scorer.v ===== *)
(** * [AdvancedContextParser] (src/content/scripts/sync-advanced.py)

    [extract_semantic_rules] scores every line of the document by the
    weights of the keywords it contains (a substring test on the lower-cased
    line), classifies it as a prohibition, requirement, recommendation or
    general rule, keeps the lines of positive importance with their line
    number and two lines of context on each side, and sorts them by
    decreasing importance. The weights are multiples of 0.5 and their sum is
    at most 19.0, so every float the code adds is exact; the importance is
    kept here in half units ([importance2] = 2 x importance), and
    [extracted_rule_bounds] proves the bound. [list.sort(key=..., reverse=True)]
    is the stable sort in decreasing order of the key: [sort_by_importance]
    computes it by insertion, and [sort_by_importance_spec] shows it is the
    only stable descending order of the rules. [infer_project_type] counts
    indicator keywords per project type in a dict and returns the first
    type with the most hits. *)

From S2P Require Import Prelude PyStr Parser.
From Stdlib Require Import Sorting.Sorted.

Module AdvancedContextParser.

(** [self.keyword_weights], in half units, in the dict's order. *)
Definition keyword_weights : list (pystr * N) :=
  [(py "must", 6%N); (py "never", 6%N); (py "always", 6%N); (py "required", 5%N);
   (py "critical", 5%N); (py "important", 4%N); (py "should", 3%N);
   (py "recommended", 2%N); (py "optional", 1%N)].

(** [self.section_importance]: set in [__init__] and never read. *)
Definition section_importance : list (pystr * N) :=
  [(py "rules", 6%N); (py "requirements", 6%N); (py "workflow", 5%N);
   (py "structure", 4%N); (py "guidelines", 3%N); (py "notes", 2%N)].

(** The rule types. *)
Inductive RuleType := general | prohibition | requirement | recommendation.

#[export] Instance RuleType_eq_dec : EqDecision RuleType.
Proof. solve_decision. Defined.

(** The dict appended for a line. *)
Record SemanticRule := {
  text : pystr;
  rule_type : RuleType;
  importance2 : N;
  keywords : list pystr;
  line_number : nat;
  context : pystr
}.

(** The loop over [self.keyword_weights.items()]: the importance and the
    matched keywords, in the dict's order. *)
Definition score_step (line_lower : pystr) (acc : N * list pystr) (kw : pystr * N) :
    N * list pystr :=
  if str_in kw.1 line_lower then (acc.1 + kw.2, acc.2 ++ [kw.1])%N else acc.

Definition score (line_lower : pystr) : N * list pystr :=
  fold_left (score_step line_lower) keyword_weights (0%N, []).

(** The type, by the first group with a keyword in the line. *)
Definition classify (line_lower : pystr) : RuleType :=
  if existsb (fun kw => str_in kw line_lower) [py "never"; py "don't"; py "avoid"]
  then prohibition
  else if existsb (fun kw => str_in kw line_lower) [py "must"; py "always"; py "required"]
  then requirement
  else if existsb (fun kw => str_in kw line_lower) [py "should"; py "recommended"]
  then recommendation
  else general.

(** [lines[max(0, i - 2):min(len(lines), i + 3)]], joined. *)
Definition context_of (lines : list pystr) (i : nat) : pystr :=
  let context_start := (i - 2)%nat in
  let context_end := Nat.min (length lines) (i + 3) in
  str_join [NL] (firstn (context_end - context_start) (skipn context_start lines)).

(** The body of the loop for line [i]. *)
Definition rule_at (lines : list pystr) (i : nat) (line : pystr) : option SemanticRule :=
  let line_lower := str_lower line in
  let '(importance, matched) := score line_lower in
  if (0 <? importance)%N then
    Some {| text := str_strip line; rule_type := classify line_lower;
            importance2 := importance; keywords := matched;
            line_number := S i; context := context_of lines i |}
  else None.

Fixpoint collect (lines : list pystr) (i : nat) (rest : list pystr) : list SemanticRule :=
  match rest with
  | [] => []
  | line :: rest' =>
      match rule_at lines i line with
      | Some r => r :: collect lines (S i) rest'
      | None => collect lines (S i) rest'
      end
  end.

(** [rules.sort(key=lambda x: x['importance'], reverse=True)]: a stable
    sort by decreasing importance, by insertion; a rule goes before the
    first rule of smaller or equal importance, so rules of equal importance
    keep their order. *)
Fixpoint insert_by_importance (r : SemanticRule) (l : list SemanticRule) : list SemanticRule :=
  match l with
  | [] => [r]
  | r' :: l' =>
      if (importance2 r' <=? importance2 r)%N then r :: r' :: l'
      else r' :: insert_by_importance r l'
  end.

Fixpoint sort_by_importance (l : list SemanticRule) : list SemanticRule :=
  match l with
  | [] => []
  | r :: l' => insert_by_importance r (sort_by_importance l')
  end.

Definition extract_semantic_rules (content : pystr) : list SemanticRule :=
  let lines := str_split NL content in
  sort_by_importance (collect lines 0 lines).

(** [infer_project_type]: the indicator keywords of each project type. *)
Definition indicators : list (pystr * list pystr) :=
  [(py "web", [py "frontend"; py "backend"; py "api"; py "server"; py "client";
               py "react"; py "vue"; py "angular"]);
   (py "cli", [py "command"; py "cli"; py "terminal"; py "console"; py "script"]);
   (py "library", [py "library"; py "package"; py "module"; py "sdk"; py "framework"]);
   (py "application", [py "app"; py "application"; py "software"; py "program"]);
   (py "documentation", [py "docs"; py "documentation"; py "guide"; py "manual"]);
   (py "data", [py "data"; py "analysis"; py "ml"; py "ai"; py "science"; py "pipeline"])].

(** [scores[k] += 1] on a [defaultdict(int)]. *)
Fixpoint dict_incr (k : pystr) (d : pydict nat) : pydict nat :=
  match d with
  | [] => [(k, 1%nat)]
  | (k', v) :: d' => if bool_decide (k' = k) then (k', S v) :: d' else (k', v) :: dict_incr k d'
  end.

(** [max(scores, key=scores.get)]: the first key of largest value. *)
Fixpoint max_key (best : pystr * nat) (d : pydict nat) : pystr :=
  match d with
  | [] => best.1
  | kv :: d' => if (best.2 <? kv.2)%nat then max_key kv d' else max_key best d'
  end.

(** The body of the inner loop: [if keyword in content_lower: scores[project_type] += 1]. *)
Definition count_step (content_lower project_type : pystr) (scores : pydict nat) (keyword : pystr) :
    pydict nat :=
  if str_in keyword content_lower then dict_incr project_type scores else scores.

(** The body of the outer loop, for one [(project_type, keywords)] item. *)
Definition type_step (content_lower : pystr) (scores : pydict nat) (ind : pystr * list pystr) :
    pydict nat :=
  fold_left (count_step content_lower ind.1) ind.2 scores.

Definition infer_project_type (content : pystr) (file_structure : pydict pystr) : pystr :=
  let content_lower := str_lower content in
  let scores := fold_left (type_step content_lower) indicators [] in
  match scores with
  | [] => py "general"
  | kv :: d => max_key kv d
  end.

(** The order [reverse=True] sorts by: a rule goes before another of
    smaller or equal importance. *)
Definition desc (a b : SemanticRule) : Prop := (importance2 b <= importance2 a)%N.

(** The rules of importance [k], in order. *)
Definition of_importance (k : N) (l : list SemanticRule) : list SemanticRule :=
  filter (fun r => importance2 r = k) l.

(** The sum of the weights of a part of the table. *)
Definition weight_sum (kws : list (pystr * N)) : N := foldr (fun kw n => (kw.2 + n)%N) 0%N kws.

(** The entries of the table whose keyword occurs in the line. *)
Definition present (line_lower : pystr) : list (pystr * N) :=
  List.filter (fun kw => str_in kw.1 line_lower) keyword_weights.

(** The number of indicator keywords of a project type in the text, and
    these numbers for every type, in the order of [indicators]. *)
Definition count_hits (content_lower : pystr) (kws : list pystr) : nat :=
  length (List.filter (fun kw => str_in kw content_lower) kws).

Definition type_counts (content_lower : pystr) : list (pystr * nat) :=
  map (fun ind => (ind.1, count_hits content_lower ind.2)) indicators.

Definition positive (d : pydict nat) : pydict nat := List.filter (fun p => (0 <? p.2)%nat) d.

(** A placeholder rule, the default of [List.hd]. *)
Definition no_rule : SemanticRule :=
  {| text := []; rule_type := general; importance2 := 0; keywords := [];
     line_number := 0; context := [] |}.

(** ** The stable sort *)

Lemma insert_by_importance_perm r l : insert_by_importance r l ≡ₚ r :: l.
Proof.
  induction l as [|r' l IH]; simpl; [done|].
  case_match; [done|]. rewrite IH. apply perm_swap.
Qed.

Lemma insert_by_importance_sorted r l :
  Sorted desc l -> Sorted desc (insert_by_importance r l).
Proof.
  unfold desc. induction 1 as [|r' l Hl IH Hhd]; simpl; [auto|].
  destruct (N.leb_spec (importance2 r') (importance2 r)).
  - constructor; [by constructor|]. by constructor.
  - constructor; [exact IH|]. destruct l as [|r'' l]; simpl.
    + constructor. lia.
    + inversion Hhd; subst. case_match; constructor; [lia|done].
Qed.

Lemma sort_by_importance_perm l : sort_by_importance l ≡ₚ l.
Proof. induction l as [|r l IH]; simpl; [done|]. by rewrite insert_by_importance_perm, IH. Qed.

Lemma of_importance_insert k r l :
  of_importance k (insert_by_importance r l) = of_importance k (r :: l).
Proof.
  unfold of_importance. induction l as [|r' l IH]; simpl; [done|].
  destruct (N.leb_spec (importance2 r') (importance2 r)); [done|].
  rewrite !filter_cons, IH, filter_cons.
  repeat case_decide; subst; try done; lia.
Qed.

Lemma sort_by_importance_sorted l : Sorted desc (sort_by_importance l).
Proof. induction l; simpl; auto using insert_by_importance_sorted. Qed.

Lemma of_importance_sort k l : of_importance k (sort_by_importance l) = of_importance k l.
Proof.
  induction l as [|r l IH]; simpl; [done|].
  rewrite of_importance_insert. unfold of_importance in *. rewrite !filter_cons, IH. done.
Qed.

Lemma sorted_head_max b l x : Sorted desc (b :: l) -> x ∈ b :: l -> desc b x.
Proof.
  intros Hs Hx. apply Sorted_StronglySorted in Hs; [|intros ???; unfold desc; lia].
  apply StronglySorted_inv in Hs as [_ Hall].
  apply elem_of_cons in Hx as [->|Hx]; [unfold desc; lia|].
  rewrite Forall_forall in Hall. apply Hall, list_elem_of_In, Hx.
Qed.

Lemma of_importance_nil_inv l : (forall k, of_importance k l = []) -> l = [].
Proof.
  destruct l as [|r l]; [done|]. intros H. specialize (H (importance2 r)).
  unfold of_importance in H. rewrite filter_cons in H. by case_decide.
Qed.

(** Two lists sorted in decreasing importance that have the same rules of
    each importance, in the same order, are equal. *)
Lemma sorted_stable_unique l1 l2 :
  Sorted desc l1 -> Sorted desc l2 ->
  (forall k, of_importance k l1 = of_importance k l2) -> l1 = l2.
Proof.
  revert l2. induction l1 as [|a t1 IH]; intros l2 Hs1 Hs2 Heq.
  { symmetry. apply of_importance_nil_inv. intros k. by rewrite <- Heq. }
  destruct l2 as [|b t2].
  { apply of_importance_nil_inv. intros k. apply Heq. }
  assert (Hmem : forall x l l', (forall k, of_importance k l = of_importance k l') ->
            x ∈ l -> x ∈ l').
  { intros x l l' H Hx. specialize (H (importance2 x)). unfold of_importance in H.
    assert (x ∈ filter (fun r => importance2 r = importance2 x) l') as Hf.
    { rewrite <- H. by apply list_elem_of_filter. }
    by apply list_elem_of_filter in Hf as [_ ?]. }
  assert (Hab : importance2 a = importance2 b).
  { pose proof (sorted_head_max _ _ a Hs2 (Hmem _ _ _ Heq ltac:(by left))).
    pose proof (sorted_head_max _ _ b Hs1 (Hmem _ _ _ (fun k => eq_sym (Heq k)) ltac:(by left))).
    unfold desc in *. lia. }
  pose proof (Heq (importance2 a)) as Ha. unfold of_importance in Ha.
  rewrite !filter_cons in Ha. rewrite !decide_True in Ha by done.
  injection Ha as <- Ht. f_equal.
  apply IH; [by apply Sorted_inv in Hs1 as []|by apply Sorted_inv in Hs2 as []|].
  intros k. specialize (Heq k). unfold of_importance in *. rewrite !filter_cons in Heq.
  case_decide; [by subst; injection Heq|done].
Qed.

(** ** Scoring *)

Lemma score_fold l kws n ks :
  fold_left (score_step l) kws (n, ks) =
  ((n + weight_sum (List.filter (fun kw => str_in kw.1 l) kws))%N,
   ks ++ map fst (List.filter (fun kw => str_in kw.1 l) kws)).
Proof.
  revert n ks. induction kws as [|kw kws IH]; intros n ks; simpl.
  - by rewrite N.add_0_r, app_nil_r.
  - unfold score_step at 2. destruct (str_in kw.1 l); simpl; rewrite IH; [|done].
    by rewrite N.add_assoc, <- app_assoc.
Qed.

Lemma weight_sum_filter (f : pystr * N -> bool) kws :
  (weight_sum (List.filter f kws) <= weight_sum kws)%N.
Proof. induction kws as [|kw kws IH]; simpl; [lia|]. destruct (f kw); simpl; lia. Qed.

Lemma collect_elem lines i rest r :
  r ∈ collect lines i rest <->
  exists j line, rest !! j = Some line /\ rule_at lines (i + j) line = Some r.
Proof.
  revert i. induction rest as [|line rest IH]; intros i; simpl.
  - split; [by intros ?%elem_of_nil|]. by intros (j & ? & ? & _).
  - assert (Hrest : r ∈ collect lines (S i) rest <->
              exists j line', (line :: rest) !! j = Some line' /\ j <> 0%nat /\
                              rule_at lines (i + j) line' = Some r).
    { rewrite IH. split.
      - intros (j & l' & Hj & Hr). exists (S j), l'.
        by replace (i + S j)%nat with (S i + j)%nat by lia.
      - intros ([|j] & l' & Hj & Hne & Hr); [done|]. exists j, l'.
        by replace (S i + j)%nat with (i + S j)%nat by lia. }
    assert (Hhead : forall r', rule_at lines i line = Some r' ->
              (r = r' \/ r ∈ collect lines (S i) rest) <->
              exists j line', (line :: rest) !! j = Some line' /\
                              rule_at lines (i + j) line' = Some r).
    { intros r' Hr'. rewrite Hrest. split.
      - intros [->|(j & l' & ? & _ & ?)]; [exists 0%nat, line; by rewrite Nat.add_0_r|].
        by exists j, l'.
      - intros ([|j] & l' & Hj & Hr); [left; simpl in Hj; simplify_eq;
          rewrite Nat.add_0_r in Hr; congruence|].
        right. by exists (S j), l'. }
    destruct (rule_at lines i line) as [r'|] eqn:Hr.
    + rewrite elem_of_cons. by apply Hhead.
    + rewrite Hrest. split; [intros (j & l' & ? & _ & ?); by exists j, l'|].
      intros ([|j] & l' & Hj & Hr'); [|by exists (S j), l'].
      simpl in Hj; simplify_eq. rewrite Nat.add_0_r in Hr'. congruence.
Qed.

(** C14. [rules.sort(key=importance, reverse=True)] as modelled by
    [sort_by_importance] is the stable descending sort, and the only one: a
    list is the sorted list exactly when it is ordered by decreasing
    importance and holds the rules of each importance in their original
    order. *)
Theorem sort_by_importance_spec (l l' : list SemanticRule) :
  l' = sort_by_importance l <->
  Sorted desc l' /\ forall k, of_importance k l' = of_importance k l.
Proof.
  split.
  - intros ->. split; [apply sort_by_importance_sorted|intros k; apply of_importance_sort].
  - intros [Hs Hk]. apply sorted_stable_unique; [done|apply sort_by_importance_sorted|].
    intros k. by rewrite Hk, of_importance_sort.
Qed.

(** C15. The rules [extract_semantic_rules] returns are exactly those of
    the lines with a positive score: for line [i] (from 0), the stripped
    line, its type, its importance and keywords, the line number [i + 1]
    and the lines [i - 2] to [i + 2] as context. *)
Theorem extract_semantic_rules_elem content r :
  let lines := str_split NL content in
  r ∈ extract_semantic_rules content <->
  exists i line, lines !! i = Some line /\ (0 < (score (str_lower line)).1)%N /\
    r = {| text := str_strip line; rule_type := classify (str_lower line);
           importance2 := (score (str_lower line)).1;
           keywords := (score (str_lower line)).2;
           line_number := S i; context := context_of lines i |}.
Proof.
  intros lines. unfold extract_semantic_rules.
  rewrite sort_by_importance_perm, collect_elem.
  setoid_rewrite Nat.add_0_l. unfold rule_at.
  split; intros (i & line & Hi & Hr); exists i, line; split; [done| |done|];
    destruct (score (str_lower line)) as [n ks]; simpl in *;
    [destruct (N.ltb_spec 0 n); [|done]; by simplify_eq|].
  destruct Hr as [Hn ->]. apply N.ltb_lt in Hn. by rewrite Hn.
Qed.

(** C16. [score] is what the weight table says: the importance is the sum
    of the weights of the table keywords that occur in the line, and the
    matched keywords are those keywords in the table's order. *)
Theorem score_spec line_lower :
  score line_lower =
  (weight_sum (present line_lower), map fst (present line_lower)).
Proof. unfold score, present. by rewrite score_fold. Qed.

(** C17. Every extracted rule has an importance between 0.5 and 19.0 (1 and
    38 half units) and a line number between 1 and the number of lines:
    the float sums of the code are sums of at most nine multiples of 0.5
    below 2^53, hence exact. *)
Theorem extracted_rule_bounds content r :
  r ∈ extract_semantic_rules content ->
  (1 <= importance2 r <= 38)%N /\
  (1 <= line_number r <= length (str_split NL content))%nat.
Proof.
  intros Hr. apply extract_semantic_rules_elem in Hr as (i & line & Hi & Hpos & ->). simpl.
  pose proof (weight_sum_filter (fun kw => str_in kw.1 (str_lower line)) keyword_weights).
  rewrite score_spec in *. unfold present in *. simpl in *.
  apply lookup_lt_Some in Hi. split; lia.
Qed.

(** C18. A line whose only table keyword is "must" scores 3.0 (6 half
    units) with keywords [["must"]], and is a requirement unless it also
    contains "don't" or "avoid", which are not table keywords and make it a
    prohibition. *)
Theorem must_only_rule line :
  let l := str_lower line in
  str_in (py "must") l = true ->
  Forall (fun kw => str_in kw.1 l = false) (tail keyword_weights) ->
  score l = (6%N, [py "must"]) /\
  classify l = if str_in (py "don't") l || str_in (py "avoid") l then prohibition
               else requirement.
Proof.
  intros l Hmust Hrest.
  assert (Hnever : str_in (py "never") l = false).
  { rewrite Forall_forall in Hrest. apply (Hrest (py "never", 6%N)).
    unfold keyword_weights. cbn [tail]. by left. }
  split.
  - rewrite score_spec. unfold present.
    change keyword_weights with ((py "must", 6%N) :: tail keyword_weights).
    cbn [List.filter fst]. rewrite Hmust.
    rewrite filter_nil_forall by exact Hrest. done.
  - unfold classify. cbn [existsb]. rewrite Hnever, Hmust.
    by destruct (str_in (py "don't") l), (str_in (py "avoid") l).
Qed.

(** ** The project type *)

Lemma dict_incr_app t d n :
  t ∉ d.*1 -> dict_incr t (d ++ positive [(t, n)]) = d ++ positive [(t, S n)].
Proof.
  induction d as [|[k v] d IH]; intros Ht.
  - destruct n; simpl; [done|]. by rewrite bool_decide_true.
  - rewrite fmap_cons, not_elem_of_cons in Ht. destruct Ht as [Hk Ht].
    cbn [app dict_incr]. rewrite bool_decide_false by done. by rewrite IH.
Qed.

Lemma count_fold c t kws d n :
  t ∉ d.*1 ->
  fold_left (count_step c t) kws (d ++ positive [(t, n)]) =
  d ++ positive [(t, (n + count_hits c kws)%nat)].
Proof.
  intros Ht. revert n. induction kws as [|kw kws IH]; intros n; cbn [fold_left].
  - by rewrite Nat.add_0_r.
  - unfold count_step at 2, count_hits. cbn [List.filter].
    fold (count_hits c kws). destruct (str_in kw c); cbn [length].
    + rewrite dict_incr_app, IH by done. by rewrite Nat.add_succ_r.
    + by rewrite IH.
Qed.

Lemma type_fold c inds d :
  NoDup (inds.*1 ++ d.*1) ->
  fold_left (type_step c) inds d =
  d ++ positive (map (fun ind => (ind.1, count_hits c ind.2)) inds).
Proof.
  revert d. induction inds as [|ind inds IH]; intros d Hnd; simpl.
  - by rewrite app_nil_r.
  - rewrite fmap_cons in Hnd. cbn [app] in Hnd. apply list.NoDup_cons in Hnd as [Hnot Hnd].
    unfold type_step at 2.
    pose proof (count_fold c ind.1 ind.2 d 0) as Hc. rewrite app_nil_r in Hc.
    rewrite Hc by (intros ?; apply Hnot; apply elem_of_app; by right).
    simpl. rewrite IH.
    + unfold positive. simpl. rewrite <- app_assoc. by destruct (count_hits c ind.2).
    + rewrite fmap_app. unfold positive. cbn [List.filter].
      destruct (0 <? count_hits c ind.2)%nat; simpl.
      * rewrite app_assoc, (Permutation_app_comm _ [ind.1]).
        by apply list.NoDup_cons.
      * by rewrite app_nil_r.
Qed.

(** [max_key] returns the first entry of maximal value. *)
Lemma max_key_first pre best mid d :
  Forall (fun p => p.2 < best.2)%nat pre -> Forall (fun p => p.2 <= best.2)%nat mid ->
  exists pre' n post,
    pre ++ best :: mid ++ d = pre' ++ (max_key best d, n) :: post /\
    Forall (fun p => p.2 < n)%nat pre' /\ Forall (fun p => p.2 <= n)%nat post.
Proof.
  revert pre best mid. induction d as [|kv d IH]; intros pre [t v] mid Hpre Hmid; simpl.
  - exists pre, v, mid. by rewrite app_nil_r.
  - destruct (Nat.ltb_spec v kv.2).
    + destruct (IH (pre ++ (t, v) :: mid) kv []) as (pre' & n & post & Heq & ? & ?).
      * apply Forall_app. split; [eapply list.Forall_impl; [done|simpl; lia]|].
        constructor; [simpl; lia|]. eapply list.Forall_impl; [done|simpl; lia].
      * constructor.
      * exists pre', n, post. split; [|done]. rewrite <- Heq. by rewrite <- app_assoc.
    + destruct (IH pre (t, v) (mid ++ [kv])) as (pre' & n & post & Heq & ? & ?).
      * done.
      * apply Forall_app. split; [done|]. constructor; [simpl; lia|constructor].
      * exists pre', n, post. split; [|done]. rewrite <- Heq. by rewrite <- app_assoc.
Qed.

(** C19. [infer_project_type] answers "general" when no indicator keyword
    occurs in the lower-cased text; otherwise it answers the project type
    with the most indicator keywords present, the first one in the order
    of [indicators] on a tie. The file structure is not used. *)
Theorem infer_project_type_spec content file_structure :
  let counts := type_counts (str_lower content) in
  (Forall (fun p => p.2 = 0%nat) counts /\
   infer_project_type content file_structure = py "general") \/
  exists pre n post,
    counts = pre ++ (infer_project_type content file_structure, n) :: post /\
    (0 < n)%nat /\ Forall (fun p => p.2 < n)%nat pre /\ Forall (fun p => p.2 <= n)%nat post.
Proof.
  intros counts. unfold infer_project_type.
  rewrite (type_fold _ indicators []) by decide_goal. fold (type_counts (str_lower content)).
  fold counts. cbn [app].
  destruct (positive counts) as [|kv d] eqn:Hpos.
  - left. split; [|done]. apply (Forall_filter_lift (fun p => (0 <? p.2)%nat)); [|fold (positive counts); by rewrite Hpos].
    intros p Hp%Nat.ltb_ge. simpl. lia.
  - right.
    destruct (max_key_first [] kv [] d) as (pre' & n & post' & Heq & Hpre & Hpost);
      [constructor..|].
    simpl in Heq. rewrite Heq in Hpos.
    destruct (filter_split _ _ _ _ _ Hpos) as (pre & post & Hc & Hfpre & Hfpost).
    assert (Hn : (0 < n)%nat).
    { assert ((max_key kv d, n) ∈ positive counts) as Hin
        by (rewrite Hpos; apply elem_of_app; right; by left).
      apply list_elem_of_In, filter_In in Hin as [_ Hin]. by apply Nat.ltb_lt in Hin. }
    exists pre, n, post. split; [done|]. split; [done|]. split.
    + apply (Forall_filter_lift (fun p => (0 <? p.2)%nat)); [|by rewrite Hfpre].
      intros p Hp%Nat.ltb_ge. lia.
    + apply (Forall_filter_lift (fun p => (0 <? p.2)%nat)); [|by rewrite Hfpost].
      intros p Hp%Nat.ltb_ge. lia.
Qed.

(** ** Witnesses *)

Lemma extracted_rule_bounds_witness :
  let content := py "# Rules
Never push to main
You should test" in
  let r := List.hd no_rule (extract_semantic_rules content) in
  r ∈ extract_semantic_rules content /\
  (1 <= importance2 r <= 38)%N /\ (1 <= line_number r <= length (str_split NL content))%nat.
Proof.
  intros content r.
  assert (Hr : r ∈ extract_semantic_rules content) by (vm_compute; left).
  split; [exact Hr|exact (extracted_rule_bounds content r Hr)].
Defined.

Lemma must_only_rule_witness :
  let line := py "You MUST avoid global state" in
  score (str_lower line) = (6%N, [py "must"]) /\ classify (str_lower line) = prohibition.
Proof.
  intros line.
  destruct (must_only_rule line) as [Hs Hc]; [vm_compute; reflexivity|vm_compute; repeat constructor|].
  split; [exact Hs|]. rewrite Hc. vm_compute. reflexivity.
Defined.

(** "api" (web) and "command" (cli) tie at one hit each; web comes first. *)
Example infer_project_type_tie :
  infer_project_type (py "An API behind a command") [] = py "web".
Proof. vm_compute. reflexivity. Qed.

End AdvancedContextParser.
