(* ===== verification/Task.v ===== *)
(** * [TaskInference] and [AlignmentEngine] (src/content/scripts/sync-advanced.py)

    [get_current_task_context] builds a [TaskContext] with default fields
    and mutates it inside one [try] block: three [git] queries, then the
    task type from the branch name and the scope from the number of
    changed files. An exception anywhere in the block ends it, and
    [except Exception: pass] returns the context as mutated so far. The
    block is written in a small state-and-exception monad [TryM] whose
    state is the context: a raised exception keeps the state reached.
    [AlignmentEngine.suggest_next_steps] reads the task context. *)

From S2P Require Import Prelude PyStr Parser Env.
From Stdlib Require Import ZArith.

(** [@dataclass TaskContext] *)
Record TaskContext := {
  recent_files : list pystr;
  recent_commits : list pystr;
  current_branch : pystr;
  uncommitted_changes : list pystr;
  task_type : pystr;
  estimated_scope : pystr
}.

(** ** The monad of the [try] block *)

(** A computation on the context that returns a value, or raises ([None])
    and leaves the context as it was when the exception was raised. *)
Definition TryM (A : Type) : Type := TaskContext -> TaskContext * option A.

Definition try_ret {A} (a : A) : TryM A := fun s => (s, Some a).

Definition try_bind {A B} (m : TryM A) (f : A -> TryM B) : TryM B :=
  fun s => match m s with
           | (s', Some a) => f a s'
           | (s', None) => (s', None)
           end.

Definition try_raise {A} : TryM A := fun s => (s, None).

Definition try_get : TryM TaskContext := fun s => (s, Some s).

Definition try_modify (f : TaskContext -> TaskContext) : TryM unit := fun s => (f s, Some tt).

Declare Scope try_scope.
Delimit Scope try_scope with try.
Notation "x <- m ;; k" := (try_bind m (fun x => k))
  (at level 100, m at next level, k at level 200, right associativity) : try_scope.
Notation "m ;; k" := (try_bind m (fun _ => k))
  (at level 100, k at level 200, right associativity) : try_scope.

(** [try: body except Exception: pass]: the state reached either way. *)
Definition try_except_pass (m : TryM unit) (s : TaskContext) : TaskContext := fst (m s).

(** [mapM] of the monad: a list comprehension whose element expression may
    raise. *)
Fixpoint try_map {A B} (f : A -> TryM B) (l : list A) : TryM (list B) :=
  match l with
  | [] => try_ret []
  | x :: l' => (y <- f x ;; ys <- try_map f l' ;; try_ret (y :: ys))%try
  end.

(** [m] keeps [P]: from a state satisfying [P], [m] ends, normally or by
    an exception, in a state satisfying [P]. *)
Definition keeps {A} (P : TaskContext -> Prop) (m : TryM A) : Prop :=
  forall s, P s -> P (fst (m s)).

Create HintDb keeps.

(** [AlignmentEngine]: it keeps the project context (unused by its
    methods), the task context and an issue list that no method fills. *)
Module AlignmentEngine.

Record AlignmentEngine (P : Type) := { project : P; task : TaskContext; issues : list pystr }.
Arguments project {P} _.
Arguments task {P} _.
Arguments issues {P} _.

Definition init_engine {P} (project_context : P) (task_context : TaskContext) : AlignmentEngine P :=
  {| project := project_context; task := task_context; issues := [] |}.

(** The two checks are placeholders returning [[]]. *)
Definition check_task_project_fit {P} (e : AlignmentEngine P) : list pystr := [].
Definition check_scope_alignment {P} (e : AlignmentEngine P) : list pystr := [].

Definition suggest_next_steps {P} (e : AlignmentEngine P) : list pystr :=
  let s1 := if bool_decide (current_branch (task e) = py "main")
            then [py "Create a feature branch for your changes"] else [] in
  let s2 := if negb (bool_decide (uncommitted_changes (task e) = []))
               && (10 <? length (uncommitted_changes (task e)))%nat
            then [py "Consider breaking large changes into smaller commits"] else [] in
  let s3 := if bool_decide (recent_commits (task e) = [])
            then [py "Make your first commit to establish task context"] else [] in
  s1 ++ s2 ++ s3.

End AlignmentEngine.

Module TaskInference.
Local Open Scope try_scope.

(** The field assignments [context.<field> = ...]. *)
Definition set_current_branch (b : pystr) (c : TaskContext) : TaskContext :=
  {| recent_files := recent_files c; recent_commits := recent_commits c;
     current_branch := b; uncommitted_changes := uncommitted_changes c;
     task_type := task_type c; estimated_scope := estimated_scope c |}.

Definition set_recent_commits (l : list pystr) (c : TaskContext) : TaskContext :=
  {| recent_files := recent_files c; recent_commits := l;
     current_branch := current_branch c; uncommitted_changes := uncommitted_changes c;
     task_type := task_type c; estimated_scope := estimated_scope c |}.

Definition set_uncommitted_changes (l : list pystr) (c : TaskContext) : TaskContext :=
  {| recent_files := recent_files c; recent_commits := recent_commits c;
     current_branch := current_branch c; uncommitted_changes := l;
     task_type := task_type c; estimated_scope := estimated_scope c |}.

Definition set_recent_files (l : list pystr) (c : TaskContext) : TaskContext :=
  {| recent_files := l; recent_commits := recent_commits c;
     current_branch := current_branch c; uncommitted_changes := uncommitted_changes c;
     task_type := task_type c; estimated_scope := estimated_scope c |}.

Definition set_task_type (t : pystr) (c : TaskContext) : TaskContext :=
  {| recent_files := recent_files c; recent_commits := recent_commits c;
     current_branch := current_branch c; uncommitted_changes := uncommitted_changes c;
     task_type := t; estimated_scope := estimated_scope c |}.

Definition set_estimated_scope (t : pystr) (c : TaskContext) : TaskContext :=
  {| recent_files := recent_files c; recent_commits := recent_commits c;
     current_branch := current_branch c; uncommitted_changes := uncommitted_changes c;
     task_type := task_type c; estimated_scope := t |}.

(** [TaskContext(recent_files=[], ..., estimated_scope='unknown')] *)
Definition initial_context : TaskContext :=
  {| recent_files := []; recent_commits := []; current_branch := py "unknown";
     uncommitted_changes := []; task_type := py "unknown";
     estimated_scope := py "unknown" |}.

Definition branch_cmd : list pystr := [py "git"; py "branch"; py "--show-current"].
Definition log_cmd : list pystr := [py "git"; py "log"; py "--oneline"; py "-5"].
Definition status_cmd : list pystr := [py "git"; py "status"; py "--porcelain"].

(** The non-empty lines, [[c for c in changes if c]]. *)
Definition nonempty (changes : list pystr) : list pystr :=
  List.filter (fun c => negb (bool_decide (c = []))) changes.

(** The task type from the lower-cased branch name. *)
Definition infer_task_type (branch_lower : pystr) : option pystr :=
  if str_in (py "feature") branch_lower then Some (py "feature")
  else if str_in (py "fix") branch_lower || str_in (py "bug") branch_lower then Some (py "bugfix")
  else if str_in (py "docs") branch_lower then Some (py "documentation")
  else if str_in (py "refactor") branch_lower then Some (py "refactor")
  else if str_in (py "test") branch_lower then Some (py "testing")
  else None.

(** The scope from the number of changes. *)
Definition estimate_scope (num_changes : nat) : pystr :=
  if (num_changes =? 0)%nat then py "none"
  else if (num_changes <=? 3)%nat then py "small"
  else if (num_changes <=? 10)%nat then py "medium"
  else py "large".

Section Body.
Context `{os : OS}.

(** [subprocess.run(cmd, capture_output=True, text=True)] in the block. *)
Definition subprocess_run (cmd : list pystr) : TryM SubprocessResult :=
  match os_run cmd with
  | inl _ => try_raise
  | inr r => try_ret r
  end.

(** [c.split()[-1]]: [IndexError] on a line of blanks. *)
Definition last_word (c : pystr) : TryM pystr :=
  match List.last (map Some (str_split_ws c)) None with
  | Some w => try_ret w
  | None => try_raise
  end.

Definition query_branch : TryM unit :=
  result <- subprocess_run branch_cmd ;;
  if (returncode result =? 0)%Z then try_modify (set_current_branch (str_strip (stdout result)))
  else try_ret tt.

Definition query_log : TryM unit :=
  result <- subprocess_run log_cmd ;;
  if (returncode result =? 0)%Z
  then try_modify (set_recent_commits (str_split NL (str_strip (stdout result))))
  else try_ret tt.

Definition query_status : TryM unit :=
  result <- subprocess_run status_cmd ;;
  if (returncode result =? 0)%Z then
    let changes := str_split NL (str_strip (stdout result)) in
    try_modify (set_uncommitted_changes (nonempty changes)) ;;
    files <- try_map last_word (nonempty changes) ;;
    try_modify (set_recent_files files)
  else try_ret tt.

Definition infer_type_step : TryM unit :=
  context <- try_get ;;
  match infer_task_type (str_lower (current_branch context)) with
  | Some t => try_modify (set_task_type t)
  | None => try_ret tt
  end.

Definition scope_step : TryM unit :=
  context <- try_get ;;
  try_modify (set_estimated_scope (estimate_scope (length (uncommitted_changes context)))).

Definition body : TryM unit :=
  query_branch ;; query_log ;; query_status ;; infer_type_step ;; scope_step.

Definition get_current_task_context : TaskContext :=
  try_except_pass body initial_context.

End Body.

(** A status line from which [c.split()[-1]] takes a word, and that word. *)
Definition has_word (c : pystr) : bool := negb (bool_decide (str_split_ws c = [])).
Definition last_of (c : pystr) : pystr := List.last (str_split_ws c) [].

(** [default] of an optional field update: the value the field keeps. *)
Definition or_unknown (t : option pystr) : pystr :=
  match t with Some t => t | None => py "unknown" end.

(** ** What the steps keep *)

Lemma keeps_ret {A} P (a : A) : keeps P (try_ret a).
Proof. by intros s. Qed.

Lemma keeps_raise {A} P : keeps P (@try_raise A).
Proof. by intros s. Qed.

Lemma keeps_get P : keeps P try_get.
Proof. by intros s. Qed.

Lemma keeps_modify P f : (forall s, P s -> P (f s)) -> keeps P (try_modify f).
Proof. intros Hf s. apply Hf. Qed.

Lemma keeps_bind {A B} P (m : TryM A) (f : A -> TryM B) :
  keeps P m -> (forall a, keeps P (f a)) -> keeps P (try_bind m f).
Proof.
  intros Hm Hf s Hs. specialize (Hm s Hs). unfold try_bind.
  destruct (m s) as [s' [a|]]; simpl in *; [by apply Hf|done].
Qed.

Lemma keeps_map {A B} P (f : A -> TryM B) l :
  (forall a, keeps P (f a)) -> keeps P (try_map f l).
Proof.
  intros Hf. induction l as [|a l IH]; simpl; [apply keeps_ret|].
  apply keeps_bind; [done|]. intros b. apply keeps_bind; [done|]. intros. apply keeps_ret.
Qed.

#[export] Hint Resolve keeps_ret keeps_raise keeps_get keeps_bind keeps_map : keeps.

Section Props.
Context `{os : OS}.

Lemma run_raises {B} cmd e (f : SubprocessResult -> TryM B) s :
  os_run cmd = inl e -> try_bind (subprocess_run cmd) f s = (s, None).
Proof. unfold subprocess_run. by intros ->. Qed.

Lemma run_returns {B} cmd r (f : SubprocessResult -> TryM B) s :
  os_run cmd = inr r -> try_bind (subprocess_run cmd) f s = f r s.
Proof. unfold subprocess_run. by intros ->. Qed.

Lemma try_bind_assoc {A B C} (m : TryM A) (f : A -> TryM B) (g : B -> TryM C) s :
  try_bind (try_bind m f) g s = try_bind m (fun a => try_bind (f a) g) s.
Proof. unfold try_bind. by destruct (m s) as [s' [a|]]. Qed.

Lemma last_word_spec c s :
  last_word c s = (s, if has_word c then Some (last_of c) else None).
Proof.
  unfold last_word, has_word, last_of.
  destruct (str_split_ws c) as [|w ws] eqn:E; [done|].
  rewrite bool_decide_false by done. simpl. f_equal. f_equal. clear E.
  revert w. induction ws as [|w' ws IH]; intros w; [done|].
  simpl. apply (IH w').
Qed.

(** The comprehension [[c.split()[-1] for c in changes if c]] leaves the
    context alone and raises exactly when a line has no word. *)
Lemma try_map_last_word l s :
  try_map last_word l s =
  (s, if forallb has_word l then Some (map last_of l) else None).
Proof.
  revert s. induction l as [|c l IH]; intros s; [done|].
  cbn [try_map forallb map]. unfold try_bind at 1. rewrite last_word_spec.
  destruct (has_word c); simpl; [|done].
  unfold try_bind. rewrite IH. by destruct (forallb has_word l).
Qed.

Lemma keeps_run P cmd : keeps P (subprocess_run cmd).
Proof. unfold subprocess_run. destruct (os_run cmd); auto with keeps. Qed.

#[local] Hint Resolve keeps_run : keeps.

(** Prove that a step keeps a property that its field updates keep. *)
Ltac keeps_steps :=
  repeat match goal with
  | |- keeps _ (try_bind _ _) => apply keeps_bind; [|intros ?]
  | |- keeps _ (try_modify _) => apply keeps_modify; intros ?s ?Hs; try exact Hs
  | |- keeps _ (try_map _ _) => apply keeps_map; intros ?
  | |- keeps _ (last_word _) => unfold last_word
  | |- keeps _ (if _ then _ else _) => case_match
  | |- keeps _ (match _ with _ => _ end) => case_match
  | |- keeps _ _ => solve [auto with keeps]
  end.

(** Only [query_log] sets the commits. *)
Lemma commits_kept cs :
  keeps (fun s => recent_commits s = cs) query_branch /\
  keeps (fun s => recent_commits s = cs) query_status /\
  keeps (fun s => recent_commits s = cs) infer_type_step /\
  keeps (fun s => recent_commits s = cs) scope_step.
Proof.
  unfold query_branch, query_status, infer_type_step, scope_step.
  repeat split; keeps_steps.
Qed.

Lemma log_failed_commits cs :
  (forall r, os_run log_cmd = inr r -> returncode r <> 0%Z) ->
  keeps (fun s => recent_commits s = cs) query_log.
Proof.
  intros Hlog s Hs. unfold query_log, subprocess_run, try_bind.
  destruct (os_run log_cmd) as [e|r] eqn:E; [done|]. cbn [try_ret].
  rewrite (proj2 (Z.eqb_neq _ _) (Hlog r eq_refl)). done.
Qed.

Lemma infer_unknown : infer_task_type (str_lower (py "unknown")) = None.
Proof. by vm_compute. Qed.

(** The block as straight-line code once the three answers are known. *)
Ltac run_body :=
  unfold get_current_task_context, try_except_pass, body, query_branch, query_log,
    query_status, infer_type_step, scope_step, subprocess_run;
  repeat match goal with H : os_run _ = _ |- _ => rewrite H; clear H end;
  unfold try_bind, try_ret, try_raise, try_get, try_modify; cbn [fst snd].

(** C20. If the first query, [git branch --show-current], raises (as when
    the output cannot be decoded), the two other queries are not made and
    every field keeps its default: the queries are not independent. *)
Theorem branch_raise_aborts e :
  os_run branch_cmd = inl e -> get_current_task_context = initial_context.
Proof. intros H. run_body. done. Qed.

(** C21. Outside a repository, where the three queries run but exit with a
    non-zero status, every field keeps its default except the scope, which
    is "none" (zero changes) and not "unknown". *)
Theorem task_context_not_repo rb rl rs :
  os_run branch_cmd = inr rb -> returncode rb <> 0%Z ->
  os_run log_cmd = inr rl -> returncode rl <> 0%Z ->
  os_run status_cmd = inr rs -> returncode rs <> 0%Z ->
  get_current_task_context = set_estimated_scope (py "none") initial_context.
Proof.
  intros Hb Hb0 Hl Hl0 Hs Hs0. run_body.
  rewrite (proj2 (Z.eqb_neq _ _) Hb0), (proj2 (Z.eqb_neq _ _) Hl0),
    (proj2 (Z.eqb_neq _ _) Hs0).
  cbn [fst snd current_branch initial_context]. rewrite infer_unknown. done.
Qed.

(** C22. When the three queries succeed and every changed line has a word,
    the context holds the stripped branch name, the lines of the log, the
    non-empty status lines, the last word of each as the file, the task
    type read off the branch name ("unknown" if none applies) and the scope
    of the number of changes. *)
Theorem task_context_success rb rl rs :
  os_run branch_cmd = inr rb -> returncode rb = 0%Z ->
  os_run log_cmd = inr rl -> returncode rl = 0%Z ->
  os_run status_cmd = inr rs -> returncode rs = 0%Z ->
  let changes := nonempty (str_split NL (str_strip (stdout rs))) in
  forallb has_word changes = true ->
  get_current_task_context =
  {| recent_files := map last_of changes;
     recent_commits := str_split NL (str_strip (stdout rl));
     current_branch := str_strip (stdout rb);
     uncommitted_changes := changes;
     task_type := or_unknown (infer_task_type (str_lower (str_strip (stdout rb))));
     estimated_scope := estimate_scope (length changes) |}.
Proof.
  intros Hb Hb0 Hl Hl0 Hs Hs0 changes Hw. run_body.
  rewrite Hb0, Hl0, Hs0. cbn [Z.eqb fst snd].
  rewrite try_map_last_word. fold changes. rewrite Hw. cbn [fst snd current_branch].
  by destruct (infer_task_type _).
Qed.

(** C23. A status line made of blanks makes [c.split()[-1]] raise
    [IndexError] after the changes are stored: the files stay empty and
    the task type and scope keep "unknown", while the changes are set. *)
Theorem task_context_blank_status_line rb rl rs :
  os_run branch_cmd = inr rb -> returncode rb = 0%Z ->
  os_run log_cmd = inr rl -> returncode rl = 0%Z ->
  os_run status_cmd = inr rs -> returncode rs = 0%Z ->
  let changes := nonempty (str_split NL (str_strip (stdout rs))) in
  forallb has_word changes = false ->
  get_current_task_context =
  {| recent_files := [];
     recent_commits := str_split NL (str_strip (stdout rl));
     current_branch := str_strip (stdout rb);
     uncommitted_changes := changes;
     task_type := py "unknown";
     estimated_scope := py "unknown" |}.
Proof.
  intros Hb Hb0 Hl Hl0 Hs Hs0 changes Hw. run_body.
  rewrite Hb0, Hl0, Hs0. cbn [Z.eqb fst snd].
  rewrite try_map_last_word. fold changes. by rewrite Hw.
Qed.

(** C24. When [git log] cannot run or fails (git missing, not a
    repository, a repository without commits), the context has no commits
    and the engine suggests making a first commit, whatever the other
    queries return. *)
Theorem log_failure_first_commit {P} (project_context : P) :
  (forall r, os_run log_cmd = inr r -> returncode r <> 0%Z) ->
  recent_commits get_current_task_context = [] /\
  py "Make your first commit to establish task context"
    ∈ AlignmentEngine.suggest_next_steps
        (AlignmentEngine.init_engine project_context get_current_task_context).
Proof.
  intros Hlog.
  assert (Hc : recent_commits get_current_task_context = []).
  { destruct (commits_kept []) as (Hb & Hs & Hi & Hsc).
    assert (Hbody : keeps (fun s => recent_commits s = []) body).
    { unfold body. apply keeps_bind; [done|]. intros _.
      apply keeps_bind; [by apply log_failed_commits|]. intros _.
      apply keeps_bind; [done|]. intros _. by apply keeps_bind. }
    by apply Hbody. }
  split; [done|]. unfold AlignmentEngine.suggest_next_steps, AlignmentEngine.init_engine.
  cbn [AlignmentEngine.task].
  rewrite Hc. rewrite (bool_decide_true (@eq (list pystr) [] [])) by done.
  apply elem_of_app. right. apply elem_of_app. right. by left.
Qed.

(** Only [query_branch] sets the branch. *)
Lemma branch_kept b :
  keeps (fun s => current_branch s = b)
    (query_log ;; query_status ;; infer_type_step ;; scope_step).
Proof.
  unfold query_log, query_status, infer_type_step, scope_step. keeps_steps.
Qed.

(** The branch the context ends with: the stripped answer of
    [git branch --show-current] when it exits with 0, else "unknown". *)
Lemma current_branch_result :
  current_branch get_current_task_context =
  match os_run branch_cmd with
  | inr r => if (returncode r =? 0)%Z then str_strip (stdout r) else py "unknown"
  | inl _ => py "unknown"
  end.
Proof.
  unfold get_current_task_context, try_except_pass, body.
  destruct (os_run branch_cmd) as [e|r] eqn:E.
  - unfold try_bind at 1, query_branch. by rewrite (run_raises _ e _ _ E).
  - unfold try_bind at 1, query_branch. rewrite (run_returns _ r _ _ E).
    destruct (returncode r =? 0)%Z; apply branch_kept; done.
Qed.

Lemma elem_of_suggestion_if (b : bool) (x y : pystr) l :
  x <> y -> x ∈ (if b then [y] else []) ++ l <-> x ∈ l.
Proof.
  intros Hxy. destruct b; cbn [app]; [|done].
  rewrite elem_of_cons. split; [intros [E|H]; [congruence|exact H]|by right].
Qed.

Lemma elem_of_suggestion_self (b : bool) (x : pystr) l :
  x ∉ l -> x ∈ (if b then [x] else []) ++ l <-> b = true.
Proof.
  intros Hl. destruct b; cbn [app]; rewrite ?elem_of_cons; [by split; [|left]|].
  split; [done|discriminate].
Qed.

(** C32. The engine suggests creating a feature branch exactly when
    [git branch --show-current] ran, exited with 0 and printed [main]
    (surrounding whitespace aside): a [master] branch, which the checker of
    sync.py treats as a main branch too, never triggers it. *)
Theorem feature_branch_suggestion {P} (project_context : P) :
  py "Create a feature branch for your changes"
    ∈ AlignmentEngine.suggest_next_steps
        (AlignmentEngine.init_engine project_context get_current_task_context)
  <-> exists r, os_run branch_cmd = inr r /\ returncode r = 0%Z
               /\ str_strip (stdout r) = py "main".
Proof.
  unfold AlignmentEngine.suggest_next_steps, AlignmentEngine.init_engine.
  cbn [AlignmentEngine.task]. rewrite elem_of_suggestion_self, bool_decide_eq_true.
  2:{ rewrite (elem_of_suggestion_if _ _ (py "Consider breaking large changes into smaller commits"))
        by (vm_compute; discriminate).
      case_match; [|apply not_elem_of_nil].
      rewrite elem_of_cons, elem_of_nil. intros [Heq|[]]. vm_compute in Heq. discriminate. }
  rewrite current_branch_result.
  destruct (os_run branch_cmd) as [e|r]; [|destruct (Z.eqb_spec (returncode r) 0)].
  - split; [vm_compute; discriminate|]. intros (r & Hr & _). discriminate.
  - split; [intros Hm; by exists r|]. intros (r' & Hr' & _ & Hs). by simplify_eq.
  - split; [vm_compute; discriminate|]. intros (r' & Hr' & Hc & _). by simplify_eq.
Qed.

End Props.
(** ** Witnesses *)

Lemma branch_raise_aborts_witness :
  let os := os_of_listing (Path [py "proj"]) [] []
              [(log_cmd, {| returncode := 0; stdout := py "1a2b3c4 Add parser" |});
               (status_cmd, {| returncode := 0; stdout := py " M README.md" |})] in
  os_run (OS := os) branch_cmd = inl (py "FileNotFoundError") /\
  get_current_task_context (os := os) = initial_context.
Proof.
  intros os. assert (H : os_run (OS := os) branch_cmd = inl (py "FileNotFoundError"))
    by (vm_compute; reflexivity).
  split; [exact H|exact (branch_raise_aborts (os := os) _ H)].
Defined.

Lemma task_context_not_repo_witness :
  let fatal := {| returncode := 128; stdout := [] |} in
  let os := os_of_listing (Path [py "tmp"]) [] []
              [(branch_cmd, fatal); (log_cmd, fatal); (status_cmd, fatal)] in
  estimated_scope (get_current_task_context (os := os)) = py "none".
Proof.
  intros fatal os.
  rewrite (task_context_not_repo (os := os) fatal fatal fatal);
    try (vm_compute; reflexivity); vm_compute; congruence.
Defined.

Lemma task_context_success_witness :
  let os := os_of_listing (Path [py "proj"]) [] []
              [(branch_cmd, {| returncode := 0; stdout := py "fix/parser-crash
" |});
               (log_cmd, {| returncode := 0; stdout := py "1a2b3c4 Add parser" |});
               (status_cmd, {| returncode := 0; stdout := py " M src/sync.py
?? notes.txt
" |})] in
  task_type (get_current_task_context (os := os)) = py "bugfix" /\
  recent_files (get_current_task_context (os := os)) = [py "src/sync.py"; py "notes.txt"] /\
  estimated_scope (get_current_task_context (os := os)) = py "small".
Proof.
  intros os.
  rewrite (task_context_success (os := os) {| returncode := 0; stdout := py "fix/parser-crash
" |} {| returncode := 0; stdout := py "1a2b3c4 Add parser" |}
    {| returncode := 0; stdout := py " M src/sync.py
?? notes.txt
" |}); try (vm_compute; reflexivity).
  vm_compute. repeat split.
Defined.

Lemma task_context_blank_status_line_witness :
  let ok t := {| returncode := 0; stdout := t |} in
  let os := os_of_listing (Path [py "proj"]) [] []
              [(branch_cmd, ok (py "feature/x")); (log_cmd, ok (py "1a2b3c4 Add parser"));
               (status_cmd, ok (py "M a.py
 
M b.py"))] in
  task_type (get_current_task_context (os := os)) = py "unknown" /\
  length (uncommitted_changes (get_current_task_context (os := os))) = 3%nat.
Proof.
  intros ok os.
  rewrite (task_context_blank_status_line (os := os) (ok (py "feature/x"))
    (ok (py "1a2b3c4 Add parser")) (ok (py "M a.py
 
M b.py"))); try (vm_compute; reflexivity).
  vm_compute. split; reflexivity.
Defined.

Lemma log_failure_first_commit_witness :
  let os := os_of_listing (Path [py "tmp"]) [] [] [] in
  py "Make your first commit to establish task context"
    ∈ AlignmentEngine.suggest_next_steps
        (AlignmentEngine.init_engine tt (get_current_task_context (os := os))).
Proof.
  intros os. apply (log_failure_first_commit (os := os) tt).
  intros r Hr. vm_compute in Hr. discriminate.
Defined.

Lemma feature_branch_suggestion_witness :
  let os := os_of_listing (Path [py "proj"]) [] []
              [(branch_cmd, {| returncode := 0; stdout := py "main
" |})] in
  py "Create a feature branch for your changes"
    ∈ AlignmentEngine.suggest_next_steps
        (AlignmentEngine.init_engine tt (get_current_task_context (os := os))).
Proof.
  intros os. apply (feature_branch_suggestion (os := os) tt).
  exists {| returncode := 0; stdout := py "main
" |}. split; [|split]; vm_compute; reflexivity.
Defined.

(** [git status --porcelain] quotes a path with a space; [c.split()[-1]]
    keeps its last word and the closing quote. *)
Example last_of_quoted_path :
  last_of (py "?? " ++ [34%N] ++ py "my notes.txt" ++ [34%N]) = py "notes.txt" ++ [34%N].
Proof. vm_compute. reflexivity. Qed.

End TaskInference.
