(* ===== verification/Cache.v ===== *)
(** * [SyncCache] and [ContextCache] (src/content/scripts/sync-advanced.py)

    The cache maps [str(file_path)] to a [ContextCache] entry holding the
    MD5 digest of the file's bytes when the entry was stored and the parsed
    context. [get] re-reads and re-hashes the file and returns the stored
    context only when the digests agree; [set] hashes the file as it is
    when [set] runs. The dict is a [gmap] keyed by the path's text; the
    parsed context has any type [A]; MD5 is a parameter [md5_hexdigest] of
    the section (its collision resistance is a hypothesis of the theorems
    that need it); [time.time()] is the clock reading [now] given to [set].
    Each operation reads the file through the [OS] class and raises
    ([inl]) when the read does. *)

From S2P Require Import Prelude PyStr Env.
From stdpp Require Import gmap.
From Stdlib Require Import ZArith.

Module SyncCache.

(** The state of the contract: for each key, the file's bytes when the
    entry was stored and the context. *)
Abbreviation abs_cache A := (gmap pystr (pystr * A)).

Section Cache.
Context {A : Type} (md5_hexdigest : pystr -> pystr).

(** [@dataclass ContextCache] *)
Record ContextCache := {
  file_path : path;
  file_hash : pystr;
  parsed_context : A;
  timestamp : Z
}.

(** [SyncCache]: [self.cache_dir] and [self.cache]. *)
Record SyncCache := {
  cache_dir : path;
  cache : gmap pystr ContextCache
}.

Context `{os : OS}.

(** [__init__]: [cache_dir or Path.home() / '.cache' / 'sync'], then
    [mkdir(parents=True, exist_ok=True)], which may raise. *)
Definition init_cache (cache_dir_arg : option path) : pystr + SyncCache :=
  let d := match cache_dir_arg with
           | Some d => d
           | None => path_div (path_div os_home [py ".cache"]) [py "sync"]
           end in
  match os_mkdir d with
  | inl e => inl e
  | inr _ => inr {| cache_dir := d; cache := ∅ |}
  end.

(** [hashlib.md5(file_path.read_bytes()).hexdigest()] *)
Definition get_file_hash (p : path) : pystr + pystr :=
  match os_read_bytes p with
  | inl e => inl e
  | inr b => inr (md5_hexdigest b)
  end.

Definition get (c : SyncCache) (p : path) : pystr + option A :=
  let cache_key := path_str p in
  match cache c !! cache_key with
  | Some cached =>
      match get_file_hash p with
      | inl e => inl e
      | inr current_hash =>
          if bool_decide (file_hash cached = current_hash)
          then inr (Some (parsed_context cached)) else inr None
      end
  | None => inr None
  end.

Definition set (c : SyncCache) (p : path) (context : A) (now : Z) : pystr + SyncCache :=
  let cache_key := path_str p in
  match get_file_hash p with
  | inl e => inl e
  | inr h =>
      inr {| cache_dir := cache_dir c;
             cache := <[cache_key := {| file_path := p; file_hash := h;
                                        parsed_context := context; timestamp := now |}]>
                        (cache c) |}
  end.

(** ** The contract: a cache validated by content

    A lookup in the abstract cache [abs_cache] answers the stored context
    exactly when the file's bytes are still those stored with it. *)
Definition abs_get (m : abs_cache A) (p : path) : pystr + option A :=
  match m !! path_str p with
  | Some (b, context) =>
      match os_read_bytes p with
      | inl e => inl e
      | inr b' => inr (if bool_decide (b = b') then Some context else None)
      end
  | None => inr None
  end.

Definition abs_set (m : abs_cache A) (p : path) (context : A) : pystr + abs_cache A :=
  match os_read_bytes p with
  | inl e => inl e
  | inr b => inr (<[path_str p := (b, context)]> m)
  end.

(** An entry stores the digest of the abstract bytes and the same context. *)
Definition entry_refines (e : ContextCache) (bc : pystr * A) : Prop :=
  file_hash e = md5_hexdigest bc.1 /\ parsed_context e = bc.2.

Definition refines (c : SyncCache) (m : abs_cache A) : Prop :=
  forall k, option_Forall2 entry_refines (cache c !! k) (m !! k).

End Cache.

Arguments ContextCache : clear implicits.
Arguments SyncCache : clear implicits.

Section Props.
Context {A : Type} (md5_hexdigest : pystr -> pystr) `{os : OS}.

Lemma refines_empty d : refines md5_hexdigest {| cache_dir := d; cache := ∅ |} (∅ : abs_cache A).
Proof. intros k. simpl. rewrite !lookup_empty. constructor. Qed.

Lemma refines_insert (c : SyncCache A) (m : abs_cache A) (k : pystr) (e : ContextCache A) (bc : pystr * A) :
  refines md5_hexdigest c m -> entry_refines md5_hexdigest e bc ->
  refines md5_hexdigest {| cache_dir := cache_dir c; cache := <[k := e]> (cache c) |}
    (<[k := bc]> m).
Proof.
  intros Hr He k'. cbn [cache]. destruct (decide (k = k')) as [->|Hne].
  - rewrite lookup_insert_eq, lookup_insert_eq. by constructor.
  - rewrite lookup_insert_ne, lookup_insert_ne by done. apply Hr.
Qed.

(** C25. [SyncCache] implements the content-validated cache: with a
    collision-free digest, from related states [get] answers what the
    abstract lookup answers, and [set] raises when the abstract store does
    and otherwise leads to related states. *)
Theorem cache_refinement (c : SyncCache A) (m : abs_cache A) p context now :
  (forall b1 b2, md5_hexdigest b1 = md5_hexdigest b2 -> b1 = b2) ->
  refines md5_hexdigest c m ->
  get md5_hexdigest c p = abs_get m p /\
  match set md5_hexdigest c p context now, abs_set m p context with
  | inr c', inr m' => refines md5_hexdigest c' m'
  | inl e, inl e' => e = e'
  | _, _ => False
  end.
Proof.
  intros Hinj Hr. split.
  - unfold get, abs_get, get_file_hash. specialize (Hr (path_str p)).
    inversion Hr as [e [b ctx] [Hh Hc] He Hm|He Hm]; [|done]. simpl in *.
    destruct (os_read_bytes p) as [err|b']; [done|]. f_equal.
    rewrite Hh, Hc. case_bool_decide as Hb; case_bool_decide as Hb'; subst; try done.
    by apply Hinj in Hb.
  - unfold set, abs_set, get_file_hash.
    destruct (os_read_bytes p) as [err|b]; [done|].
    by apply refines_insert.
Qed.

(** C26. Storing then looking up the same path, with the file unchanged
    between the two reads, gives back the stored context: [set] succeeds
    whenever the file can be read. *)
Theorem set_then_get (c : SyncCache A) p (context : A) now b :
  os_read_bytes p = inr b ->
  exists c', set md5_hexdigest c p context now = inr c' /\
             get md5_hexdigest c' p = inr (Some context).
Proof.
  intros Hb. unfold set, get, get_file_hash. rewrite Hb.
  eexists. split; [done|]. cbn [cache]. rewrite lookup_insert_eq. simpl.
  by rewrite bool_decide_true.
Qed.

End Props.

(** ** Witnesses *)

Lemma cache_refinement_witness :
  let os := os_of_listing (Path [py "proj"]) [(Path [py "proj"; py "README.md"], py "Rules:")] [] [] in
  let p := Path [py "proj"; py "README.md"] in
  get (os := os) id {| cache_dir := Path [py "c"]; cache := ∅ |} p
    = abs_get (os := os) (∅ : abs_cache nat) p.
Proof.
  intros os p.
  refine (proj1 (cache_refinement (os := os) id _ _ p 0%nat 0%Z _ _)).
  - intros b1 b2 H. exact H.
  - apply refines_empty.
Defined.

Lemma set_then_get_witness :
  let os := os_of_listing (Path [py "proj"]) [(Path [py "proj"; py "README.md"], py "Rules:")] [] [] in
  exists c', set (os := os) id {| cache_dir := Path [py "c"]; cache := ∅ |}
                 (Path [py "proj"; py "README.md"]) 7%nat 0%Z = inr c' /\
             get (os := os) id c' (Path [py "proj"; py "README.md"]) = inr (Some 7%nat).
Proof.
  intros os. apply (set_then_get (os := os) id _ _ 7%nat 0%Z (py "Rules:")).
  vm_compute. reflexivity.
Defined.

End SyncCache.
