(* ===== verification/Json.v ===== *)
(** * [json.dumps(data, indent=2, default=str)] and [json.loads]

    [AdvancedSyncCommand.output_json] prints
    [json.dumps(data, indent=2, default=str)]. With an indent, CPython 3.11
    encodes with the Python encoder of [json/encoder.py]
    ([_make_iterencode]): lists and tuples as arrays, dicts as objects in
    insertion order with the separators [","] and [": "], each level
    indented by two more spaces, strings by [encode_basestring_ascii]
    ([ensure_ascii]: everything outside the space to [~] is escaped, code
    points beyond the BMP as surrogate pairs), [int] by [int.__repr__]
    (which raises [ValueError] beyond 4300 digits), any other object by
    [str(o)] ([default=str]); a dict key that is not a string, number, bool
    or [None] raises [TypeError]. [json.loads] is the C scanner of
    [_json.c]: whitespace, literals, integers, strings with their escapes
    (a high surrogate escape followed by a low one is one character), arrays
    and objects; objects are read as their list of pairs (what
    [object_pairs_hook=list] returns).

    This is library code, modelled from CPython's [json] package and
    checked against it; only [output_json] (in Watch.v) has an entry in the
    map. Floats are not modelled: [float.__repr__] is not, and the decoder
    answers [None] on a fraction or an exponent. *)

From S2P Require Import Prelude PyStr Parser PyInt.
From Stdlib Require Import ZArith.
Local Open Scope N_scope.

Module PyJson.
Import PyInt.

(** ** The values [json.dumps] is given *)

(** A dict key: [str], [int], [bool], [None], or an object of another
    class, by the name of its class. *)
Inductive pykey :=
  | KStr (s : pystr)
  | KInt (z : Z)
  | KBool (b : bool)
  | KNone
  | KOther (type_name : pystr).

(** A value: lists and tuples are [PList]; an object [json] cannot
    serialize is [PObj] with its [str(o)], what [default=str] turns it
    into. Dicts are their items in insertion order. *)
Inductive pyval :=
  | PNone
  | PBool (b : bool)
  | PInt (z : Z)
  | PStr (s : pystr)
  | PList (vs : list pyval)
  | PDict (items : list (pykey * pyval))
  | PObj (str_o : pystr).

Inductive JsonError :=
  | TypeError (msg : pystr)
  | ValueError (msg : pystr).

Abbreviation result A := (JsonError + A)%type.

Definition res_bind {A B} (m : result A) (k : A -> result B) : result B :=
  match m with inl e => inl e | inr a => k a end.

Fixpoint map_result {A B} (f : A -> result B) (l : list A) : result (list B) :=
  match l with
  | [] => inr []
  | x :: l => res_bind (f x) (fun y => res_bind (map_result f l) (fun ys => inr (y :: ys)))
  end.

(** ** [encode_basestring_ascii] *)

(** ['{0:04x}'.format(n)] for [n < 0x10000]. *)
Definition hexdigit (d : N) : pychar := if d <? 10 then 48 + d else 87 + d.
Definition hex4 (n : N) : pystr :=
  map (fun k => hexdigit ((n / 16 ^ k) mod 16)) [3; 2; 1; 0].
Definition u_escape (n : N) : pystr := [92; 117] ++ hex4 n.

(** [ESCAPE_DCT]: the seven named escapes, then [\u00XX] for the other
    control characters. *)
Definition ESCAPE_DCT (c : pychar) : option pystr :=
  if c =? 92 then Some [92; 92]
  else if c =? 34 then Some [92; 34]
  else if c =? 8 then Some [92; 98]
  else if c =? 12 then Some [92; 102]
  else if c =? 10 then Some [92; 110]
  else if c =? 13 then Some [92; 114]
  else if c =? 9 then Some [92; 116]
  else if c <? 32 then Some (u_escape c)
  else None.

(** [ESCAPE_ASCII]: a backslash, a double quote or a character outside
    the space to the tilde, one character per match. *)
Definition escape_ascii_match (c : pychar) : bool :=
  (c =? 92) || (c =? 34) || negb ((32 <=? c) && (c <=? 126)).

(** The [replace] function of [py_encode_basestring_ascii]. *)
Definition replace (c : pychar) : pystr :=
  match ESCAPE_DCT c with
  | Some e => e
  | None =>
      if c <? 65536 then u_escape c
      else
        let n := c - 65536 in
        u_escape (N.lor 55296 (N.land (N.shiftr n 10) 1023))
        ++ u_escape (N.lor 56320 (N.land n 1023))
  end.

Definition encode_char (c : pychar) : pystr :=
  if escape_ascii_match c then replace c else [c].

Definition encode_basestring_ascii (s : pystr) : pystr :=
  [34] ++ flat_map encode_char s ++ [34].

(** ** [_make_iterencode] with [indent=2] *)

Definition int_limit_msg : pystr :=
  py "Exceeds the limit (4300 digits) for integer string conversion; use sys.set_int_max_str_digits() to increase the limit".

(** [int.__repr__]: at most [sys.get_int_max_str_digits()] digits. *)
Definition intstr (z : Z) : result pystr :=
  if (max_str_digits <? length (str_of_N (Z.to_N (Z.abs z))))%nat
  then inl (ValueError int_limit_msg) else inr (str_of_Z z).

(** The key conversion of [_iterencode_dict] ([skipkeys=False]). *)
Definition key_str (k : pykey) : result pystr :=
  match k with
  | KStr s => inr s
  | KBool true => inr (py "true")
  | KBool false => inr (py "false")
  | KNone => inr (py "null")
  | KInt z => intstr z
  | KOther t => inl (TypeError (py "keys must be str, int, float, bool or None, not " ++ t))
  end.

(** [_indent * _current_indent_level] with [_indent = ' ' * 2]. *)
Definition indent (lvl : nat) : pystr := repeat 32 (2 * lvl).

(** The chunks of a non-empty list or dict at level [lvl], joined:
    [buf = '[' + newline_indent], [separator = ',' + newline_indent], the
    closing newline and indent, the bracket. *)
Definition container (op cl : pychar) (lvl : nat) (items : list pystr) : pystr :=
  [op] ++ [NL] ++ indent (S lvl) ++ str_join ([44; NL] ++ indent (S lvl)) items
  ++ [NL] ++ indent lvl ++ [cl].

Fixpoint iterencode (lvl : nat) (o : pyval) {struct o} : result pystr :=
  match o with
  | PStr s => inr (encode_basestring_ascii s)
  | PNone => inr (py "null")
  | PBool true => inr (py "true")
  | PBool false => inr (py "false")
  | PInt z => intstr z
  | PList [] => inr (py "[]")
  | PList vs =>
      res_bind (map_result (iterencode (S lvl)) vs) (fun items =>
      inr (container 91 93 lvl items))
  | PDict [] => inr (py "{}")
  | PDict kvs =>
      res_bind (map_result (fun '(k, v) =>
        res_bind (key_str k) (fun ks =>
        res_bind (iterencode (S lvl) v) (fun vs =>
        inr (encode_basestring_ascii ks ++ py ": " ++ vs)))) kvs) (fun items =>
      inr (container 123 125 lvl items))
  (* [o = _default(o)], then [_iterencode] of the string [str(o)] *)
  | PObj s => inr (encode_basestring_ascii s)
  end.

(** [json.dumps(o, indent=2, default=str)]: [JSONEncoder.encode], whose
    shortcut for a [str] gives the same text as [_iterencode]. *)
Definition dumps (o : pyval) : result pystr := iterencode 0 o.

(** ** [json.loads] *)

(** What the decoder builds: an object is its list of pairs. *)
Inductive json :=
  | JNull
  | JBool (b : bool)
  | JInt (z : Z)
  | JStr (s : pystr)
  | JArr (l : list json)
  | JObj (l : list (pystr * json)).

(** [IS_WHITESPACE]: space, tab, newline, carriage return. *)
Definition is_ws (c : pychar) : bool := (c =? 32) || (c =? 9) || (c =? 10) || (c =? 13).
Definition skip_ws (s : pystr) : pystr := drop_while is_ws s.

Definition hexval (c : pychar) : option N :=
  if (48 <=? c) && (c <=? 57) then Some (c - 48)
  else if (97 <=? c) && (c <=? 102) then Some (c - 87)
  else if (65 <=? c) && (c <=? 70) then Some (c - 55)
  else None.

Definition hex4_value (a b c d : pychar) : option N :=
  match hexval a, hexval b, hexval c, hexval d with
  | Some x, Some y, Some z, Some w => Some (((x * 16 + y) * 16 + z) * 16 + w)
  | _, _, _, _ => None
  end.

(** The one-character escapes of [scanstring_unicode]. *)
Definition backslash (e : pychar) : option pychar :=
  if e =? 34 then Some 34 else if e =? 92 then Some 92 else if e =? 47 then Some 47
  else if e =? 98 then Some 8 else if e =? 102 then Some 12 else if e =? 110 then Some 10
  else if e =? 114 then Some 13 else if e =? 116 then Some 9 else None.

Definition is_high (u : N) : bool := (55296 <=? u) && (u <=? 56319).
Definition is_low (u : N) : bool := (56320 <=? u) && (u <=? 57343).

Definition cons_char (c : pychar) (r : option (pystr * pystr)) : option (pystr * pystr) :=
  match r with Some (x, rest) => Some (c :: x, rest) | None => None end.

(** [scanstring_unicode] with [strict=True], after the opening quote:
    the text of the string and what follows the closing quote. *)
Fixpoint scanstring (s : pystr) : option (pystr * pystr) :=
  match s with
  | [] => None
  | c :: r =>
      if c =? 34 then Some ([], r)
      else if c =? 92 then
        match r with
        | [] => None
        | e :: r =>
            if e =? 117 then
              match r with
              | a :: b :: c :: d :: r =>
                  match hex4_value a b c d with
                  | None => None
                  | Some u =>
                      if is_high u then
                        match r with
                        | b1 :: b2 :: a' :: b' :: c' :: d' :: r' =>
                            if (b1 =? 92) && (b2 =? 117) then
                              match hex4_value a' b' c' d' with
                              | None => None
                              | Some u2 =>
                                  if is_low u2
                                  then cons_char (65536 + N.lor (N.shiftl (u - 55296) 10) (u2 - 56320))
                                         (scanstring r')
                                  else cons_char u (scanstring r)
                              end
                            else cons_char u (scanstring r)
                        | _ => cons_char u (scanstring r)
                        end
                      else cons_char u (scanstring r)
                  end
              | _ => None
              end
            else match backslash e with Some c => cons_char c (scanstring r) | None => None end
        end
      else if c <? 32 then None
      else cons_char c (scanstring r)
  end.

Definition is_digit (c : pychar) : bool := (48 <=? c) && (c <=? 57).

(** A fraction or an exponent after the integer part makes a float. *)
Definition float_tail (r : pystr) : bool :=
  match r with
  | 46 :: c :: _ => is_digit c
  | e :: c :: r' =>
      ((e =? 101) || (e =? 69))
      && (is_digit c || (((c =? 43) || (c =? 45)) && match r' with d :: _ => is_digit d | [] => false end))
  | _ => false
  end.

(** [_match_number_unicode] on an integer (an optional minus, then [0]
    or a non-zero digit and more digits), then [PyLong_FromString] with its
    4300-digit limit; floats are [None]. *)
Definition number_sign (s : pystr) : bool * pystr :=
  match s with c :: r => if c =? 45 then (true, r) else (false, s) | [] => (false, s) end.

Definition int_part (s1 : pystr) : pystr * pystr :=
  match s1 with
  | c :: r => if c =? 48 then ([c], r)
              else if (49 <=? c) && (c <=? 57)
              then (c :: take_while is_digit r, drop_while is_digit r) else ([], s1)
  | [] => ([], [])
  end.

Definition match_number (s : pystr) : option (json * pystr) :=
  let '(neg, s1) := number_sign s in
  let '(ds, rest) := int_part s1 in
  match ds with
  | [] => None
  | _ =>
      if float_tail rest then None
      else if (max_str_digits <? length ds)%nat then None
      else
        let n := Z.of_N (digits_value (map (fun c => c - 48) ds)) in
        Some (JInt (if neg then Z.opp n else n), rest)
  end.

(** [scan_once_unicode], [_parse_array_unicode] and
    [_parse_object_unicode]; each call takes one unit of [fuel]. *)
Fixpoint scan_once (fuel : nat) (s : pystr) : option (json * pystr) :=
  match fuel with
  | O => None
  | S fuel =>
      match s with
      | [] => None
      | c :: r =>
          if c =? 34 then
            match scanstring r with Some (x, r') => Some (JStr x, r') | None => None end
          else if c =? 123 then
            match skip_ws r with
            | d :: r' => if d =? 125 then Some (JObj [], r') else parse_object fuel [] (d :: r')
            | [] => None
            end
          else if c =? 91 then
            match skip_ws r with
            | d :: r' => if d =? 93 then Some (JArr [], r') else parse_array fuel [] (d :: r')
            | [] => None
            end
          else if c =? 110 then
            match match_prefix (py "ull") r with Some r' => Some (JNull, r') | None => None end
          else if c =? 116 then
            match match_prefix (py "rue") r with Some r' => Some (JBool true, r') | None => None end
          else if c =? 102 then
            match match_prefix (py "alse") r with Some r' => Some (JBool false, r') | None => None end
          else match_number s
      end
  end
with parse_array (fuel : nat) (acc : list json) (s : pystr) : option (json * pystr) :=
  match fuel with
  | O => None
  | S fuel =>
      match scan_once fuel s with
      | None => None
      | Some (v, r) =>
          match skip_ws r with
          | d :: r' =>
              if d =? 93 then Some (JArr (acc ++ [v]), r')
              else if d =? 44 then parse_array fuel (acc ++ [v]) (skip_ws r')
              else None
          | [] => None
          end
      end
  end
with parse_object (fuel : nat) (acc : list (pystr * json)) (s : pystr)
    : option (json * pystr) :=
  match fuel with
  | O => None
  | S fuel =>
      match s with
      | q :: r =>
          if q =? 34 then
            match scanstring r with
            | None => None
            | Some (k, r) =>
                match skip_ws r with
                | c :: r =>
                    if c =? 58 then
                      match scan_once fuel (skip_ws r) with
                      | None => None
                      | Some (v, r) =>
                          match skip_ws r with
                          | d :: r' =>
                              if d =? 125 then Some (JObj (acc ++ [(k, v)]), r')
                              else if d =? 44 then parse_object fuel (acc ++ [(k, v)]) (skip_ws r')
                              else None
                          | [] => None
                          end
                      end
                    else None
                | [] => None
                end
            end
          else None
      | [] => None
      end
  end.

(** [json.loads(s)]: a leading byte-order mark is refused, whitespace is
    skipped around the value, and anything after it is [Extra data]. The
    fuel is the length of the text, one unit per character at least. *)
Definition loads (s : pystr) : option json :=
  if str_startswith [65279] s then None
  else
    match scan_once (length s) (skip_ws s) with
    | Some (v, r) => if bool_decide (skip_ws r = []) then Some v else None
    | None => None
    end.

(** ** What a round trip preserves *)

(** A code point of a string that survives [loads (dumps s)]: not a
    surrogate (a high surrogate followed by a low one would be read back
    as one character) and at most U+10FFFF. *)
Definition scalar (c : pychar) : bool := (c <? 55296) || ((57344 <=? c) && (c <=? 1114111)).

Fixpoint wf_val (v : pyval) : bool :=
  match v with
  | PStr s | PObj s => forallb scalar s
  | PList vs => forallb wf_val vs
  | PDict kvs =>
      forallb (fun '(k, v) =>
        match k with KStr s => forallb scalar s | _ => true end && wf_val v) kvs
  | _ => true
  end.

(** The text [_iterencode_dict] writes for a key. *)
Definition key_json (k : pykey) : pystr :=
  match k with
  | KStr s => s
  | KInt z => str_of_Z z
  | KBool true => py "true"
  | KBool false => py "false"
  | KNone => py "null"
  | KOther t => t
  end.

(** The JSON value a Python value stands for: [default=str] makes an
    object its string, keys become strings. *)
Fixpoint to_json (v : pyval) : json :=
  match v with
  | PNone => JNull
  | PBool b => JBool b
  | PInt z => JInt z
  | PStr s | PObj s => JStr s
  | PList vs => JArr (map to_json vs)
  | PDict kvs => JObj (map (fun '(k, v) => (key_json k, to_json v)) kvs)
  end.

(** The number of calls of the scanner reading a value back. *)
Fixpoint size (v : pyval) : nat :=
  match v with
  | PList vs => S (list_sum (map (fun v => S (size v)) vs))
  | PDict kvs => S (list_sum (map (fun '(_, v) => S (size v)) kvs))
  | _ => 1
  end.

(** Every key and integer can be written: no key of another class, no
    integer of more than 4300 digits. *)
Fixpoint encodable (v : pyval) : bool :=
  match v with
  | PInt z => (length (str_of_N (Z.to_N (Z.abs z))) <=? max_str_digits)%nat
  | PList vs => forallb encodable vs
  | PDict kvs =>
      forallb (fun '(k, v) =>
        match k with
        | KOther _ => false
        | KInt z => (length (str_of_N (Z.to_N (Z.abs z))) <=? max_str_digits)%nat
        | _ => true
        end && encodable v) kvs
  | _ => true
  end.

(** Induction on values with a hypothesis for each element of a list or
    dict. *)
Section pyval_ind'.
Variable P : pyval -> Prop.
Hypothesis HNone : P PNone.
Hypothesis HBool : forall b, P (PBool b).
Hypothesis HInt : forall z, P (PInt z).
Hypothesis HStr : forall s, P (PStr s).
Hypothesis HList : forall vs, Forall P vs -> P (PList vs).
Hypothesis HDict : forall kvs, Forall (fun kv => P kv.2) kvs -> P (PDict kvs).
Hypothesis HObj : forall s, P (PObj s).

Fixpoint pyval_ind' (v : pyval) : P v :=
  match v with
  | PNone => HNone
  | PBool b => HBool b
  | PInt z => HInt z
  | PStr s => HStr s
  | PList vs =>
      HList vs ((fix go (l : list pyval) : Forall P l :=
        match l with [] => Forall_nil _ | x :: l => Forall_cons _ _ _ (pyval_ind' x) (go l) end) vs)
  | PDict kvs =>
      HDict kvs ((fix go (l : list (pykey * pyval)) : Forall (fun kv => P kv.2) l :=
        match l with
        | [] => Forall_nil _
        | x :: l => Forall_cons _ _ _ (pyval_ind' x.2) (go l)
        end) kvs)
  | PObj s => HObj s
  end.
End pyval_ind'.

(** A check of [f] on every number below [k], by evaluation. *)
Definition all_below (f : N -> bool) (k : N) : bool :=
  N.peano_rect (fun _ => bool) true (fun m acc => f m && acc) k.

(** What may follow a value in the encoder's output. *)
Definition delim (r : pystr) : Prop := match r with [] => True | c :: _ => c = 44 \/ c = 10 end.

(** A character that opens a value as the encoder writes it. *)
Definition opener (c : pychar) : Prop :=
  c = 34 \/ c = 91 \/ c = 123 \/ c = 110 \/ c = 116 \/ c = 102 \/ c = 45 \/ 48 <= c <= 57.

(** What the round trip of one value says, the hypothesis for the
    elements of a list or dict. *)
Definition scans_back (v : pyval) : Prop :=
  forall lvl t r fuel, wf_val v = true -> iterencode lvl v = inr t -> (size v <= fuel)%nat ->
    delim r -> scan_once fuel (t ++ r) = Some (to_json v, r).

Definition is_ok {A} (m : result A) : bool := match m with inr _ => true | inl _ => false end.

(** A character of the text [dumps] writes: a newline or printable ASCII. *)
Definition printable (c : pychar) : Prop := c = 10 \/ 32 <= c <= 126.

(** ** Lemmas on the escapes and the scanner *)

Lemma all_below_spec (f : N -> bool) (k : N) :
  all_below f k = true -> forall n, n < k -> f n = true.
Proof.
  induction k as [|k IH] using N.peano_ind; intros H n Hn; [lia|].
  unfold all_below in H. rewrite N.peano_rect_succ in H. apply andb_prop in H as [Hk Hr].
  destruct (N.eq_dec n k) as [->|]; [done|]. apply IH; [done|lia].
Qed.

Lemma hexval_hexdigit (d : N) : d < 16 -> hexval (hexdigit d) = Some d.
Proof.
  intros Hd.
  pose proof (all_below_spec (fun d => match hexval (hexdigit d) with
                                       | Some x => x =? d | None => false end) 16
                ltac:(vm_compute; reflexivity) d Hd) as H.
  cbv beta in H. destruct (hexval (hexdigit d)); [|done]. by apply N.eqb_eq in H as ->.
Qed.

Lemma hex_step (x : N) : x / 16 * 16 + x mod 16 = x.
Proof. pose proof (N.div_mod x 16). lia. Qed.

Lemma hex4_value_hex4 (n : N) :
  n < 65536 -> exists a b c d, hex4 n = [a; b; c; d] /\ hex4_value a b c d = Some n.
Proof.
  intros Hn. eexists _, _, _, _. split; [reflexivity|]. cbn [N.pow].
  unfold hex4_value. change (16 ^ 3) with 4096. change (16 ^ 2) with 256. change (16 ^ 1) with 16. change (16 ^ 0) with 1. rewrite !hexval_hexdigit by (apply N.mod_lt; lia). f_equal.
  rewrite (N.mod_small (n / _)) by (apply N.Div0.div_lt_upper_bound; lia).
  replace (n / 4096) with (n / 16 / 16 / 16) by (rewrite !N.Div0.div_div; reflexivity).
  replace (n / 256) with (n / 16 / 16) by (rewrite !N.Div0.div_div; reflexivity).
  rewrite N.div_1_r, !hex_step. reflexivity.
Qed.

Lemma lor_low (a b : N) (k : N) : b < 2 ^ k -> N.lor (a * 2 ^ k) b = a * 2 ^ k + b.
Proof.
  intros Hb. assert (H0 : N.land (a * 2 ^ k) b = 0).
  { assert (Hb' : N.land b (N.ones k) = b) by (rewrite N.land_ones; by apply N.mod_small).
    rewrite <- Hb', (N.land_comm b), N.land_assoc, N.land_ones, N.Div0.mod_mul.
    apply N.land_0_l. }
  rewrite <- N.lxor_lor by done. symmetry. by apply N.add_nocarry_lxor.
Qed.

(** The two halves of the surrogate pair of an astral code point. *)
Lemma replace_astral (c : pychar) :
  65536 <= c <= 1114111 ->
  replace c = u_escape (55296 + (c - 65536) / 1024) ++ u_escape (56320 + (c - 65536) mod 1024).
Proof.
  intros Hc. unfold replace, ESCAPE_DCT. N_cases; try lia.
  cbv zeta. set (m := c - 65536). rewrite N.shiftr_div_pow2.
  change 1023 with (N.ones 10). rewrite !N.land_ones.
  change 55296 with (54 * 2 ^ 10). change 56320 with (55 * 2 ^ 10).
  rewrite (N.mod_small (m / 2 ^ 10)) by (apply N.Div0.div_lt_upper_bound; unfold m; lia).
  rewrite !lor_low by (try apply N.mod_lt; try apply N.Div0.div_lt_upper_bound; unfold m; lia).
  reflexivity.
Qed.

Lemma scan_u (n : N) (t : pystr) :
  n < 65536 -> is_high n = false -> scanstring (u_escape n ++ t) = cons_char n (scanstring t).
Proof.
  intros Hn Hh. destruct (hex4_value_hex4 n Hn) as (a & b & c & d & E & V).
  unfold u_escape. rewrite E. simpl. by rewrite V, Hh.
Qed.

Lemma scan_pair (c : pychar) (t : pystr) :
  65536 <= c <= 1114111 -> scanstring (replace c ++ t) = cons_char c (scanstring t).
Proof.
  intros Hc. rewrite replace_astral by done.
  pose proof (N.div_mod (c - 65536) 1024 ltac:(discriminate)) as Hdm.
  pose proof (N.mod_lt (c - 65536) 1024 ltac:(discriminate)) as Hr.
  assert (Hq : (c - 65536) / 1024 < 1024) by (apply N.Div0.div_lt_upper_bound; lia).
  revert Hdm Hr Hq. generalize ((c - 65536) / 1024) ((c - 65536) mod 1024). intros q r Hdm Hr Hq.
  destruct (hex4_value_hex4 (55296 + q) ltac:(lia)) as (a & b & c1 & d & E & V).
  destruct (hex4_value_hex4 (56320 + r) ltac:(lia)) as (a' & b' & c' & d' & E' & V').
  assert (Hh : is_high (55296 + q) = true).
  { unfold is_high. apply andb_true_intro. split; apply N.leb_le; lia. }
  assert (Hl : is_low (56320 + r) = true).
  { unfold is_low. apply andb_true_intro. split; apply N.leb_le; lia. }
  unfold u_escape. rewrite E, E'. simpl. rewrite V, Hh, V', Hl.
  replace (55296 + q - 55296) with q by lia. replace (56320 + r - 56320) with r by lia.
  rewrite N.shiftl_mul_pow2, lor_low by (change (2 ^ 10) with 1024; lia).
  f_equal. change (2 ^ 10) with 1024. lia.
Qed.

Lemma scan_raw (c : pychar) (t : pystr) :
  c <> 34 -> c <> 92 -> 32 <= c -> scanstring (c :: t) = cons_char c (scanstring t).
Proof.
  intros H1 H2 H3. cbn [scanstring].
  rewrite (proj2 (N.eqb_neq c 34)), (proj2 (N.eqb_neq c 92)) by done.
  destruct (N.ltb_spec c 32); [lia|done].
Qed.

Lemma scalar_spec (c : pychar) : scalar c = true <-> c < 55296 \/ 57344 <= c <= 1114111.
Proof. unfold scalar. N_cases; cbn; intuition (try lia; try discriminate). Qed.

Lemma scalar_not_high (c : pychar) : scalar c = true -> is_high c = false.
Proof. rewrite scalar_spec. unfold is_high. N_cases; cbn; intuition lia. Qed.

Lemma encode_char_scan (c : pychar) (t : pystr) :
  scalar c = true -> scanstring (encode_char c ++ t) = cons_char c (scanstring t).
Proof.
  intros Hs. pose proof (scalar_not_high c Hs) as Hh. apply scalar_spec in Hs.
  unfold encode_char. destruct (N.ltb_spec c 65536) as [Hb|Ha].
  - unfold escape_ascii_match, replace, ESCAPE_DCT.
    N_cases; cbn [orb andb negb]; try (subst; reflexivity); try lia;
      first [by apply scan_u | by apply scan_raw].
  - replace (escape_ascii_match c) with true
      by (unfold escape_ascii_match; N_cases; cbn; lia || done).
    apply scan_pair. lia.
Qed.

Lemma scan_encoded (s t : pystr) :
  forallb scalar s = true -> scanstring (flat_map encode_char s ++ 34 :: t) = Some (s, t).
Proof.
  induction s as [|c s IH]; intros Hs; [reflexivity|].
  apply andb_prop in Hs as [Hc Hs]. cbn [flat_map]. rewrite <- app_assoc.
  by rewrite encode_char_scan, IH.
Qed.

Lemma dec_digits_zero fuel : dec_digits fuel 0 = [0].
Proof. by destruct fuel. Qed.

Lemma dec_digits_head fuel n :
  n < 2 ^ N.of_nat fuel -> n <> 0 -> exists d ds, dec_digits fuel n = d :: ds /\ d <> 0.
Proof.
  revert n. induction fuel as [|f IH]; intros n Hn Hz; cbn [dec_digits]; [simpl in Hn; lia|].
  destruct (N.ltb_spec n 10); [by eexists _, []|].
  destruct (IH (n / 10)) as (d & ds & -> & Hd).
  - by apply div10_fuel.
  - intros H0. apply N.div_small_iff in H0; lia.
  - by eexists d, _.
Qed.

Lemma take_while_digits (ds : list N) (r : pystr) :
  Forall (fun d => d < 10) ds -> delim r ->
  take_while is_digit (map (fun d => 48 + d) ds ++ r) = map (fun d => 48 + d) ds
  /\ drop_while is_digit (map (fun d => 48 + d) ds ++ r) = r.
Proof.
  intros Hds Hr. induction Hds as [|d ds Hd _ IH]; cbn [map app].
  - destruct r as [|c r]; [done|]. simpl in Hr. cbn.
    unfold is_digit. by destruct Hr as [-> | ->].
  - assert (E : is_digit (48 + d) = true).
    { unfold is_digit. apply andb_true_intro. split; apply N.leb_le; lia. }
    cbn [take_while drop_while]. rewrite E. destruct IH as [-> ->]. done.
Qed.

Lemma delim_float_tail (r : pystr) : delim r -> float_tail r = false.
Proof. destruct r as [|c [|c' r]]; [done| |]; intros [-> | ->]; reflexivity. Qed.

Lemma digits_value_ascii (ds : list N) :
  Forall (fun d => d < 10) ds -> map (fun c => c - 48) (map (fun d => 48 + d) ds) = ds.
Proof. induction 1; simpl; [done|]. f_equal; [lia|done]. Qed.

Lemma int_part_digits (d : N) (ds : list N) (r : pystr) :
  d < 10 -> Forall (fun d => d < 10) ds -> (d <> 0 \/ ds = []) -> delim r ->
  int_part (map (fun d => 48 + d) (d :: ds) ++ r) = (map (fun d => 48 + d) (d :: ds), r).
Proof.
  intros Hd Hds Hd0 Hr. destruct (N.eq_dec d 0) as [->|Hnz]; cbn [map app int_part].
  - destruct Hd0 as [| ->]; [done|]. by rewrite N.add_0_r, N.eqb_refl.
  - rewrite (proj2 (N.eqb_neq (48 + d) 48)) by lia.
    replace ((49 <=? 48 + d) && (48 + d <=? 57)) with true
      by (symmetry; apply andb_true_intro; split; apply N.leb_le; lia).
    by destruct (take_while_digits ds r Hds Hr) as [-> ->].
Qed.

Lemma match_number_digits (neg : bool) (d : N) (ds : list N) (r : pystr) :
  d < 10 -> Forall (fun d => d < 10) ds -> (d <> 0 \/ ds = []) -> delim r ->
  (length ds < max_str_digits)%nat ->
  match_number ((if neg then [45] else []) ++ map (fun d => 48 + d) (d :: ds) ++ r)
  = Some (JInt (if neg then Z.opp (Z.of_N (digits_value (d :: ds)))
                else Z.of_N (digits_value (d :: ds))), r).
Proof.
  intros Hd Hds Hd0 Hr Hlen. unfold match_number.
  replace (number_sign _) with (neg, map (fun d => 48 + d) (d :: ds) ++ r).
  2: { destruct neg; [reflexivity|]. cbn [app map number_sign].
       by rewrite (proj2 (N.eqb_neq (48 + d) 45)) by lia. }
  rewrite int_part_digits, delim_float_tail by done.
  rewrite digits_value_ascii by (by constructor). rewrite length_map. cbn [length].
  destruct (Nat.ltb_spec max_str_digits (S (length ds))); [lia|]. reflexivity.
Qed.

Lemma match_number_intstr (z : Z) (t r : pystr) :
  intstr z = inr t -> delim r -> match_number (t ++ r) = Some (JInt z, r).
Proof.
  unfold intstr. set (n := Z.to_N (Z.abs z)).
  destruct (Nat.ltb_spec max_str_digits (length (str_of_N n))) as [|Hlen]; [discriminate|].
  intros [= <-] Hr.
  assert (Hf : n < 2 ^ N.of_nat (N.to_nat (N.size n))) by (rewrite N2Nat.id; apply N.size_gt).
  assert (Hdig : exists d ds, dec_digits (N.to_nat (N.size n)) n = d :: ds /\ (d <> 0 \/ ds = [])).
  { destruct (N.eq_dec n 0) as [E|E].
    - exists 0, []. rewrite E, dec_digits_zero. auto.
    - destruct (dec_digits_head _ _ Hf E) as (d & ds & ? & ?). eauto. }
  destruct Hdig as (d & ds & Hds & Hd0).
  pose proof (dec_digits_lt _ _ Hf) as Hlt. pose proof (dec_digits_value _ _ Hf) as Hv.
  rewrite Hds in Hlt, Hv. apply list.Forall_cons in Hlt as [Hd Hlt].
  assert (Hstr : str_of_N n = map (fun d => 48 + d) (d :: ds)) by (unfold str_of_N; by rewrite Hds).
  rewrite Hstr, length_map in Hlen. cbn [length] in Hlen.
  unfold str_of_Z. destruct (Z.ltb_spec z 0).
  - replace (Z.to_N (- z)) with n by (unfold n; lia). rewrite Hstr.
    pose proof (match_number_digits true d ds r Hd Hlt Hd0 Hr ltac:(lia)) as M.
    cbn [app] in M |- *. rewrite M, Hv. do 3 f_equal. unfold n. lia.
  - replace (Z.to_N z) with n by (unfold n; lia). rewrite Hstr.
    pose proof (match_number_digits false d ds r Hd Hlt Hd0 Hr ltac:(lia)) as M.
    cbn [app] in M. rewrite M, Hv. do 3 f_equal. unfold n. lia.
Qed.

(** ** Whitespace and the first character of an encoding *)

Lemma skip_ws_ws (w x : pystr) : Forall (fun c => is_ws c = true) w -> skip_ws (w ++ x) = skip_ws x.
Proof. induction 1 as [|c w Hc _ IH]; [done|]. cbn. by rewrite Hc. Qed.

Lemma skip_ws_stop (c : pychar) (x : pystr) : is_ws c = false -> skip_ws (c :: x) = c :: x.
Proof. intros H. cbn. by rewrite H. Qed.

Lemma indent_ws (lvl : nat) : Forall (fun c => is_ws c = true) (indent lvl).
Proof. apply Forall_forall. intros c Hc. apply repeat_spec in Hc as ->. done. Qed.

Lemma nl_indent_ws (lvl : nat) : Forall (fun c => is_ws c = true) ([NL] ++ indent lvl).
Proof. constructor; [done|apply indent_ws]. Qed.

Lemma opener_not_ws (c : pychar) : opener c -> is_ws c = false.
Proof. unfold opener, is_ws. intros H. N_cases; cbn; lia || done. Qed.

Lemma str_of_N_digits (n : N) :
  exists d ds, str_of_N n = map (fun d => 48 + d) (d :: ds) /\ Forall (fun d => d < 10) (d :: ds).
Proof.
  assert (Hf : n < 2 ^ N.of_nat (N.to_nat (N.size n))) by (rewrite N2Nat.id; apply N.size_gt).
  destruct (dec_digits_cons (N.to_nat (N.size n)) n) as (d & ds & E).
  pose proof (dec_digits_lt _ _ Hf) as Hlt. rewrite E in Hlt.
  exists d, ds. unfold str_of_N. by rewrite E.
Qed.

Lemma str_of_Z_head (z : Z) : exists c t, str_of_Z z = c :: t /\ (c = 45 \/ 48 <= c <= 57).
Proof.
  unfold str_of_Z. destruct (z <? 0)%Z; [by eexists _, _; split; [reflexivity|left]|].
  destruct (str_of_N_digits (Z.to_N z)) as (d & ds & -> & Hd). inversion Hd; subst.
  eexists _, _. split; [reflexivity|right; lia].
Qed.

Lemma str_of_Z_ascii (z : Z) : Forall (fun c => c < 128) (str_of_Z z).
Proof.
  assert (H : forall n, Forall (fun c => c < 128) (str_of_N n)).
  { intros n. destruct (str_of_N_digits n) as (d & ds & -> & Hd).
    apply Forall_map. eapply list.Forall_impl; [exact Hd|]. simpl. lia. }
  unfold str_of_Z. destruct (z <? 0)%Z; [constructor; [lia|]|]; apply H.
Qed.

Lemma res_bind_inr {A B} (m : result A) (k : A -> result B) (b : B) :
  res_bind m k = inr b -> exists a, m = inr a /\ k a = inr b.
Proof. destruct m; [done|]. eauto. Qed.

Lemma intstr_inr (z : Z) (t : pystr) : intstr z = inr t -> t = str_of_Z z.
Proof. unfold intstr. by destruct (_ <? _)%nat; intros [=]. Qed.

Lemma iterencode_head (lvl : nat) (v : pyval) (t : pystr) :
  iterencode lvl v = inr t -> exists c t', t = c :: t' /\ opener c.
Proof.
  unfold opener. destruct v as [| [] | z | s | [|v vs] | [|kv kvs] | s]; cbn [iterencode];
    try (intros [= <-]; eexists _, _; split; [reflexivity|]; lia).
  - intros ->%intstr_inr. destruct (str_of_Z_head z) as (c & t' & -> & Hc). eexists _, _.
    split; [reflexivity|lia].
  - intros (items & _ & [= <-])%res_bind_inr. eexists _, _. split; [reflexivity|lia].
  - intros (items & _ & [= <-])%res_bind_inr. eexists _, _. split; [reflexivity|lia].
Qed.

Lemma scan_once_number (fuel : nat) (c : pychar) (s : pystr) :
  c = 45 \/ 48 <= c <= 57 -> scan_once (S fuel) (c :: s) = match_number (c :: s).
Proof.
  intros Hc. cbn [scan_once].
  rewrite (proj2 (N.eqb_neq c 34)), (proj2 (N.eqb_neq c 123)), (proj2 (N.eqb_neq c 91)),
    (proj2 (N.eqb_neq c 110)), (proj2 (N.eqb_neq c 116)), (proj2 (N.eqb_neq c 102)) by lia.
  reflexivity.
Qed.

Lemma skip_nl_indent (lvl : nat) (x : pystr) : skip_ws (NL :: indent lvl ++ x) = skip_ws x.
Proof. apply (skip_ws_ws ([NL] ++ indent lvl)), nl_indent_ws. Qed.

Lemma str_join_head (sep i : pystr) (l : list pystr) (c : pychar) (t : pystr) :
  i = c :: t -> exists u, str_join sep (i :: l) = c :: u.
Proof. intros ->. destruct l; cbn; eauto. Qed.

Lemma skip_ws_item (lvl : nat) (v : pyval) (i sep x : pystr) (l : list pystr) :
  iterencode lvl v = inr i -> skip_ws (str_join sep (i :: l) ++ x) = str_join sep (i :: l) ++ x.
Proof.
  intros (c & t & -> & Hc)%iterencode_head.
  destruct (str_join_head sep _ l c t eq_refl) as [u ->]. cbn [app].
  by apply skip_ws_stop, opener_not_ws.
Qed.

Lemma map_result_cons {A B} (f : A -> result B) (x : A) (l : list A) (ys : list B) :
  map_result f (x :: l) = inr ys ->
  exists y ys', ys = y :: ys' /\ f x = inr y /\ map_result f l = inr ys'.
Proof.
  cbn. intros (y & Hy & (ys' & Hl & [= <-])%res_bind_inr)%res_bind_inr. eauto.
Qed.

Lemma map_result_nil {A B} (f : A -> result B) (ys : list B) :
  map_result f [] = inr ys -> ys = [].
Proof. by intros [= <-]. Qed.

Lemma parse_array_items (lvl : nat) (vs : list pyval) :
  Forall scans_back vs ->
  forall items acc f r, vs <> [] -> forallb wf_val vs = true ->
  map_result (iterencode (S lvl)) vs = inr items ->
  (list_sum (map (fun v => S (size v)) vs) <= f)%nat ->
  parse_array f acc (str_join ([44; NL] ++ indent (S lvl)) items ++ [NL] ++ indent lvl ++ [93] ++ r)
  = Some (JArr (acc ++ map to_json vs), r).
Proof.
  induction 1 as [|v vs Hv Hvs IH]; intros items acc f r Hne Hwf Hmap Hf; [done|].
  apply andb_prop in Hwf as [Hwv Hwvs].
  apply map_result_cons in Hmap as (i & its & -> & Hi & Hits).
  sums. destruct f as [|f]; [lia|]. cbn [parse_array].
  destruct vs as [|v' vs'].
  - apply map_result_nil in Hits as ->. cbn [str_join].
    rewrite (Hv (S lvl) i _ f Hwv Hi); [|lia|right; reflexivity].
    cbn [app]. rewrite skip_nl_indent. reflexivity.
  - pose proof Hits as Hits'. apply map_result_cons in Hits' as (i' & its' & -> & Hi' & _).
    rewrite str_join_cons2, <- !app_assoc.
    rewrite (Hv (S lvl) i _ f Hwv Hi); [|lia|left; reflexivity].
    cbn [app]. rewrite skip_ws_stop by reflexivity.
    change (44 =? 93) with false. change (44 =? 44) with true. cbn iota.
    rewrite skip_nl_indent, (skip_ws_item _ _ _ _ _ _ Hi').
    transitivity (Some (JArr ((acc ++ [to_json v]) ++ map to_json (v' :: vs')), r)).
    + exact (IH _ (acc ++ [to_json v]) f r ltac:(done) Hwvs Hits ltac:(sums; lia)).
    + by rewrite <- app_assoc.
Qed.

Lemma key_str_json (k : pykey) (ks : pystr) : key_str k = inr ks -> ks = key_json k.
Proof.
  destruct k as [s|z|[]| |t]; unfold key_str, key_json; intros H;
    try (injection H as <-; reflexivity); [by apply intstr_inr|discriminate].
Qed.

Lemma key_str_scalar (k : pykey) (ks : pystr) :
  key_str k = inr ks -> match k with KStr s => forallb scalar s | _ => true end = true ->
  forallb scalar ks = true.
Proof.
  destruct k as [s|z|[]| |t]; unfold key_str; intros H Hk;
    try (injection H as <-; first [exact Hk | vm_compute; reflexivity]); [|discriminate].
  apply intstr_inr in H as ->. apply forallb_forall. intros c Hc.
  pose proof (str_of_Z_ascii z) as Ha. rewrite List.Forall_forall in Ha.
  apply scalar_spec. specialize (Ha c Hc). lia.
Qed.

Lemma item_text (ks vs x : pystr) :
  (encode_basestring_ascii ks ++ py ": " ++ vs) ++ x
  = 34 :: flat_map encode_char ks ++ 34 :: 58 :: 32 :: vs ++ x.
Proof.
  unfold encode_basestring_ascii. change (py ": ") with [58; 32].
  rewrite <- !app_assoc. reflexivity.
Qed.

Lemma skip_ws_value (lvl : nat) (v : pyval) (t x : pystr) :
  iterencode lvl v = inr t -> skip_ws (t ++ x) = t ++ x.
Proof. intros (c & t' & -> & Hc)%iterencode_head. by apply skip_ws_stop, opener_not_ws. Qed.

Lemma parse_object_entry (lvl : nat) (f : nat) (acc : list (pystr * json)) (ks : pystr)
    (v : pyval) (vs x : pystr) :
  scans_back v -> forallb scalar ks = true -> wf_val v = true ->
  iterencode (S lvl) v = inr vs -> (size v <= f)%nat -> delim x ->
  parse_object (S f) acc (34 :: flat_map encode_char ks ++ 34 :: 58 :: 32 :: vs ++ x)
  = match skip_ws x with
    | d :: r' =>
        if d =? 125 then Some (JObj (acc ++ [(ks, to_json v)]), r')
        else if d =? 44 then parse_object f (acc ++ [(ks, to_json v)]) (skip_ws r')
        else None
    | [] => None
    end.
Proof.
  intros Hv Hks Hwv Hvs Hf Hx. cbn [parse_object]. change (34 =? 34) with true. cbn iota.
  rewrite scan_encoded by done. rewrite skip_ws_stop by reflexivity.
  change (58 =? 58) with true. cbn iota.
  change (skip_ws (32 :: ?y)) with (skip_ws y).
  rewrite (skip_ws_value _ _ _ _ Hvs). by rewrite (Hv (S lvl) vs x f Hwv Hvs Hf Hx).
Qed.

Lemma parse_object_items (lvl : nat) (kvs : list (pykey * pyval)) :
  Forall (fun kv => scans_back kv.2) kvs ->
  forall items acc f r, kvs <> [] ->
  forallb (fun '(k, v) => match k with KStr s => forallb scalar s | _ => true end && wf_val v) kvs = true ->
  map_result (fun '(k, v) =>
    res_bind (key_str k) (fun ks =>
    res_bind (iterencode (S lvl) v) (fun vs =>
    inr (encode_basestring_ascii ks ++ py ": " ++ vs)))) kvs = inr items ->
  (list_sum (map (fun '(_, v) => S (size v)) kvs) <= f)%nat ->
  parse_object f acc (str_join ([44; NL] ++ indent (S lvl)) items ++ [NL] ++ indent lvl ++ [125] ++ r)
  = Some (JObj (acc ++ map (fun '(k, v) => (key_json k, to_json v)) kvs), r).
Proof.
  induction 1 as [|[k v] kvs Hv Hkvs IH]; intros items acc f r Hne Hwf Hmap Hf; [done|].
  cbn [forallb] in Hwf. apply andb_prop in Hwf as [Hwkv Hwkvs]. apply andb_prop in Hwkv as [Hwk Hwv].
  apply map_result_cons in Hmap as (i & its & -> & Hi & Hits).
  apply res_bind_inr in Hi as (ks & Hks & Hi). apply res_bind_inr in Hi as (vs & Hvs & Hi).
  replace i with (encode_basestring_ascii ks ++ py ": " ++ vs) by (injection Hi as E; exact E).
  clear Hi.
  pose proof (key_str_scalar _ _ Hks Hwk) as Hsk. apply key_str_json in Hks as ->.
  sums. destruct f as [|f]; [lia|].
  destruct kvs as [|kv' kvs'].
  - apply map_result_nil in Hits as ->. cbn [str_join]. rewrite item_text.
    rewrite (parse_object_entry lvl f acc _ v vs); [|done..|lia|right; reflexivity].
    cbn [app]. rewrite skip_nl_indent. reflexivity.
  - pose proof Hits as Hits'. apply map_result_cons in Hits' as (i' & its' & -> & Hi' & _).
    rewrite str_join_cons2, <- app_assoc, item_text, <- !app_assoc.
    rewrite (parse_object_entry lvl f acc _ v vs); [|done..|lia|left; reflexivity].
    cbn [app]. rewrite skip_ws_stop by reflexivity.
    change (44 =? 125) with false. change (44 =? 44) with true. cbn iota.
    rewrite skip_nl_indent.
    destruct kv' as [k' v']. destruct (res_bind_inr _ _ _ Hi') as (ks' & _ & Hi'').
    apply res_bind_inr in Hi'' as (vs' & Hvs' & Hi'').
    assert (Ei : i' = encode_basestring_ascii ks' ++ py ": " ++ vs')
      by (injection Hi'' as E; symmetry; exact E).
    subst i'.
    destruct (str_join_head (44 :: NL :: indent (S lvl)) (encode_basestring_ascii ks' ++ py ": " ++ vs')
                its' 34 _ eq_refl) as [u Hu].
    rewrite Hu. change ((34 :: u) ++ ?R) with (34 :: (u ++ R)).
    rewrite skip_ws_stop by reflexivity. change (34 :: (u ++ ?R)) with ((34 :: u) ++ R).
    rewrite <- Hu.
    transitivity (Some (JObj ((acc ++ [(key_json k, to_json v)])
                  ++ map (fun '(k, v) => (key_json k, to_json v)) ((k', v') :: kvs')), r)).
    + exact (IH _ (acc ++ [(key_json k, to_json v)]) f r ltac:(done) Hwkvs Hits
               ltac:(sums; lia)).
    + by rewrite <- app_assoc.
Qed.

Lemma container_text (op cl : pychar) (lvl : nat) (items : list pystr) (r : pystr) :
  container op cl lvl items ++ r
  = op :: NL :: indent (S lvl) ++ str_join ([44; NL] ++ indent (S lvl)) items
       ++ [NL] ++ indent lvl ++ [cl] ++ r.
Proof. unfold container. by rewrite <- !app_assoc. Qed.

(** After the opening bracket and the whitespace: the first item. *)
Lemma skip_to_items (lvl lvl' : nat) (v : pyval) (i x : pystr) (its : list pystr) :
  iterencode lvl' v = inr i ->
  exists c u, skip_ws (NL :: indent (S lvl) ++ str_join ([44; NL] ++ indent (S lvl)) (i :: its) ++ x)
              = c :: u /\ c :: u = str_join ([44; NL] ++ indent (S lvl)) (i :: its) ++ x /\ opener c.
Proof.
  intros Hi. rewrite skip_nl_indent, (skip_ws_item _ _ _ _ _ _ Hi).
  destruct (iterencode_head _ _ _ Hi) as (c & t & -> & Hc).
  destruct (str_join_head ([44; NL] ++ indent (S lvl)) _ its c t eq_refl) as [u ->].
  by exists c, (u ++ x).
Qed.

Lemma scans_back_all (v : pyval) : scans_back v.
Proof.
  induction v as [| b | z | s | vs IH | kvs IH | s] using pyval_ind';
    intros lvl t r fuel Hwf Ht Hf Hr; (destruct fuel as [|f]; [cbn [size] in Hf; lia|]).
  - injection Ht as <-. reflexivity.
  - destruct b; injection Ht as <-; reflexivity.
  - cbn [iterencode] in Ht. pose proof Ht as Ht'. apply intstr_inr in Ht' as ->.
    destruct (str_of_Z_head z) as (c & t' & E & Hc). rewrite E.
    change ((c :: t') ++ r) with (c :: (t' ++ r)). rewrite scan_once_number by done.
    change (c :: (t' ++ r)) with ((c :: t') ++ r). rewrite <- E. by apply match_number_intstr.
  - injection Ht as <-. unfold encode_basestring_ascii. rewrite <- !app_assoc.
    cbn [app scan_once]. change (34 =? 34) with true. cbn iota.
    rewrite scan_encoded by exact Hwf. reflexivity.
  - destruct vs as [|v vs']; [injection Ht as <-; reflexivity|].
    cbn [iterencode] in Ht. apply res_bind_inr in Ht as (items & Hitems & Ht).
    assert (Et : t = container 91 93 lvl items) by (injection Ht as E; symmetry; exact E).
    subst t. clear Ht. pose proof Hitems as Hc. apply map_result_cons in Hc as (i & its & -> & Hi & _).
    rewrite container_text.
    destruct (skip_to_items lvl _ v i ([NL] ++ indent lvl ++ [93] ++ r) its Hi) as (c & u & E1 & E2 & Hc).
    cbn [scan_once N.eqb Pos.eqb]. rewrite E1.
    rewrite (proj2 (N.eqb_neq c 93)) by (unfold opener in Hc; lia). rewrite E2.
    cbn [size] in Hf. cbn [wf_val] in Hwf.
    exact (parse_array_items lvl _ IH _ [] f r ltac:(done) Hwf Hitems ltac:(lia)).
  - destruct kvs as [|kv kvs']; [injection Ht as <-; reflexivity|].
    cbn [iterencode] in Ht. apply res_bind_inr in Ht as (items & Hitems & Ht).
    assert (Et : t = container 123 125 lvl items) by (injection Ht as E; symmetry; exact E).
    subst t. clear Ht. pose proof Hitems as Hc. apply map_result_cons in Hc as (i & its & -> & Hi & _).
    rewrite container_text. destruct kv as [k v].
    apply res_bind_inr in Hi as (ks & Hks & Hi). apply res_bind_inr in Hi as (vs & Hvs & Hi).
    assert (Ei : i = encode_basestring_ascii ks ++ py ": " ++ vs)
      by (injection Hi as E; symmetry; exact E).
    subst i. cbn [scan_once N.eqb Pos.eqb]. rewrite skip_nl_indent.
    destruct (str_join_head ([44; NL] ++ indent (S lvl)) (encode_basestring_ascii ks ++ py ": " ++ vs)
                its 34 _ eq_refl) as [u Hu].
    rewrite Hu. change ((34 :: u) ++ ?R) with (34 :: (u ++ R)).
    rewrite skip_ws_stop by reflexivity. change (34 =? 125) with false. cbn iota.
    change (34 :: (u ++ ?R)) with ((34 :: u) ++ R). rewrite <- Hu.
    cbn [size] in Hf. cbn [wf_val] in Hwf.
    exact (parse_object_items lvl _ IH _ [] f r ltac:(done) Hwf Hitems ltac:(lia)).
  - injection Ht as <-. unfold encode_basestring_ascii. rewrite <- !app_assoc.
    cbn [app scan_once]. change (34 =? 34) with true. cbn iota.
    rewrite scan_encoded by exact Hwf. reflexivity.
Qed.

(** ** The text is long enough for the fuel of [loads] *)

Lemma map_result_Forall2 {A B} (f : A -> result B) (l : list A) (ys : list B) :
  map_result f l = inr ys -> Forall2 (fun x y => f x = inr y) l ys.
Proof.
  revert ys. induction l as [|x l IH]; intros ys H.
  - apply map_result_nil in H as ->. constructor.
  - apply map_result_cons in H as (y & ys' & -> & Hy & Hl). constructor; auto.
Qed.

Lemma str_join_length (sep : pystr) (l : list pystr) :
  (1 <= length sep)%nat ->
  (length l + list_sum (map length l) <= S (length (str_join sep l)))%nat.
Proof.
  intros Hsep. induction l as [|x [|y l] IH]; [simpl; lia|simpl; lia|].
  rewrite str_join_cons2, !length_app. sums. cbn [length] in *. lia.
Qed.

Lemma sum_sizes {A} (sz : A -> nat) (l : list A) (items : list pystr) :
  Forall2 (fun x i => (sz x <= length i)%nat) l items ->
  (list_sum (map (fun x => S (sz x)) l) <= length items + list_sum (map length items))%nat.
Proof. induction 1; [simpl; lia|]. sums. cbn [length]. lia. Qed.

Lemma container_length (op cl : pychar) (lvl : nat) (items : list pystr) :
  (length items + list_sum (map length items) + 5 <= length (container op cl lvl items))%nat.
Proof.
  pose proof (str_join_length ([44; NL] ++ indent (S lvl)) items ltac:(simpl; lia)).
  unfold container. rewrite !length_app. unfold indent at 1. rewrite repeat_length.
  cbn [length]. lia.
Qed.

Lemma Forall_Forall2_l {A B} (P : A -> Prop) (R S : A -> B -> Prop) (l : list A) (k : list B) :
  Forall P l -> Forall2 R l k -> (forall x y, P x -> R x y -> S x y) -> Forall2 S l k.
Proof. intros HP HR H. induction HR; inversion HP; constructor; auto. Qed.

Lemma size_le_length (v : pyval) :
  forall lvl t, iterencode lvl v = inr t -> (size v <= length t)%nat.
Proof.
  induction v as [| b | z | s | vs IH | kvs IH | s] using pyval_ind'; intros lvl t Ht.
  - injection Ht as <-. simpl. lia.
  - destruct b; injection Ht as <-; simpl; lia.
  - apply intstr_inr in Ht as ->. destruct (str_of_Z_head z) as (c & t' & -> & _). simpl. lia.
  - injection Ht as <-. unfold encode_basestring_ascii. rewrite !length_app. simpl. lia.
  - destruct vs as [|v vs']; [injection Ht as <-; simpl; lia|].
    cbn [iterencode] in Ht. apply res_bind_inr in Ht as (items & Hitems & Ht).
    assert (t = container 91 93 lvl items) as -> by (injection Ht as E; symmetry; exact E).
    pose proof (container_length 91 93 lvl items) as Hc.
    apply map_result_Forall2 in Hitems.
    pose proof (sum_sizes size _ _ (Forall_Forall2_l _ _ _ _ _ IH Hitems (fun x y Hx Hy => Hx _ _ Hy))).
    cbn [size]. lia.
  - destruct kvs as [|kv kvs']; [injection Ht as <-; simpl; lia|].
    cbn [iterencode] in Ht. apply res_bind_inr in Ht as (items & Hitems & Ht).
    assert (t = container 123 125 lvl items) as -> by (injection Ht as E; symmetry; exact E).
    pose proof (container_length 123 125 lvl items) as Hc.
    apply map_result_Forall2 in Hitems.
    assert (H2 : Forall2 (fun kv i => (size kv.2 <= length i)%nat) (kv :: kvs') items).
    { refine (Forall_Forall2_l _ _ _ _ _ IH Hitems _). intros [k' v'] i Hv' Hi. cbn in Hv' |- *.
      apply res_bind_inr in Hi as (ks & _ & Hi). apply res_bind_inr in Hi as (vs & Hvs & Hi).
      assert (Ei : i = encode_basestring_ascii ks ++ py ": " ++ vs)
        by (injection Hi as E; symmetry; exact E).
      rewrite Ei, !length_app. specialize (Hv' _ _ Hvs). lia. }
    pose proof (sum_sizes (fun kv => size kv.2) _ _ H2).
    cbn [size].
    replace (list_sum (map (fun '(_, v) => S (size v)) (kv :: kvs')))
      with (list_sum (map (fun kv => S (size kv.2)) (kv :: kvs')))
      by (f_equal; apply map_ext; by intros []).
    lia.
  - injection Ht as <-. unfold encode_basestring_ascii. rewrite !length_app. simpl. lia.
Qed.

(** Round trip: whenever [json.dumps] of a
    value whose strings hold no surrogate code point returns a text,
    [json.loads] reads that text back as the JSON value the Python value
    stands for (an object by its [str], keys as strings, dict items in
    order). *)
Theorem loads_dumps (v : pyval) (t : pystr) :
  wf_val v = true -> dumps v = inr t -> loads t = Some (to_json v).
Proof.
  unfold dumps, loads. intros Hwf Ht.
  destruct (iterencode_head _ _ _ Ht) as (c & t' & Et & Hc).
  assert (Hbom : str_startswith [65279] t = false).
  { rewrite Et. cbn [str_startswith]. rewrite (proj2 (N.eqb_neq 65279 c)) by (unfold opener in Hc; lia).
    reflexivity. }
  rewrite Hbom. cbv iota.
  rewrite Et, skip_ws_stop, <- Et by (by apply opener_not_ws).
  pose proof (scans_back_all v 0%nat t [] (length t) Hwf Ht (size_le_length v 0%nat t Ht) I) as H.
  rewrite app_nil_r in H. by rewrite H.
Qed.

(** ** When [dumps] raises *)

Lemma res_bind_ok {A B} (m : result A) (k : A -> result B) :
  (forall a, is_ok (k a) = true) -> is_ok (res_bind m k) = is_ok m.
Proof. intros H. destruct m; [done|apply H]. Qed.

Lemma res_bind_ok2 {A B} (m : result A) (k : A -> result B) (b : bool) :
  (forall a, is_ok (k a) = b) -> is_ok (res_bind m k) = is_ok m && b.
Proof. intros H. destruct m; [done|apply H]. Qed.

Lemma map_result_ok {A B} (f : A -> result B) (l : list A) :
  is_ok (map_result f l) = forallb (fun x => is_ok (f x)) l.
Proof.
  induction l as [|x l IH]; [done|]. cbn [map_result forallb].
  destruct (f x); [done|]. cbn [res_bind]. rewrite <- IH. by destruct (map_result f l).
Qed.

Lemma intstr_ok (z : Z) :
  is_ok (intstr z) = (length (str_of_N (Z.to_N (Z.abs z))) <=? max_str_digits)%nat.
Proof.
  unfold intstr. rewrite Nat.leb_antisym. by destruct (max_str_digits <? _)%nat.
Qed.

Lemma forallb_Forall_ext {A} (f g : A -> bool) (l : list A) :
  Forall (fun x => f x = g x) l -> forallb f l = forallb g l.
Proof. induction 1; cbn; congruence. Qed.

Lemma iterencode_ok (lvl : nat) (v : pyval) : is_ok (iterencode lvl v) = encodable v.
Proof.
  revert lvl. induction v as [| b | z | s | vs IH | kvs IH | s] using pyval_ind'; intros lvl;
    try (destruct b); try reflexivity.
  - apply intstr_ok.
  - destruct vs as [|v vs]; [done|]. cbn [iterencode encodable].
    rewrite res_bind_ok by done. rewrite map_result_ok.
    apply forallb_Forall_ext. eapply list.Forall_impl; [exact IH|]. cbn. auto.
  - destruct kvs as [|kv kvs]; [done|]. cbn [iterencode encodable].
    rewrite res_bind_ok by done. rewrite map_result_ok.
    apply forallb_Forall_ext. eapply list.Forall_impl; [exact IH|].
    intros [k v'] Hv. cbn in Hv |- *.
    rewrite (res_bind_ok2 _ _ (encodable v')).
    2: { intros ks. rewrite res_bind_ok by done. apply Hv. }
    destruct k as [s|z|[]| |t]; try reflexivity. cbn [key_str]. by rewrite intstr_ok.
Qed.

(** [json.dumps] raises exactly when the value has a dict key of
    another class than [str], [int], [bool] and [None] ([TypeError]) or an
    integer, as a value or a key, of more than 4300 digits ([ValueError]);
    [default=str] makes every other object serializable. *)
Theorem dumps_raises (v : pyval) :
  (exists e, dumps v = inl e) <-> encodable v = false.
Proof.
  pose proof (iterencode_ok 0%nat v) as H. unfold dumps.
  destruct (iterencode 0 v); cbn in H; split; [by intros _|eauto|by intros [? ?]|congruence].
Qed.

(** ** [ensure_ascii] *)

Lemma hex4_printable (n : N) : Forall printable (hex4 n).
Proof.
  unfold hex4. apply Forall_map, Forall_forall. intros k _.
  pose proof (N.mod_lt (n / 16 ^ k) 16 ltac:(lia)) as Hd. revert Hd.
  generalize ((n / 16 ^ k) mod 16). intros d Hd. unfold printable, hexdigit. N_cases; lia.
Qed.

Lemma printable_lits (l : pystr) :
  forallb (fun c => (c =? 10) || ((32 <=? c) && (c <=? 126))) l = true -> Forall printable l.
Proof.
  intros H. rewrite forallb_forall in H. apply List.Forall_forall. intros c Hc.
  specialize (H c Hc). unfold printable. revert H. N_cases; cbn; intros; lia || done.
Qed.

Lemma u_escape_printable (n : N) : Forall printable (u_escape n).
Proof. unfold u_escape. apply Forall_app. split; [by apply printable_lits|apply hex4_printable]. Qed.

Lemma encode_char_printable (c : pychar) : Forall printable (encode_char c).
Proof.
  unfold encode_char, escape_ascii_match, replace, ESCAPE_DCT.
  N_cases; cbn [orb andb negb]; try lia;
    first [ by apply printable_lits | apply u_escape_printable
          | (apply Forall_app; split; apply u_escape_printable)
          | (constructor; [unfold printable; lia|constructor]) ].
Qed.

Lemma encode_basestring_printable (s : pystr) : Forall printable (encode_basestring_ascii s).
Proof.
  unfold encode_basestring_ascii. rewrite !Forall_app, Forall_flat_map.
  split; [by apply printable_lits|split; [|by apply printable_lits]].
  apply Forall_forall. intros c _. apply encode_char_printable.
Qed.

Lemma str_join_Forall (P : pychar -> Prop) (sep : pystr) (l : list pystr) :
  Forall P sep -> Forall (Forall P) l -> Forall P (str_join sep l).
Proof.
  intros Hs. induction 1 as [|x l Hx Hl IH]; [constructor|].
  destruct l as [|y l]; [exact Hx|]. rewrite str_join_cons2, !Forall_app. auto.
Qed.

Lemma Forall2_Forall_snd {A B} (Q : B -> Prop) (l : list A) (k : list B) :
  Forall2 (fun _ y => Q y) l k -> Forall Q k.
Proof. induction 1; by constructor. Qed.

Lemma indent_printable (lvl : nat) : Forall printable (indent lvl).
Proof. apply Forall_forall. intros c Hc. apply repeat_spec in Hc as ->. unfold printable. lia. Qed.

Lemma container_printable (op cl : pychar) (lvl : nat) (items : list pystr) :
  printable op -> printable cl -> Forall (Forall printable) items ->
  Forall printable (container op cl lvl items).
Proof.
  intros Hop Hcl Hi. unfold container. rewrite !Forall_app.
  repeat split; try (by constructor); try apply indent_printable.
  - constructor; [unfold printable; left; reflexivity|constructor].
  - apply str_join_Forall; [|done]. apply Forall_app. split; [by apply printable_lits|apply indent_printable].
  - constructor; [unfold printable; left; reflexivity|constructor].
Qed.

Lemma str_of_Z_printable (z : Z) : Forall printable (str_of_Z z).
Proof.
  assert (H : forall n, Forall printable (str_of_N n)).
  { intros n. destruct (str_of_N_digits n) as (d & ds & -> & Hd).
    apply Forall_map. eapply list.Forall_impl; [exact Hd|]. unfold printable. simpl. lia. }
  unfold str_of_Z. destruct (z <? 0)%Z; [constructor; [unfold printable; lia|]|]; apply H.
Qed.

(** With [ensure_ascii], every character of the text [json.dumps]
    returns is a newline or printable ASCII (space to tilde), whatever the
    strings of the value hold. *)
Theorem dumps_ascii (v : pyval) (t : pystr) : dumps v = inr t -> Forall printable t.
Proof.
  unfold dumps. generalize 0%nat. revert t.
  induction v as [| b | z | s | vs IH | kvs IH | s] using pyval_ind'; intros t lvl Ht.
  - injection Ht as <-. by apply printable_lits.
  - destruct b; injection Ht as <-; by apply printable_lits.
  - apply intstr_inr in Ht as ->. apply str_of_Z_printable.
  - injection Ht as <-. apply encode_basestring_printable.
  - destruct vs as [|v vs']; [injection Ht as <-; by apply printable_lits|].
    cbn [iterencode] in Ht. apply res_bind_inr in Ht as (items & Hitems & Ht).
    assert (t = container 91 93 lvl items) as -> by (injection Ht as E; symmetry; exact E).
    apply container_printable; [unfold printable; lia..|].
    apply map_result_Forall2 in Hitems.
    apply (Forall2_Forall_snd _ (v :: vs')).
    exact (Forall_Forall2_l _ _ _ _ _ IH Hitems (fun x y Hx Hy => Hx _ _ Hy)).
  - destruct kvs as [|kv kvs']; [injection Ht as <-; by apply printable_lits|].
    cbn [iterencode] in Ht. apply res_bind_inr in Ht as (items & Hitems & Ht).
    assert (t = container 123 125 lvl items) as -> by (injection Ht as E; symmetry; exact E).
    apply container_printable; [unfold printable; lia..|].
    apply map_result_Forall2 in Hitems. apply (Forall2_Forall_snd _ (kv :: kvs')).
    refine (Forall_Forall2_l _ _ _ _ _ IH Hitems _). intros [k v'] i Hv' Hi. cbn in Hv'.
    apply res_bind_inr in Hi as (ks & _ & Hi). apply res_bind_inr in Hi as (vs & Hvs & Hi).
    assert (Ei : i = encode_basestring_ascii ks ++ py ": " ++ vs)
      by (injection Hi as E; symmetry; exact E).
    rewrite Ei, !Forall_app. split; [apply encode_basestring_printable|].
    split; [by apply printable_lits|exact (Hv' _ _ Hvs)].
  - injection Ht as <-. apply encode_basestring_printable.
Qed.

(** Without the hypothesis on surrogates the round trip fails: a high and a
    low surrogate are written as two escapes and read back as one
    character. *)
Example surrogates_merge :
  match dumps (PStr [55357; 56832]) with inr t => loads t | inl _ => None end
  = Some (JStr [128512]).
Proof. vm_compute. reflexivity. Qed.

(** The key [1] and the key ["1"] of one dict are both written ["1"]: the
    text has a duplicate key, which [json.loads] without
    [object_pairs_hook] collapses. *)
Example int_and_str_keys_collide :
  match dumps (PDict [(KInt 1, PStr (py "a")); (KStr (py "1"), PStr (py "b"))]) with
  | inr t => loads t | inl _ => None end
  = Some (JObj [(py "1", JStr (py "a")); (py "1", JStr (py "b"))]).
Proof. vm_compute. reflexivity. Qed.

End PyJson.
