(* ===== verification/Watch.v ===== *)
(** * [AdvancedSyncCommand] and [main] (src/content/scripts/sync-advanced.py)

    [main] parses the command line ([ArgParse.parse_args]), builds an
    [AdvancedSyncCommand] (which creates a [SyncCache] when [--cache] is
    given) and runs [watch_mode] under [--watch], [run_check] otherwise.
    [run_check] is an empty placeholder. [watch_mode] prints a banner and
    loops: each round looks up [self.find_claude_md], which the class does
    not define (it is a method of [sync.py]'s [SyncCommand]), so the lookup
    raises [AttributeError]; only [KeyboardInterrupt] is caught. The loop is
    the step relation [wstep] on configurations (state of the loop, what
    was printed), whose rules follow the body of the loop; the rules after
    the lookup are those of a command whose lookup succeeds
    ([find_impl = Some f]), and never apply to this class.
    [output_markdown] is the report as the list of appended lines, with the
    date given as an argument ([datetime.now()] is not modelled);
    [output_json] prints [json.dumps(data, indent=2, default=str)] of
    Json.v, or raises what [json.dumps] raises. *)

From S2P Require Import Prelude PyStr Parser Env Cache PyInt Args Json.
From stdpp Require Import gmap.
From Stdlib Require Import ZArith.
Local Open Scope N_scope.

Module AdvancedSyncCommand.
Import ArgParse.

(** The instance: [self.args] and [self.cache]. *)
Record AdvancedSyncCommand := {
  args : Args;
  cache : option (SyncCache.SyncCache ProjectContext)
}.

(** The names an instance resolves: its two attributes and the methods of
    the class. *)
Definition instance_attrs : list pystr := [py "args"; py "cache"].
Definition class_methods : list pystr :=
  [py "__init__"; py "watch_mode"; py "output_json"; py "output_markdown"; py "run_check"].

Definition has_attr (name : pystr) : bool :=
  bool_decide (name ∈ instance_attrs) || bool_decide (name ∈ class_methods).

Section Command.
Context `{os : OS}.

(** [__init__]: [SyncCache() if args.cache else None]; creating the cache
    directory may raise. *)
Definition init_command (a : Args) : pystr + AdvancedSyncCommand :=
  if ArgParse.cache a then
    match SyncCache.init_cache (A := ProjectContext) None with
    | inl e => inl e
    | inr c => inr {| args := a; cache := Some c |}
    end
  else inr {| args := a; cache := None |}.

End Command.

(** [run_check]: [pass]; it prints nothing. *)
Definition run_check (cmd : AdvancedSyncCommand) : list pystr := [].

Definition start_msg : pystr := py "Starting sync watch mode... (Ctrl+C to stop)".
Definition waiting_msg : pystr := py "‚è∏ No CLAUDE.md found, waiting...".
Definition stop_msg : pystr := [NL] ++ py "üëã Stopping watch mode".

(** The state of [watch_mode]: before the banner, in the loop with
    [last_check], left by [break] after [KeyboardInterrupt], or left by an
    exception that is not caught. *)
Inductive WState :=
  | WStart
  | WLoop (last_check : gmap pystr pystr)
  | WStopped
  | WCrashed (exc : pystr).

Definition config : Type := WState * list pystr.

(** [time.sleep(n)] raises [ValueError] on a negative [n]. *)
Definition sleep_ok (n : Z) : bool := (0 <=? n)%Z.

Section Watch.
Variable md5_hexdigest : pystr -> pystr.
Variable cmd : AdvancedSyncCommand.
(** What [self.find_claude_md] resolves to, as a function of the system:
    [None] raises [AttributeError]. *)
Variable find_impl : option (OS -> option path).

Inductive wstep : OS -> config -> config -> Prop :=
  | w_start os out :
      wstep os (WStart, out) (WLoop ∅, out ++ [start_msg])
  | w_interrupt os lc out :
      wstep os (WLoop lc, out) (WStopped, out ++ [stop_msg])
  | w_no_attr os lc out :
      find_impl = None ->
      wstep os (WLoop lc, out) (WCrashed (py "AttributeError"), out)
  | w_not_found os f lc out :
      find_impl = Some f -> f os = None ->
      wstep os (WLoop lc, out) (WLoop lc, out ++ [waiting_msg])
  | w_read_error os f p e lc out :
      find_impl = Some f -> f os = Some p -> os_read_bytes (OS := os) p = inl e ->
      wstep os (WLoop lc, out) (WCrashed e, out)
  | w_check os f p b lc out :
      find_impl = Some f -> f os = Some p -> os_read_bytes (OS := os) p = inr b ->
      let lc' := if bool_decide (lc !! path_str p = Some (md5_hexdigest b)) then lc
                 else <[path_str p := md5_hexdigest b]> lc in
      let out' := out ++ (if bool_decide (lc !! path_str p = Some (md5_hexdigest b)) then []
                          else run_check cmd) in
      wstep os (WLoop lc, out)
        (if sleep_ok (interval (args cmd)) then WLoop lc' else WCrashed (py "ValueError"), out').

(** Configurations reachable from [(s, out)] in any environment. *)
Inductive reachable : config -> config -> Prop :=
  | reach_refl c : reachable c c
  | reach_step os c1 c2 c3 : wstep os c1 c2 -> reachable c2 c3 -> reachable c1 c3.

End Watch.

(** [find_impl] for this class: the lookup of [find_claude_md] fails. *)
Definition class_find_impl : option (OS -> option path) :=
  if has_attr (py "find_claude_md") then Some (fun _ => None) else None.

(** Runs of [n] steps. *)
Inductive steps (md5 : pystr -> pystr) (cmd : AdvancedSyncCommand)
    (find : option (OS -> option path)) : nat -> config -> config -> Prop :=
  | steps_0 c : steps md5 cmd find 0 c c
  | steps_S os n c1 c2 c3 :
      wstep md5 cmd find os c1 c2 -> steps md5 cmd find n c2 c3 -> steps md5 cmd find (S n) c1 c3.

(** The configurations of a run of this class's [watch_mode], with the
    number of steps left before it ends. *)
Definition watch_rank (c : config) : option nat :=
  match c with
  | (WStart, []) => Some 2%nat
  | (WLoop m, [s]) => if bool_decide (m = ∅) && bool_decide (s = start_msg) then Some 1%nat else None
  | (WStopped, [s1; s2]) =>
      if bool_decide (s1 = start_msg) && bool_decide (s2 = stop_msg) then Some 0%nat else None
  | (WCrashed e, [s]) =>
      if bool_decide (e = py "AttributeError") && bool_decide (s = start_msg) then Some 0%nat
      else None
  | _ => None
  end.

(** ** [output_markdown] *)

Record IssueDict := { i_level : pystr; i_category : pystr; i_description : pystr;
                      i_suggestion : pystr }.

Record ReportData := { project_name : pystr; context_file : pystr; issues : list IssueDict }.

Definition issue_lines (i : IssueDict) : list pystr :=
  [[NL] ++ py "- **" ++ i_category i ++ py "**: " ++ i_description i;
   py "  - *Suggestion*: " ++ i_suggestion i].

(** [level.title()] of the three literal levels. *)
Definition title (level : pystr) : pystr :=
  match level with c :: r => (c - 32) :: r | [] => [] end.

Definition level_section (data : ReportData) (level : pystr) : list pystr :=
  let level_issues := List.filter (fun i => bool_decide (i_level i = level)) (issues data) in
  match level_issues with
  | [] => []
  | _ => ([NL] ++ py "### " ++ title level ++ py "s") :: flat_map issue_lines level_issues
  end.

Definition report_levels : list pystr := [py "critical"; py "warning"; py "suggestion"].

Definition md_lines (now_iso : pystr) (data : ReportData) : list pystr :=
  [py "# Project Context Sync Report";
   [NL] ++ py "**Date**: " ++ now_iso;
   [NL] ++ py "**Project**: `" ++ project_name data ++ py "`";
   [NL] ++ py "**Context File**: `" ++ context_file data ++ py "`"]
  ++ match issues data with
     | [] => [[NL] ++ py "## ‚úÖ No Issues Found"]
     | _ => ([NL] ++ py "## Issues Found") :: flat_map (level_section data) report_levels
     end.

(** The lines of the report that start an issue entry. *)
Definition is_entry (l : pystr) : bool := str_startswith ([NL] ++ py "- **") l.

(** [print('\n'.join(md))] *)
Definition output_markdown (now_iso : pystr) (data : ReportData) : list pystr :=
  [str_join [NL] (md_lines now_iso data)].

(** ** [output_json] *)

(** [print(json.dumps(data, indent=2, default=str))]: an exception of
    [json.dumps] propagates before anything is printed. *)
Definition output_json (data : PyJson.pyval) : PyJson.result (list pystr) :=
  match PyJson.dumps data with
  | inl e => inl e
  | inr s => inr [s]
  end.

(** ** [main] *)

Inductive MainOutcome :=
  | MExit (code : Z)
  | MRaise (exc : pystr)
  | MWatch (cmd : AdvancedSyncCommand)
  | MDone (printed : list pystr).

Definition main `{os : OS} (argv : list pystr) : MainOutcome :=
  match parse_args argv with
  | Exit code _ => MExit code
  | Parsed a =>
      match init_command a with
      | inl e => MRaise e
      | inr command => if watch a then MWatch command else MDone (run_check command)
      end
  end.

(** ** Watch mode *)

Lemma class_find_impl_none : class_find_impl = None.
Proof. by vm_compute. Qed.

(** A step of this class's loop lowers the rank by one. *)
Lemma wstep_rank md5 cmd os c c' k :
  watch_rank c = Some k -> wstep md5 cmd class_find_impl os c c' ->
  exists k', watch_rank c' = Some k' /\ k = S k'.
Proof.
  rewrite class_find_impl_none. intros Hk Hs.
  inversion Hs; subst; try congruence; simpl in Hk |- *.
  - destruct out; [|discriminate]. injection Hk as <-. eexists; split; [|reflexivity].
    simpl. by rewrite ?bool_decide_true.
  - destruct out as [|s [|]]; try discriminate. simpl in Hk |- *.
    case_bool_decide; case_bool_decide; simpl in Hk; try discriminate.
    injection Hk as <-. subst. eexists; split; [|reflexivity].
    by rewrite ?bool_decide_true.
  - destruct out as [|s [|]]; try discriminate. simpl in Hk |- *.
    case_bool_decide; case_bool_decide; simpl in Hk; try discriminate.
    injection Hk as <-. subst. eexists; split; [|reflexivity].
    by rewrite ?bool_decide_true.
Qed.

Lemma steps_rank md5 cmd n c c' k :
  watch_rank c = Some k -> steps md5 cmd class_find_impl n c c' ->
  (n <= k)%nat /\ exists k', watch_rank c' = Some k'.
Proof.
  intros Hk Hs. revert k Hk. induction Hs as [c|os n c1 c2 c3 H12 H23 IH]; intros k Hk.
  - split; [lia|by eexists].
  - destruct (wstep_rank _ _ _ _ _ _ Hk H12) as (k' & Hk' & ->).
    destruct (IH k' Hk') as [Hn Hc]. split; [lia|done].
Qed.

(** C28. [watch_mode] of this class stops after at most two steps: the
    banner, then either [KeyboardInterrupt] (the goodbye line) or the
    [AttributeError] of [self.find_claude_md()]; in every environment its
    runs are the prefixes of these two, so [last_check] stays empty,
    [run_check] is never reached and the polling loop never loops. *)
Theorem watch_mode_runs md5 cmd n c :
  steps md5 cmd class_find_impl n (WStart, []) c ->
  (n <= 2)%nat /\
  (c = (WStart, []) \/ c = (WLoop ∅, [start_msg]) \/
   c = (WStopped, [start_msg; stop_msg]) \/ c = (WCrashed (py "AttributeError"), [start_msg])).
Proof.
  intros Hs. destruct (steps_rank _ _ _ (WStart, []) _ 2 eq_refl Hs) as [Hn [k Hk]]. split; [done|].
  destruct c as [[| m | | e] [|s1 [|s2 [|s3 out]]]]; cbn [watch_rank] in Hk; try discriminate;
    repeat case_bool_decide; try discriminate; subst; auto.
Qed.

(** In every environment the loop of this class can always move on
    from the loop state, and without an interrupt its first round ends in
    [AttributeError]: the only moves from the loop are the two exits. *)
Lemma watch_loop_progress md5 cmd os lc out :
  (exists c', wstep md5 cmd class_find_impl os (WLoop lc, out) c') /\
  forall c', wstep md5 cmd class_find_impl os (WLoop lc, out) c' ->
             c' = (WStopped, out ++ [stop_msg]) \/ c' = (WCrashed (py "AttributeError"), out).
Proof.
  rewrite class_find_impl_none. split.
  - eexists. apply w_interrupt.
  - intros c' Hs. inversion Hs; subst; try congruence; auto.
Qed.

(** ** The markdown report *)

Lemma startswith_app p a r :
  (length p <= length a)%nat -> str_startswith p (a ++ r) = str_startswith p a.
Proof.
  revert a. induction p as [|c p IH]; intros [|d a] Hl; simpl in *; try done; [lia|].
  rewrite IH by lia. done.
Qed.

(** A line is an entry by its first five characters. *)
Lemma is_entry_app a r : (5 <= length a)%nat -> is_entry (a ++ r) = is_entry a.
Proof. intros H. unfold is_entry. apply startswith_app. exact H. Qed.

Lemma filter_issue_lines l :
  List.filter is_entry (flat_map issue_lines l) = map (fun i => hd [] (issue_lines i)) l.
Proof.
  induction l as [|i l IH]; [done|]. cbn [flat_map map]. rewrite List.filter_app, IH.
  unfold issue_lines. cbn [List.filter hd].
  rewrite (app_assoc [NL]), is_entry_app, (is_entry_app (py "  - *Suggestion*: ")) by (vm_compute; lia).
  change (is_entry ([NL] ++ py "- **")) with true.
  change (is_entry (py "  - *Suggestion*: ")) with false. by rewrite <- app_assoc.
Qed.

Lemma entry_false a r : (5 <= length a)%nat -> is_entry a = false -> is_entry (a ++ r) = false.
Proof. intros Hl He. by rewrite is_entry_app. Qed.

Lemma filter_level_section data level :
  List.filter is_entry (level_section data level) =
  map (fun i => hd [] (issue_lines i))
    (List.filter (fun i => bool_decide (i_level i = level)) (issues data)).
Proof.
  unfold level_section. cbv zeta.
  destruct (List.filter _ (issues data)) as [|i l]; [done|]. cbn [List.filter].
  rewrite (app_assoc [NL]), entry_false, filter_issue_lines; [done| |reflexivity].
  vm_compute. lia.
Qed.

(** C29. The entries of the markdown report are the issues of level
    "critical", then "warning", then "suggestion", each group in the order
    of [data['issues']]; an issue of any other level is not shown. *)
Theorem markdown_entries now_iso data :
  List.filter is_entry (md_lines now_iso data) =
  flat_map (fun level => map (fun i => hd [] (issue_lines i))
              (List.filter (fun i => bool_decide (i_level i = level)) (issues data)))
    report_levels.
Proof.
  unfold md_lines. rewrite List.filter_app. cbn [List.filter].
  replace (is_entry (py "# Project Context Sync Report")) with false by (vm_compute; reflexivity).
  rewrite !(app_assoc [NL]), !entry_false by (vm_compute; first [reflexivity | lia]).
  destruct (issues data) as [|i l] eqn:E.
  - vm_compute. reflexivity.
  - cbn [List.filter app].
    replace (is_entry ([NL] ++ py "## Issues Found")) with false by (vm_compute; reflexivity).
    unfold report_levels. cbn [flat_map].
    rewrite !List.filter_app, !filter_level_section, E. done.
Qed.

(** ** [main] *)

(** C30. Without [--watch], [main] prints nothing and ends normally,
    whatever [--format], [--strict], [--quiet] and [--interval] say; with
    [--cache] it may instead raise the error of creating [~/.cache/sync]. *)
Theorem main_without_watch `{os : OS} argv a :
  parse_args argv = Parsed a -> watch a = false ->
  main argv =
  if ArgParse.cache a then
    match os_mkdir (path_div (path_div os_home [py ".cache"]) [py "sync"]) with
    | inl e => MRaise e
    | inr _ => MDone []
    end
  else MDone [].
Proof.
  intros Hp Hw. unfold main, init_command, SyncCache.init_cache. rewrite Hp.
  destruct (ArgParse.cache a); [destruct (os_mkdir _)|]; by rewrite ?Hw.
Qed.

(** ** Witnesses *)

Lemma watch_mode_runs_witness :
  let os := os_of_listing (Path [py "proj"]) [] [] [] in
  let cmd := {| args := defaults; cache := None |} in
  steps id cmd class_find_impl 2 (WStart, []) (WCrashed (py "AttributeError"), [start_msg])
  /\ (2 <= 2)%nat.
Proof.
  intros os cmd.
  assert (H : steps id cmd class_find_impl 2 (WStart, []) (WCrashed (py "AttributeError"), [start_msg])).
  { apply (steps_S _ _ _ os 1 _ (WLoop ∅, [] ++ [start_msg])); [apply w_start|].
    apply (steps_S _ _ _ os 0 _ (WCrashed (py "AttributeError"), [] ++ [start_msg]));
      [apply w_no_attr, class_find_impl_none|apply steps_0]. }
  split; [exact H|exact (proj1 (watch_mode_runs id cmd 2 _ H))].
Defined.

Lemma main_without_watch_witness :
  let os := os_of_listing (Path [py "proj"]) [] [] [] in
  parse_args [py "--format"; py "json"; py "--strict"] =
    Parsed {| ArgParse.format := JSON; ArgParse.watch := false; ArgParse.interval := 5%Z;
              ArgParse.cache := false; ArgParse.strict := true; ArgParse.quiet := false |} /\
  main (os := os) [py "--format"; py "json"; py "--strict"] = MDone [].
Proof.
  intros os.
  assert (H : parse_args [py "--format"; py "json"; py "--strict"] =
    Parsed {| ArgParse.format := JSON; ArgParse.watch := false; ArgParse.interval := 5%Z;
              ArgParse.cache := false; ArgParse.strict := true; ArgParse.quiet := false |}) by (vm_compute; reflexivity).
  split; [exact H|]. rewrite (main_without_watch (os := os) _ _ H eq_refl). reflexivity.
Defined.

End AdvancedSyncCommand.
